(** * Workload-aware flow control: registry, scoring policy, header contract

    A shallow embedding of the workload metrics registry
    ([pkg/epp/datastore/workload_registry.go]) and of the workload-aware
    ordering policy ([WorkloadAwarePolicy], package [intraflow]) of the
    endpoint picker, with the properties the design document states
    about them.

    Conventions of the embedding.
    - [int64] and [time.Duration] are [Z] with the two's-complement
      wrap-around written out ([wrap64]); [time.Time] is a [Z] count of
      nanoseconds on the process's monotonic clock.
    - [time.Now()] is an explicit argument: every function that reads the
      clock takes the reading it obtained.
    - [sync.Map] is a [gmap string _]; the per-entry mutex and the
      goroutine plumbing ([cleanupTicker], [stopCleanup]) have no
      sequential content and are left out.  A method that mutates an
      entry through its pointer writes the entry back into the map.
    - [float64] is an interface ([Float64]) with two implementations:
      IEEE-754 binary64 (the kernel's primitive floats, what the compiled
      program computes on amd64) and exact rational arithmetic (the
      formulas as the documentation writes them). *)

From Stdlib Require Import ZArith QArith Qminmax Lia Lqa Bool List.
From Stdlib Require Import Floats.PrimFloat Floats.FloatOps Floats.SpecFloat
  Floats.FloatAxioms Floats.FloatLemmas.
From Stdlib Require Uint63.
From stdpp Require Import gmap strings fin_maps.

#[local] Open Scope Z_scope.
#[local] Set Warnings "-inexact-float".

(** ** Machine integers *)

Definition int64_min : Z := - 2 ^ 63.
Definition int64_max : Z := 2 ^ 63 - 1.

(** Two's-complement reduction of an integer result to [int64]. *)
Definition wrap64 (z : Z) : Z := (z + 2 ^ 63) mod 2 ^ 64 - 2 ^ 63.

Definition in_int64 (z : Z) : bool := (int64_min <=? z) && (z <=? int64_max).

(** [clamp c lo hi]: [c] moved to the nearest bound of [lo..hi]. *)
Definition clamp (c lo hi : Z) : Z :=
  if c <? lo then lo else if hi <? c then hi else c.

(** ** float64 *)

Class Float64 (F : Type) : Type := {
  (** the decimal constant [n/d] of the program text *)
  flit : Z -> positive -> F;
  (** the conversion [float64(n)] of an integer *)
  float64_of_int : Z -> F;
  fadd : F -> F -> F;
  fsub : F -> F -> F;
  fmul : F -> F -> F;
  fdiv : F -> F -> F;
  (** [x == y] and [x < y] *)
  feqb : F -> F -> bool;
  fltb : F -> F -> bool;
  (** [math.Min] *)
  math_Min : F -> F -> F;
  (** the conversion [int64(x)], also [time.Duration(x)] *)
  int64_of_float : F -> Z
}.

Declare Scope f64_scope.
Delimit Scope f64_scope with f64.
Infix "+" := fadd : f64_scope.
Infix "-" := fsub : f64_scope.
Infix "*" := fmul : f64_scope.
Infix "/" := fdiv : f64_scope.
Infix "==?" := feqb (at level 70) : f64_scope.
Infix "<?" := fltb : f64_scope.

(** [x > y] and [x != y] as Go writes them. *)
Definition fgtb {F} `{Float64 F} (x y : F) : bool := fltb y x.
Definition fneb {F} `{Float64 F} (x y : F) : bool := negb (feqb x y).

(** *** IEEE-754 binary64 *)

Module Binary64.

(** [float64(n)]: the integer rounded to the nearest double, ties to
    even. *)
Definition of_int (z : Z) : float :=
  SF2Prim (binary_normalize prec emax z 0 false).

(** A decimal constant whose numerator and denominator are exact doubles
    is the correctly rounded quotient. *)
Definition lit (n : Z) (d : positive) : float :=
  PrimFloat.div (of_int n) (of_int (Zpos d)).

(** [math.Min], with its special cases: [-Inf] wins, then [NaN], and
    [-0] is below [+0]. *)
Definition Min (x y : float) : float :=
  if PrimFloat.eqb x neg_infinity || PrimFloat.eqb y neg_infinity
  then neg_infinity
  else if PrimFloat.is_nan x || PrimFloat.is_nan y then nan
  else if PrimFloat.eqb x zero && PrimFloat.eqb x y
  then (if PrimFloat.get_sign x then x else y)
  else if PrimFloat.ltb x y then x else y.

(** [int64(x)]: truncation toward zero.  Out of range, and for NaN and
    the infinities, amd64 yields the minimal [int64]. *)
Definition to_int (x : float) : Z :=
  match Prim2SF x with
  | S754_zero _ => 0
  | S754_finite s m e =>
      let v := if 0 <=? e then Zpos m * 2 ^ e else Zpos m / 2 ^ (- e) in
      let z := if s then - v else v in
      if in_int64 z then z else int64_min
  | _ => int64_min
  end.

End Binary64.

#[export] Instance binary64 : Float64 float := {|
  flit := Binary64.lit;
  float64_of_int := Binary64.of_int;
  fadd := PrimFloat.add;
  fsub := PrimFloat.sub;
  fmul := PrimFloat.mul;
  fdiv := PrimFloat.div;
  feqb := PrimFloat.eqb;
  fltb := PrimFloat.ltb;
  math_Min := Binary64.Min;
  int64_of_float := Binary64.to_int
|}.

(** *** Exact rational arithmetic

    The same operations without rounding.  Division by zero, which the
    program never performs on the paths studied here, yields [0] in [Q]. *)

Module Exact.

Definition ltb (x y : Q) : bool := negb (Qle_bool y x).

Definition Min (x y : Q) : Q := if ltb x y then x else y.

Definition to_int (x : Q) : Z :=
  let z := Z.quot (Qnum x) (Zpos (Qden x)) in
  if in_int64 z then z else int64_min.

End Exact.

#[export] Instance exact : Float64 Q := {|
  flit := fun n d => Qmake n d;
  float64_of_int := inject_Z;
  fadd := Qplus;
  fsub := Qminus;
  fmul := Qmult;
  fdiv := Qdiv;
  feqb := Qeq_bool;
  fltb := Exact.ltb;
  math_Min := Exact.Min;
  int64_of_float := Exact.to_int
|}.

(** ** Package time *)

Definition Duration : Type := Z.
Definition Time : Type := Z.

Definition Nanosecond : Duration := 1.
Definition Second : Duration := 1000000000.
Definition Minute : Duration := 60 * Second.

(** [t.Sub(u)]: the difference, saturated to the range of [Duration]. *)
Definition Time_Sub (t u : Time) : Duration :=
  let d := t - u in
  if d <? int64_min then int64_min
  else if int64_max <? d then int64_max
  else d.

(** [t.Before(u)] *)
Definition Time_Before (t u : Time) : bool := t <? u.

(** [d.Seconds()]: whole seconds plus the fraction, as the library
    computes it ([sec := d / Second; nsec := d % Second;
    float64(sec) + float64(nsec)/1e9], with Go's truncating [/] and [%]). *)
Definition Duration_Seconds {F} `{Float64 F} (d : Duration) : F :=
  let sec := Z.quot d Second in
  let nsec := Z.rem d Second in
  (float64_of_int sec + float64_of_int nsec / flit 1000000000 1)%f64.

(** ** The workload registry ([workload_registry.go])

    The file holds two revisions of the registry; the later one, with
    the [WorkloadHandle...] methods and the wait-time average, is the one
    embedded.  The earlier [IncrementActive] and [DecrementActive] have
    the bodies of [WorkloadHandleNewRequest] and
    [WorkloadHandleCompletedRequest]. *)

Section Registry.

Context {F : Type} `{Float64 F}.

Record WorkloadMetrics : Type := mkWorkloadMetrics {
  WorkloadID : string;
  TotalRequests : Z;
  ActiveRequests : Z;
  SlidingWindowRequests : Z;
  WindowStartTime : Time;
  LastRequestTime : Time;
  AverageWaitTime : Duration;
  DispatchedCount : Z;
  EMAAlpha : F
}.

Record WorkloadRegistry : Type := mkWorkloadRegistry {
  workloads : gmap string WorkloadMetrics;
  windowDuration : Duration
}.

(** Replacing the map of a registry; the window length is fixed at
    construction. *)
Definition with_workloads (wr : WorkloadRegistry)
    (ws : gmap string WorkloadMetrics) : WorkloadRegistry :=
  {| workloads := ws; windowDuration := windowDuration wr |}.

Definition NewWorkloadRegistry (windowDuration : Duration) : WorkloadRegistry :=
  let windowDuration :=
    if windowDuration <=? 0 then 60 * Second else windowDuration in
  {| workloads := ∅; windowDuration := windowDuration |}.

(** [sync.Map.LoadOrStore]: the value already present, or else the given
    one after storing it. *)
Definition LoadOrStore (ws : gmap string WorkloadMetrics) (key : string)
    (value : WorkloadMetrics) : WorkloadMetrics * gmap string WorkloadMetrics :=
  match ws !! key with
  | Some actual => (actual, ws)
  | None => (value, <[key := value]> ws)
  end.

(** The composite literal of [WorkloadHandleNewRequest]; the fields it
    does not name take their zero value. *)
Definition fresh_metrics (workloadID : string) (now : Time) : WorkloadMetrics :=
  {| WorkloadID := workloadID;
     TotalRequests := 0;
     ActiveRequests := 0;
     SlidingWindowRequests := 0;
     WindowStartTime := now;
     LastRequestTime := now;
     AverageWaitTime := 0;
     DispatchedCount := 0;
     EMAAlpha := flit 0 1 |}.

(** The body of [WorkloadHandleNewRequest] under the entry's lock. *)
Definition new_request_update (windowDuration : Duration) (now : Time)
    (metrics : WorkloadMetrics) : WorkloadMetrics :=
  let total := wrap64 (TotalRequests metrics + 1) in
  let active := wrap64 (ActiveRequests metrics + 1) in
  let reset := windowDuration <? Time_Sub now (WindowStartTime metrics) in
  {| WorkloadID := WorkloadID metrics;
     TotalRequests := total;
     ActiveRequests := active;
     SlidingWindowRequests :=
       if reset then 1 else wrap64 (SlidingWindowRequests metrics + 1);
     WindowStartTime := if reset then now else WindowStartTime metrics;
     LastRequestTime := now;
     AverageWaitTime := AverageWaitTime metrics;
     DispatchedCount := DispatchedCount metrics;
     EMAAlpha := EMAAlpha metrics |}.

Definition WorkloadHandleNewRequest (wr : WorkloadRegistry)
    (workloadID : string) (now : Time) : WorkloadRegistry :=
  let '(metrics, ws) :=
    LoadOrStore (workloads wr) workloadID (fresh_metrics workloadID now) in
  with_workloads wr
    (<[workloadID := new_request_update (windowDuration wr) now metrics]> ws).

(** The body of [WorkloadHandleDispatchedRequest] under the entry's
    lock. *)
Definition dispatched_update (waitTime : Duration)
    (metrics : WorkloadMetrics) : WorkloadMetrics :=
  let alpha :=
    if (EMAAlpha metrics ==? flit 0 1)%f64 then flit 2 10 else EMAAlpha metrics in
  let average :=
    if DispatchedCount metrics =? 0 then waitTime
    else
      let oldAvg := float64_of_int (AverageWaitTime metrics) in
      let newWait := float64_of_int waitTime in
      int64_of_float (alpha * newWait + (flit 1 1 - alpha) * oldAvg)%f64 in
  {| WorkloadID := WorkloadID metrics;
     TotalRequests := TotalRequests metrics;
     ActiveRequests := ActiveRequests metrics;
     SlidingWindowRequests := SlidingWindowRequests metrics;
     WindowStartTime := WindowStartTime metrics;
     LastRequestTime := LastRequestTime metrics;
     AverageWaitTime := average;
     DispatchedCount := wrap64 (DispatchedCount metrics + 1);
     EMAAlpha := alpha |}.

Definition WorkloadHandleDispatchedRequest (wr : WorkloadRegistry)
    (workloadID : string) (waitTime : Duration) : WorkloadRegistry :=
  match workloads wr !! workloadID with
  | None => wr
  | Some metrics =>
      with_workloads wr
        (<[workloadID := dispatched_update waitTime metrics]> (workloads wr))
  end.

(** The body of [WorkloadHandleCompletedRequest] under the entry's lock. *)
Definition completed_update (metrics : WorkloadMetrics) : WorkloadMetrics :=
  {| WorkloadID := WorkloadID metrics;
     TotalRequests := TotalRequests metrics;
     ActiveRequests :=
       if 0 <? ActiveRequests metrics
       then wrap64 (ActiveRequests metrics - 1)
       else ActiveRequests metrics;
     SlidingWindowRequests := SlidingWindowRequests metrics;
     WindowStartTime := WindowStartTime metrics;
     LastRequestTime := LastRequestTime metrics;
     AverageWaitTime := AverageWaitTime metrics;
     DispatchedCount := DispatchedCount metrics;
     EMAAlpha := EMAAlpha metrics |}.

Definition WorkloadHandleCompletedRequest (wr : WorkloadRegistry)
    (workloadID : string) : WorkloadRegistry :=
  match workloads wr !! workloadID with
  | None => wr
  | Some metrics =>
      with_workloads wr
        (<[workloadID := completed_update metrics]> (workloads wr))
  end.

(** [GetRequestRate] performs at most one division.  [rate_operands]
    is the function up to that division: [None] on the three paths that
    return [0.0], otherwise the dividend and the divisor. *)
Definition rate_operands (wr : WorkloadRegistry) (workloadID : string)
    (now : Time) : option (F * F) :=
  match workloads wr !! workloadID with
  | None => None
  | Some metrics =>
      let windowAge := Time_Sub now (WindowStartTime metrics) in
      if windowDuration wr <? windowAge then None
      else if (Duration_Seconds windowAge ==? flit 0 1)%f64 then None
      else Some (float64_of_int (SlidingWindowRequests metrics),
                 Duration_Seconds windowAge)
  end.

Definition GetRequestRate (wr : WorkloadRegistry) (workloadID : string)
    (now : Time) : F :=
  match rate_operands wr workloadID now with
  | None => flit 0 1
  | Some (requests, seconds) => (requests / seconds)%f64
  end.

(** [GetMetrics]: a copy of the entry, [nil] when there is none. *)
Definition GetMetrics (wr : WorkloadRegistry) (workloadID : string)
    : option WorkloadMetrics :=
  workloads wr !! workloadID.

(** The predicate [isInactive] of [cleanup]. *)
Definition isInactive (now : Time) (metrics : WorkloadMetrics) : bool :=
  (ActiveRequests metrics =? 0)
  && (5 * Minute <? Time_Sub now (LastRequestTime metrics)).

(** [cleanup]: [Range] visits every entry of the map and the callback
    deletes the inactive ones from it. *)
Definition cleanup (wr : WorkloadRegistry) (now : Time) : WorkloadRegistry :=
  with_workloads wr
    (map_fold
       (fun key metrics ws => if isInactive now metrics then delete key ws else ws)
       (workloads wr) (workloads wr)).

(** [GetAllWorkloadIDs] *)
Definition GetAllWorkloadIDs (wr : WorkloadRegistry) : list string :=
  (map_to_list (workloads wr)).*1.

(** *** Histories of registry calls *)

Inductive Op : Type :=
| OpNewRequest (workloadID : string) (now : Time)
| OpDispatchedRequest (workloadID : string) (waitTime : Duration)
| OpCompletedRequest (workloadID : string)
| OpCleanup (now : Time).

Definition step (wr : WorkloadRegistry) (op : Op) : WorkloadRegistry :=
  match op with
  | OpNewRequest id now => WorkloadHandleNewRequest wr id now
  | OpDispatchedRequest id w => WorkloadHandleDispatchedRequest wr id w
  | OpCompletedRequest id => WorkloadHandleCompletedRequest wr id
  | OpCleanup now => cleanup wr now
  end.

(** The registry after a history, oldest call first. *)
Definition run (ops : list Op) (wr : WorkloadRegistry) : WorkloadRegistry :=
  fold_left step ops wr.

(** The calls of the request life cycle that the counters depend on. *)
Definition is_new_or_completed (op : Op) : bool :=
  match op with
  | OpNewRequest _ _ | OpCompletedRequest _ => true
  | _ => false
  end.

(** The clock reading a call carries, if any. *)
Definition op_time (op : Op) : option Time :=
  match op with
  | OpNewRequest _ now | OpCleanup now => Some now
  | _ => None
  end.

End Registry.

Arguments WorkloadMetrics F : clear implicits.
Arguments WorkloadRegistry F : clear implicits.
Arguments Op : clear implicits.

(** ** The workload-aware ordering policy (package [intraflow]) *)

(** What [types.WorkloadContext] exposes of a request's identity. *)
Record WorkloadContext : Type := mkWorkloadContext {
  GetWorkloadID : string;
  GetCriticality : Z
}.

(** A [types.FlowControlRequest]; [GetWorkloadContext] may answer [nil]. *)
Record FlowControlRequest : Type := mkFlowControlRequest {
  ID : string;
  ByteSize : Z;
  GetWorkloadContext : option WorkloadContext
}.

(** A [types.QueueItemAccessor]. *)
Record QueueItem : Type := mkQueueItem {
  OriginalRequest : FlowControlRequest;
  EnqueueTime : Time
}.

Section Policy.

Context {F : Type} `{Float64 F}.

Record WorkloadAwarePolicyConfig : Type := mkWorkloadAwarePolicyConfig {
  WaitTimeWeight : F;
  CriticalityWeight : F;
  RequestRateWeight : F;
  MaxWaitTimeSeconds : F;
  MaxRequestRate : F
}.

Definition DefaultWorkloadAwarePolicyConfig : WorkloadAwarePolicyConfig :=
  {| WaitTimeWeight := flit 4 10;
     CriticalityWeight := flit 4 10;
     RequestRateWeight := flit 2 10;
     MaxWaitTimeSeconds := flit 60 1;
     MaxRequestRate := flit 100 1 |}.

(** [workloadRegistry] is a pointer that may be [nil]. *)
Record WorkloadAwarePolicy : Type := mkWorkloadAwarePolicy {
  config : WorkloadAwarePolicyConfig;
  workloadRegistry : option (WorkloadRegistry F)
}.

Definition NewWorkloadAwarePolicy (registry : option (WorkloadRegistry F))
    (config : WorkloadAwarePolicyConfig) : WorkloadAwarePolicy :=
  {| config := config; workloadRegistry := registry |}.

Definition NewWorkloadAwarePolicyWithDefaults
    (registry : option (WorkloadRegistry F)) : WorkloadAwarePolicy :=
  NewWorkloadAwarePolicy registry DefaultWorkloadAwarePolicyConfig.

(** The first block of [computeScore]: the workload id and the
    criticality that the rest of the function scores with. *)
Definition scoring_identity (item : QueueItem) : string * Z :=
  match GetWorkloadContext (OriginalRequest item) with
  | None => ("default"%string, 3)
  | Some workloadCtx =>
      let criticality := GetCriticality workloadCtx in
      (GetWorkloadID workloadCtx,
       if (criticality <? 1) || (5 <? criticality) then 3 else criticality)
  end.

Definition effective_criticality (item : QueueItem) : Z :=
  (scoring_identity item).2.

(** The second block: what the registry reports for the workload.  [tick]
    is the clock reading [GetRequestRate] takes. *)
Definition registry_inputs (p : WorkloadAwarePolicy) (workloadID : string)
    (tick : Time) : F * F :=
  match workloadRegistry p with
  | None => (flit 0 1, flit 0 1)
  | Some registry =>
      let avgWaitTime :=
        match GetMetrics registry workloadID with
        | Some metrics => Duration_Seconds (AverageWaitTime metrics)
        | None => flit 0 1
        end in
      (avgWaitTime, GetRequestRate registry workloadID tick)
  end.

(** The last block: normalisation and the weighted sum. *)
Definition weighted_score (cfg : WorkloadAwarePolicyConfig)
    (avgWaitTime : F) (criticality : Z) (requestRate : F) : F :=
  let normalizedWait :=
    math_Min (avgWaitTime / MaxWaitTimeSeconds cfg)%f64 (flit 1 1) in
  let normalizedCrit := (float64_of_int criticality / flit 5 1)%f64 in
  let normalizedRate :=
    math_Min (requestRate / MaxRequestRate cfg)%f64 (flit 1 1) in
  ((normalizedWait * WaitTimeWeight cfg)
   + (normalizedCrit * CriticalityWeight cfg)
   - (normalizedRate * RequestRateWeight cfg))%f64.

(** [computeScore(item, now)].  The parameter [now] is not read by the
    body; the request rate is taken at [tick]. *)
Definition computeScore (p : WorkloadAwarePolicy) (item : QueueItem)
    (now tick : Time) : F :=
  let '(workloadID, criticality) := scoring_identity item in
  let '(avgWaitTime, requestRate) := registry_inputs p workloadID tick in
  weighted_score (config p) avgWaitTime criticality requestRate.

(** [Less(a, b)]: [now] is the reading [Less] takes, [tickA] and [tickB]
    the readings of the two score computations. *)
Definition Less (p : WorkloadAwarePolicy) (now tickA tickB : Time)
    (a b : option QueueItem) : bool :=
  match a, b with
  | None, None => false
  | None, Some _ => false
  | Some _, None => true
  | Some a, Some b =>
      let scoreA := computeScore p a now tickA in
      let scoreB := computeScore p b now tickB in
      if fneb scoreA scoreB then fgtb scoreA scoreB
      else Time_Before (EnqueueTime a) (EnqueueTime b)
  end.

(** [Less] with the registry observed at one instant. *)
Definition Less_at (p : WorkloadAwarePolicy) (now : Time)
    (a b : option QueueItem) : bool :=
  Less p now now now a b.

End Policy.

Arguments WorkloadAwarePolicyConfig F : clear implicits.
Arguments WorkloadAwarePolicy F : clear implicits.

(** ** The workload identity header ([x-workload-context]) *)

Module Header.

(** What the handler sees of the header: nothing, bytes that are not
    JSON, or a JSON object whose two fields may each be missing. *)
Inductive WorkloadHeader : Type :=
| HeaderMissing
| HeaderMalformed
| HeaderJSON (workload_id : option string) (criticality : option Z).

Definition clamp_criticality (c : Z) : Z := clamp c 1 5.

(** Modelled from the spec: [extractWorkloadContext] of
    [pkg/epp/handlers/request.go], whose source is not part of the tree
    studied here (its test table [TestExtractWorkloadContext] is).  The
    contract reads: a missing header yields a freshly generated unique id
    and criticality 3; malformed JSON likewise; an empty [workload_id] is
    replaced by a generated id; a criticality outside 1..5 is clamped to
    the nearest bound, and 3 is the default only when the field is absent.
    [fresh] is the generated identifier. *)
Definition extractWorkloadContext (fresh : string) (h : WorkloadHeader)
    : WorkloadContext :=
  match h with
  | HeaderMissing | HeaderMalformed =>
      {| GetWorkloadID := fresh; GetCriticality := 3 |}
  | HeaderJSON workload_id criticality =>
      {| GetWorkloadID :=
           match workload_id with
           | Some id => if String.eqb id "" then fresh else id
           | None => fresh
           end;
         GetCriticality :=
           match criticality with
           | Some c => clamp_criticality c
           | None => 3
           end |}
  end.

(** The validation step of the handler as the phase-2 implementation notes
    print it: any out-of-range value is replaced by 3.  The test table in
    the tree expects the clamping of [extractWorkloadContext] above. *)
Definition phase2_criticality (c : Z) : Z :=
  if (c <? 1) || (5 <? c) then 3 else c.

End Header.

(** ** The earlier revision of the registry

    The first revision in [workload_registry.go]: no wait-time average,
    and the request life cycle is reported through [IncrementActive] and
    [DecrementActive].  The registry's tests are written against it. *)

Module Earlier.

Record WorkloadMetrics : Type := mkWorkloadMetrics {
  WorkloadID : string;
  TotalRequests : Z;
  ActiveRequests : Z;
  SlidingWindowRequests : Z;
  WindowStartTime : Time;
  LastRequestTime : Time
}.

Record WorkloadRegistry : Type := mkWorkloadRegistry {
  workloads : gmap string WorkloadMetrics;
  windowDuration : Duration
}.

Definition NewWorkloadRegistry (windowDuration : Duration) : WorkloadRegistry :=
  let windowDuration :=
    if windowDuration <=? 0 then 60 * Second else windowDuration in
  {| workloads := ∅; windowDuration := windowDuration |}.

Definition IncrementActive (wr : WorkloadRegistry) (workloadID : string)
    (now : Time) : WorkloadRegistry :=
  let stored :=
    {| WorkloadID := workloadID;
       TotalRequests := 0;
       ActiveRequests := 0;
       SlidingWindowRequests := 0;
       WindowStartTime := now;
       LastRequestTime := now |} in
  let '(metrics, ws) :=
    match workloads wr !! workloadID with
    | Some actual => (actual, workloads wr)
    | None => (stored, <[workloadID := stored]> (workloads wr))
    end in
  let reset := windowDuration wr <? Time_Sub now (WindowStartTime metrics) in
  {| workloads :=
       <[workloadID :=
           {| WorkloadID := WorkloadID metrics;
              TotalRequests := wrap64 (TotalRequests metrics + 1);
              ActiveRequests := wrap64 (ActiveRequests metrics + 1);
              SlidingWindowRequests :=
                if reset then 1 else wrap64 (SlidingWindowRequests metrics + 1);
              WindowStartTime := if reset then now else WindowStartTime metrics;
              LastRequestTime := now |}]> ws;
     windowDuration := windowDuration wr |}.

Definition DecrementActive (wr : WorkloadRegistry) (workloadID : string)
    : WorkloadRegistry :=
  match workloads wr !! workloadID with
  | None => wr
  | Some metrics =>
      {| workloads :=
           <[workloadID :=
               {| WorkloadID := WorkloadID metrics;
                  TotalRequests := TotalRequests metrics;
                  ActiveRequests :=
                    if 0 <? ActiveRequests metrics
                    then wrap64 (ActiveRequests metrics - 1)
                    else ActiveRequests metrics;
                  SlidingWindowRequests := SlidingWindowRequests metrics;
                  WindowStartTime := WindowStartTime metrics;
                  LastRequestTime := LastRequestTime metrics |}]> (workloads wr);
         windowDuration := windowDuration wr |}
  end.

Definition GetRequestRate {F} `{Float64 F} (wr : WorkloadRegistry)
    (workloadID : string) (now : Time) : F :=
  match workloads wr !! workloadID with
  | None => flit 0 1
  | Some metrics =>
      let windowAge := Time_Sub now (WindowStartTime metrics) in
      if windowDuration wr <? windowAge then flit 0 1
      else if (Duration_Seconds windowAge ==? flit 0 1)%f64 then flit 0 1
      else (float64_of_int (SlidingWindowRequests metrics)
            / Duration_Seconds windowAge)%f64
  end.

Definition GetMetrics (wr : WorkloadRegistry) (workloadID : string)
    : option WorkloadMetrics :=
  workloads wr !! workloadID.

Definition cleanup (wr : WorkloadRegistry) (now : Time) : WorkloadRegistry :=
  {| workloads :=
       map_fold
         (fun key metrics ws =>
            if (ActiveRequests metrics =? 0)
               && (5 * Minute <? Time_Sub now (LastRequestTime metrics))
            then delete key ws else ws)
         (workloads wr) (workloads wr);
     windowDuration := windowDuration wr |}.

Definition GetAllWorkloadIDs (wr : WorkloadRegistry) : list string :=
  (map_to_list (workloads wr)).*1.

End Earlier.

(** What the earlier revision keeps of an entry of the later one, and of
    a registry. *)
Definition forget_wait {F} `{Float64 F} (m : WorkloadMetrics F)
    : Earlier.WorkloadMetrics :=
  {| Earlier.WorkloadID := WorkloadID m;
     Earlier.TotalRequests := TotalRequests m;
     Earlier.ActiveRequests := ActiveRequests m;
     Earlier.SlidingWindowRequests := SlidingWindowRequests m;
     Earlier.WindowStartTime := WindowStartTime m;
     Earlier.LastRequestTime := LastRequestTime m |}.

Definition forget_waits {F} `{Float64 F} (wr : WorkloadRegistry F)
    : Earlier.WorkloadRegistry :=
  {| Earlier.workloads := forget_wait <$> workloads wr;
     Earlier.windowDuration := windowDuration wr |}.

(** ** The test client ([workload_aware_client.go])

    The part of the client that judges a run: the results, ordered by
    completion time, are grouped by criticality, and the average
    completion positions of the groups are compared. *)

Module Client.

(** A [RequestResult]; the [Error] field is left out. *)
Record RequestResult : Type := mkRequestResult {
  RequestID : Z;
  WorkloadID : string;
  Criticality : Z;
  SendTime : Time;
  CompleteTime : Time;
  Duration : Duration;
  StatusCode : Z;
  Success : bool
}.

(** The inner loop of [calculateAvgPosition]: the 1-based position of the
    first result with the given [RequestID], counting on from [pos]. *)
Fixpoint first_position (pos : Z) (sortedResults : list RequestResult)
    (requestID : Z) : option Z :=
  match sortedResults with
  | [] => None
  | r :: rest =>
      if RequestID r =? requestID then Some (pos + 1)
      else first_position (pos + 1) rest requestID
  end.

(** The outer loop: [totalPos] after the group. *)
Definition total_position (sortedResults group : list RequestResult) : Z :=
  fold_left
    (fun totalPos result =>
       match first_position 0 sortedResults (RequestID result) with
       | Some position => wrap64 (totalPos + position)
       | None => totalPos
       end)
    group 0.

Definition calculateAvgPosition {F} `{Float64 F}
    (sortedResults group : list RequestResult) : F :=
  if Z.of_nat (length group) =? 0 then flit 0 1
  else (float64_of_int (total_position sortedResults group)
        / float64_of_int (Z.of_nat (length group)))%f64.

(** [criticalityGroups[crit]] of [analyzeResults]: the successful results
    of that criticality, in completion order; empty for a criticality
    without one. *)
Definition criticalityGroups (sortedResults : list RequestResult) (crit : Z)
    : list RequestResult :=
  List.filter (fun result => Success result && (Criticality result =? crit))
    sortedResults.

(** The verdict of [analyzeResults]: the flag [policyWorking]. *)
Definition policyWorking {F} `{Float64 F} (sortedResults : list RequestResult)
    : bool :=
  let highPriorityAvg :=
    calculateAvgPosition sortedResults (criticalityGroups sortedResults 5) in
  let mediumPriorityAvg :=
    calculateAvgPosition sortedResults (criticalityGroups sortedResults 3) in
  let lowPriorityAvg :=
    calculateAvgPosition sortedResults (criticalityGroups sortedResults 1) in
  fltb highPriorityAvg mediumPriorityAvg && fltb mediumPriorityAvg lowPriorityAvg.

End Client.

(** ** The comparisons of float64 as an order *)

(** What [Less] needs of [==] and [<]: they behave as the equality and the
    strict order of a total preorder on the values that are numbers.  A
    NaN compares unequal to everything, itself included, which is why
    totality is asked only of values that equal themselves. *)
Class Float64Order (F : Type) `{Float64 F} : Prop := {
  feqb_sym : forall x y : F, feqb x y = feqb y x;
  feqb_trans : forall x y z : F,
    feqb x y = true -> feqb y z = true -> feqb x z = true;
  fltb_trans : forall x y z : F,
    fltb x y = true -> fltb y z = true -> fltb x z = true;
  fltb_asym : forall x y : F, fltb x y = true -> fltb y x = false;
  fltb_not_eq : forall x y : F, fltb x y = true -> feqb x y = false;
  fltb_eq_l : forall x y z : F,
    feqb x y = true -> fltb x z = true -> fltb y z = true;
  fltb_eq_r : forall x y z : F,
    feqb y z = true -> fltb x y = true -> fltb x z = true;
  fltb_total : forall x y : F,
    feqb x x = true -> feqb y y = true -> feqb x y = false ->
    fltb x y = true \/ fltb y x = true
}.

(** The position of a binary64 value on the number line, as a triple
    compared lexicographically; NaN has none. *)
Definition sf_key (x : spec_float) : option (Z * Z * Z) :=
  match x with
  | S754_nan => None
  | S754_infinity s => Some (if s then -2 else 2, 0, 0)
  | S754_zero _ => Some (0, 0, 0)
  | S754_finite s m e =>
      Some (if s then (-1, - e, - Zpos m) else (1, e, Zpos m))
  end.

Definition lex_ltb (a b : Z * Z * Z) : bool :=
  let '(a1, a2, a3) := a in
  let '(b1, b2, b3) := b in
  (a1 <? b1) || ((a1 =? b1) && ((a2 <? b2) || ((a2 =? b2) && (a3 <? b3)))).

Definition lex_eqb (a b : Z * Z * Z) : bool :=
  let '(a1, a2, a3) := a in
  let '(b1, b2, b3) := b in
  (a1 =? b1) && (a2 =? b2) && (a3 =? b3).

Definition key_ltb (x y : option (Z * Z * Z)) : bool :=
  match x, y with
  | Some a, Some b => lex_ltb a b
  | _, _ => false
  end.

Definition key_eqb (x y : option (Z * Z * Z)) : bool :=
  match x, y with
  | Some a, Some b => lex_eqb a b
  | _, _ => false
  end.

(** ** The sign of float64 values *)

(** The values that are certainly not below zero, closed under the
    operations [GetRequestRate] and [Duration.Seconds] apply to counters
    and elapsed times.  (For binary64 this is more than "not [< 0]":
    minus zero is not below zero, but dividing by it yields minus
    infinity.) *)
Class Float64Sign (F : Type) `{Float64 F} (fnonneg : F -> Prop) : Prop := {
  fnonneg_of_int : forall z : Z, 0 <= z -> fnonneg (float64_of_int z);
  fnonneg_lit : forall (n : Z) (d : positive), 0 <= n -> fnonneg (flit n d);
  fnonneg_add : forall x y : F, fnonneg x -> fnonneg y -> fnonneg (fadd x y);
  fnonneg_div : forall x y : F, fnonneg x -> fnonneg y -> fnonneg (fdiv x y);
  fnonneg_not_lt : forall x : F, fnonneg x -> fltb x (flit 0 1) = false;
  fzero_seconds : feqb (Duration_Seconds 0) (flit 0 1) = true
}.

(** A binary64 value whose sign bit is clear, or a NaN. *)
Definition sign_clear (x : spec_float) : bool :=
  match x with
  | S754_nan => true
  | S754_zero s | S754_infinity s | S754_finite s _ _ => negb s
  end.

(** Not below zero, on binary64 and in exact arithmetic. *)
Definition binary64_nonneg (x : float) : Prop := sign_clear (Prim2SF x) = true.

Definition exact_nonneg (x : Q) : Prop := (0 <= x)%Q.

(** ** Invariants and sample states used in the statements below *)

Section Invariants.

Context {F : Type} `{Float64 F}.

(** The counters of an entry are consistent. *)
Definition counters_ok (m : WorkloadMetrics F) : Prop :=
  0 <= ActiveRequests m <= TotalRequests m.

(** The counters of an entry after at most [n] calls. *)
Definition bounded_by (n : Z) (m : WorkloadMetrics F) : Prop :=
  counters_ok m /\ TotalRequests m <= n /\ 1 <= SlidingWindowRequests m <= n.

(** Every entry is consistent and its lifetime counter has room for one
    more request. *)
Definition registry_ok (wr : WorkloadRegistry F) : Prop :=
  forall id m, workloads wr !! id = Some m ->
    counters_ok m /\ TotalRequests m < int64_max.

(** The decay factor of an entry is still unset or is the default. *)
Definition alpha_unset_or_default (m : WorkloadMetrics F) : Prop :=
  EMAAlpha m = flit 0 1 \/ EMAAlpha m = flit 2 10.

(** No call of the history read the clock later than [now]. *)
Definition clock_upto (now : Time) (ops : list Op) : Prop :=
  Forall (fun op => forall t, op_time op = Some t -> t <= now) ops.

End Invariants.

(** A history in which one workload completes more often than it starts. *)
Definition over_completed : list Op :=
  [OpNewRequest "tenant-a" 0; OpCompletedRequest "tenant-a";
   OpCompletedRequest "tenant-a"; OpCompletedRequest "tenant-b"].

(** Two workloads, one idle and one with a request in flight. *)
Definition idle_and_busy : list Op :=
  [OpNewRequest "idle" 0; OpNewRequest "busy" 0; OpCompletedRequest "idle"].

Definition ten_minutes : Time := 10 * Minute.

(** ** Sample requests and registry states *)

(** A queue item that carries a workload context, after [createMockItem]
    of the policy's tests. *)
Definition scored_item (workloadID : string) (criticality : Z)
    (enqueueTime : Time) : QueueItem :=
  {| OriginalRequest :=
       {| ID := "test-request";
          ByteSize := 1024;
          GetWorkloadContext :=
            Some {| GetWorkloadID := workloadID;
                    GetCriticality := criticality |} |};
     EnqueueTime := enqueueTime |}.

(** A queue item whose request has no workload context. *)
Definition bare_item (enqueueTime : Time) : QueueItem :=
  {| OriginalRequest :=
       {| ID := "test-request"; ByteSize := 1024; GetWorkloadContext := None |};
     EnqueueTime := enqueueTime |}.

(** A registry with a 60 s window in which workload ["batch"] was
    admitted at time 0 and dispatched after waiting [secs] seconds, and
    workload ["interactive"] is admitted at second 61. *)
Definition waited_registry {F} `{Float64 F} (secs : Z) : WorkloadRegistry F :=
  run [OpNewRequest "batch" 0;
       OpDispatchedRequest "batch" (secs * Second);
       OpNewRequest "interactive" (61 * Second)]
    (NewWorkloadRegistry (60 * Second)).

Definition waited_policy {F} `{Float64 F} (secs : Z) : WorkloadAwarePolicy F :=
  NewWorkloadAwarePolicyWithDefaults (Some (waited_registry secs)).

(** The policy as the plugin registry creates it: no workload registry. *)
Definition unwired_policy {F} `{Float64 F} : WorkloadAwarePolicy F :=
  NewWorkloadAwarePolicyWithDefaults None.

(** A registry in which ["batch"] was dispatched twice, after 100 ms and
    after 200 ms. *)
Definition twice_dispatched {F} `{Float64 F} : WorkloadRegistry F :=
  run [OpNewRequest "batch" 0;
       OpDispatchedRequest "batch" 100000000;
       OpDispatchedRequest "batch" 200000000]
    (NewWorkloadRegistry (60 * Second)).

(** Fifty requests of one workload in the same instant. *)
Definition flood : list Op := repeat (OpNewRequest "workload-flood" 0) 50.

(** A registry with a two-hour window and a single request at time 0. *)
Definition long_window_policy : WorkloadAwarePolicy float :=
  NewWorkloadAwarePolicyWithDefaults
    (Some (run [OpNewRequest "batch" 0] (NewWorkloadRegistry (7200 * Second)))).

(** A policy whose configuration sets the wait-time cap to zero. *)
Definition zero_cap_policy : WorkloadAwarePolicy float :=
  NewWorkloadAwarePolicy None
    {| WaitTimeWeight := flit 4 10;
       CriticalityWeight := flit 4 10;
       RequestRateWeight := flit 2 10;
       MaxWaitTimeSeconds := flit 0 1;
       MaxRequestRate := flit 100 1 |}.

(** ** Histories seen from one workload *)

(** The calls that can touch the entry of [workloadID]: those made for it,
    and every sweep. *)
Definition concerns (workloadID : string) (op : Op) : bool :=
  match op with
  | OpNewRequest w _ | OpDispatchedRequest w _ | OpCompletedRequest w =>
      bool_decide (w = workloadID)
  | OpCleanup _ => true
  end.

Definition is_request_of (workloadID : string) (op : Op) : bool :=
  match op with
  | OpNewRequest w _ => bool_decide (w = workloadID)
  | _ => false
  end.


(** How many requests of [workloadID] a history starts, and how many it
    completes. *)
Definition started (workloadID : string) (ops : list Op) : Z :=
  Z.of_nat (length (List.filter (is_request_of workloadID) ops)).



(** Every wait reported by a dispatch of the history lies in [lo..hi]. *)
Definition waits_within (lo hi : Duration) (ops : list Op) : Prop :=
  Forall (fun op => match op with
                    | OpDispatchedRequest _ w => lo <= w <= hi
                    | _ => True
                    end) ops.


(** The workload a call is made for; a sweep is made for none. *)
Definition target (op : Op) : option string :=
  match op with
  | OpNewRequest w _ | OpDispatchedRequest w _ | OpCompletedRequest w => Some w
  | OpCleanup _ => None
  end.

(** A history without sweeps. *)
Definition no_sweeps (ops : list Op) : Prop :=
  Forall (fun op => target op <> None) ops.

Definition is_dispatch_of (workloadID : string) (op : Op) : bool :=
  match op with
  | OpDispatchedRequest w _ => bool_decide (w = workloadID)
  | _ => false
  end.

(** How many dispatches a history reports for [workloadID]. *)
Definition dispatched (workloadID : string) (ops : list Op) : Z :=
  Z.of_nat (length (List.filter (is_dispatch_of workloadID) ops)).

(** The calls of a history that follow the first request of
    [workloadID]; none when it sends no request. *)
Fixpoint after_first_request (workloadID : string) (ops : list Op) : list Op :=
  match ops with
  | [] => []
  | op :: rest =>
      if is_request_of workloadID op then rest
      else after_first_request workloadID rest
  end.

(** [workloadID] has an entry after every prefix of [ops] run from [wr]:
    no sweep reaps it on the way. *)
Definition tracked_throughout {F : Type} `{Float64 F} (workloadID : string)
    (wr : WorkloadRegistry F) (ops : list Op) : bool :=
  forallb
    (fun k => bool_decide (is_Some (workloads (run (take k ops) wr) !! workloadID)))
    (seq 0 (S (length ops))).

(** A burst: requests of one workload at the given clock readings. *)
Definition burst (workloadID : string) (times : list Time) : list Op :=
  map (OpNewRequest workloadID) times.

(** ** Sample histories and results *)

(** Two tenants: ["tenant-a"] sends two requests, both dispatched and one
    completed; ["tenant-b"] sends one, still queued at the sweep. *)
Definition served : list Op :=
  [OpNewRequest "tenant-a" 0;
   OpNewRequest "tenant-b" (1 * Second);
   OpDispatchedRequest "tenant-a" (2 * Second);
   OpNewRequest "tenant-a" (3 * Second);
   OpDispatchedRequest "tenant-a" (4 * Second);
   OpCompletedRequest "tenant-a";
   OpCleanup (400 * Second)].

(** ["batch"] is served once and reaped by a sweep ten minutes later; it
    returns with two requests, both dispatched, and survives the next
    sweep. *)
Definition reaped_and_back : list Op :=
  [OpNewRequest "batch" 0;
   OpDispatchedRequest "batch" (1 * Second);
   OpCompletedRequest "batch";
   OpCleanup (600 * Second);
   OpNewRequest "batch" (700 * Second);
   OpDispatchedRequest "batch" (2 * Second);
   OpNewRequest "batch" (701 * Second);
   OpDispatchedRequest "batch" (4 * Second);
   OpCleanup (702 * Second)].

(** A workload under load: ["batch"] is admitted at time 0 and dispatched
    after waiting 60 s, sends fifty more requests at second 61, and
    ["interactive"] is admitted at second 62. *)
Definition under_load : list Op :=
  [OpNewRequest "batch" 0; OpDispatchedRequest "batch" (60 * Second)]
  ++ repeat (OpNewRequest "batch" (61 * Second)) 50
  ++ [OpNewRequest "interactive" (62 * Second)].

(** The default policy over the registry after [under_load], window
    60 s. *)
Definition loaded_policy {F} `{Float64 F} : WorkloadAwarePolicy F :=
  NewWorkloadAwarePolicyWithDefaults
    (Some (run under_load (NewWorkloadRegistry (60 * Second)))).

(** The policy over the registry after [flood]. *)
Definition flood_policy : WorkloadAwarePolicy Q :=
  NewWorkloadAwarePolicyWithDefaults
    (Some (run flood (NewWorkloadRegistry (60 * Second)))).

(** A run of the client in which the only critical request failed. *)
Definition failed_critical_run : list Client.RequestResult :=
  [ {| Client.RequestID := 2; Client.WorkloadID := "normal-workload";
       Client.Criticality := 3; Client.SendTime := 200000000;
       Client.CompleteTime := 900000000; Client.Duration := 700000000;
       Client.StatusCode := 200; Client.Success := true |};
    {| Client.RequestID := 3; Client.WorkloadID := "critical-workload";
       Client.Criticality := 5; Client.SendTime := 400000000;
       Client.CompleteTime := 1000000000; Client.Duration := 600000000;
       Client.StatusCode := 503; Client.Success := false |};
    {| Client.RequestID := 1; Client.WorkloadID := "background-workload";
       Client.Criticality := 1; Client.SendTime := 0;
       Client.CompleteTime := 1500000000; Client.Duration := 1500000000;
       Client.StatusCode := 200; Client.Success := true |} ].

(** * Properties *)

(** ** Integers and durations *)

Lemma wrap64_in_range (z : Z) :
  int64_min <= z <= int64_max -> wrap64 z = z.
Proof.
  unfold wrap64, int64_min, int64_max. intros Hz.
  rewrite Z.mod_small; lia.
Qed.

Lemma Time_Sub_exact (t u : Time) :
  int64_min <= t - u <= int64_max -> Time_Sub t u = t - u.
Proof.
  unfold Time_Sub. intros Hd.
  destruct (Z.ltb_spec (t - u) int64_min); [lia |].
  destruct (Z.ltb_spec int64_max (t - u)); [lia | reflexivity].
Qed.

(** Saturation does not move a difference across a bound that is itself a
    duration. *)
Lemma Time_Sub_gt (t u : Time) (d : Duration) :
  int64_min <= d < int64_max -> (d <? Time_Sub t u) = (d <? t - u).
Proof.
  unfold Time_Sub. intros Hd.
  destruct (Z.ltb_spec (t - u) int64_min);
    [| destruct (Z.ltb_spec int64_max (t - u))];
    destruct (Z.ltb_spec d (t - u)); try lia;
    apply Z.ltb_lt || apply Z.ltb_ge; lia.
Qed.

Lemma Time_Sub_nonneg (t u : Time) : u <= t -> 0 <= Time_Sub t u.
Proof.
  unfold Time_Sub, int64_min, int64_max. intros Hle.
  destruct (Z.ltb_spec (t - u) (- 2 ^ 63)); [lia |].
  destruct (Z.ltb_spec (2 ^ 63 - 1) (t - u)); lia.
Qed.

(** ** The registry *)

Section RegistryFacts.

Context {F : Type} `{Float64 F}.

Implicit Types (wr : WorkloadRegistry F) (m : WorkloadMetrics F).

(** *** [cleanup] as a filter *)

Lemma cleanup_fold_lookup (now : Time) (b ws : gmap string (WorkloadMetrics F))
    (k : string) :
  map_fold
    (fun key metrics acc => if isInactive now metrics then delete key acc else acc)
    b ws !! k
  = match ws !! k with
    | Some m => if isInactive now m then None else b !! k
    | None => b !! k
    end.
Proof.
  revert k.
  apply (map_fold_weak_ind (fun r visited => forall k,
    r !! k = match visited !! k with
             | Some m => if isInactive now m then None else b !! k
             | None => b !! k
             end)).
  - intros k. by rewrite lookup_empty.
  - intros i x visited r Hfresh IH k.
    destruct (decide (k = i)) as [-> | Hne].
    + rewrite lookup_insert_eq. destruct (isInactive now x).
      * by rewrite lookup_delete_eq.
      * by rewrite IH, Hfresh.
    + rewrite lookup_insert_ne by done. destruct (isInactive now x).
      * rewrite lookup_delete_ne by done. apply IH.
      * apply IH.
Qed.

Lemma cleanup_lookup wr (now : Time) (k : string) :
  workloads (cleanup wr now) !! k
  = match workloads wr !! k with
    | Some m => if isInactive now m then None else Some m
    | None => None
    end.
Proof.
  unfold cleanup; simpl. rewrite cleanup_fold_lookup.
  destruct (workloads wr !! k) as [m |] eqn:E; [| done].
  by destruct (isInactive now m).
Qed.

Lemma isInactive_spec (now : Time) m :
  isInactive now m = true
  <-> ActiveRequests m = 0 /\ 5 * Minute < now - LastRequestTime m.
Proof.
  unfold isInactive. rewrite andb_true_iff, Z.eqb_eq.
  rewrite Time_Sub_gt by (unfold int64_min, int64_max, Minute, Second; lia).
  by rewrite Z.ltb_lt.
Qed.

(** *** Lookups after one call *)

Lemma new_request_lookup wr (id : string) (now : Time) (k : string) :
  workloads (WorkloadHandleNewRequest wr id now) !! k
  = if decide (id = k)
    then Some (new_request_update (windowDuration wr) now
                 (default (fresh_metrics id now) (workloads wr !! id)))
    else workloads wr !! k.
Proof.
  unfold WorkloadHandleNewRequest, LoadOrStore.
  destruct (workloads wr !! id) as [m |] eqn:E; simpl;
    case_decide; subst; simplify_map_eq; try done.
Qed.

Lemma dispatched_lookup wr (id : string) (w : Duration) (k : string) :
  workloads (WorkloadHandleDispatchedRequest wr id w) !! k
  = if decide (id = k)
    then dispatched_update w <$> workloads wr !! id
    else workloads wr !! k.
Proof.
  unfold WorkloadHandleDispatchedRequest.
  destruct (workloads wr !! id) as [m |] eqn:E; simpl;
    case_decide; subst; simplify_map_eq; try done.
Qed.

Lemma completed_lookup wr (id : string) (k : string) :
  workloads (WorkloadHandleCompletedRequest wr id) !! k
  = if decide (id = k)
    then completed_update <$> workloads wr !! id
    else workloads wr !! k.
Proof.
  unfold WorkloadHandleCompletedRequest.
  destruct (workloads wr !! id) as [m |] eqn:E; simpl;
    case_decide; subst; simplify_map_eq; try done.
Qed.

Lemma step_windowDuration wr (op : Op) :
  windowDuration (step wr op) = windowDuration wr.
Proof.
  destruct op; simpl; try done.
  - unfold WorkloadHandleNewRequest.
    by destruct (LoadOrStore _ _ _).
  - unfold WorkloadHandleDispatchedRequest. by destruct (_ !! _).
  - unfold WorkloadHandleCompletedRequest. by destruct (_ !! _).
Qed.

End RegistryFacts.

Section RegistryCounters.

Context {F : Type} `{Float64 F}.

Implicit Types (wr : WorkloadRegistry F) (m : WorkloadMetrics F).

Lemma bounded_by_mono (n n' : Z) m : n <= n' -> bounded_by n m -> bounded_by n' m.
Proof. unfold bounded_by, counters_ok. lia. Qed.

Lemma fresh_metrics_counters (id : string) (now : Time) :
  TotalRequests (fresh_metrics (F := F) id now) = 0
  /\ ActiveRequests (fresh_metrics (F := F) id now) = 0
  /\ SlidingWindowRequests (fresh_metrics (F := F) id now) = 0.
Proof. done. Qed.

(** One more request: both counters go up by one, within [int64]. *)
Lemma new_request_update_counters (wd : Duration) (now : Time) m :
  0 <= ActiveRequests m <= TotalRequests m ->
  TotalRequests m < int64_max ->
  TotalRequests (new_request_update wd now m) = TotalRequests m + 1
  /\ ActiveRequests (new_request_update wd now m) = ActiveRequests m + 1.
Proof.
  intros Hc Hroom. unfold new_request_update; simpl.
  rewrite !wrap64_in_range; unfold int64_min, int64_max in *; lia.
Qed.

Lemma new_request_update_window (wd : Duration) (now : Time) (n : Z) m :
  0 <= SlidingWindowRequests m <= n -> n < int64_max ->
  1 <= SlidingWindowRequests (new_request_update wd now m) <= n + 1.
Proof.
  intros Hs Hroom. unfold new_request_update; simpl.
  destruct (wd <? Time_Sub now (WindowStartTime m)); [lia |].
  rewrite wrap64_in_range; unfold int64_min, int64_max in *; lia.
Qed.

(** A completion: the lifetime counter stays, the active counter goes down
    by one unless it is already zero. *)
Lemma completed_update_counters m :
  0 <= ActiveRequests m <= int64_max ->
  TotalRequests (completed_update m) = TotalRequests m
  /\ ActiveRequests (completed_update m)
     = (if 0 <? ActiveRequests m then ActiveRequests m - 1 else ActiveRequests m)
  /\ SlidingWindowRequests (completed_update m) = SlidingWindowRequests m.
Proof.
  intros Ha. unfold completed_update; simpl.
  destruct (Z.ltb_spec 0 (ActiveRequests m)); [| done].
  rewrite wrap64_in_range; unfold int64_min, int64_max in *; lia.
Qed.

Lemma step_bounded wr (op : Op) (n : Z) :
  0 <= n < int64_max ->
  (forall id m, workloads wr !! id = Some m -> bounded_by n m) ->
  forall id m, workloads (step wr op) !! id = Some m -> bounded_by (n + 1) m.
Proof.
  intros Hn Hinv id m' Hlook.
  destruct op as [w now | w d | w | now]; cbn [step] in Hlook.
  - rewrite new_request_lookup in Hlook. case_decide as Hid.
    + injection Hlook as <-.
      set (m0 := default (fresh_metrics w now) (workloads wr !! w)).
      assert (Hm0 : 0 <= ActiveRequests m0 <= TotalRequests m0
                    /\ TotalRequests m0 <= n
                    /\ 0 <= SlidingWindowRequests m0 <= n).
      { subst m0. destruct (workloads wr !! w) as [m |] eqn:E; simpl.
        - destruct (Hinv _ _ E) as (? & ? & ?). unfold counters_ok in *. lia.
        - lia. }
      destruct Hm0 as (Hc & Ht & Hs).
      destruct (new_request_update_counters (windowDuration wr) now m0 Hc)
        as [Et Ea]; [lia |].
      pose proof (new_request_update_window (windowDuration wr) now n m0 Hs)
        as Hw.
      unfold bounded_by, counters_ok. rewrite Et, Ea. lia.
    + eapply bounded_by_mono; [| by eapply Hinv]. lia.
  - rewrite dispatched_lookup in Hlook. case_decide as Hid.
    + destruct (workloads wr !! w) as [m |] eqn:E; [| done].
      injection Hlook as <-.
      eapply (bounded_by_mono n); [lia |].
      pose proof (Hinv _ _ E) as Hm.
      unfold bounded_by, counters_ok in *. simpl. lia.
    + eapply bounded_by_mono; [| by eapply Hinv]. lia.
  - rewrite completed_lookup in Hlook. case_decide as Hid.
    + destruct (workloads wr !! w) as [m |] eqn:E; [| done].
      injection Hlook as <-.
      destruct (Hinv _ _ E) as (Hc & Ht & Hs). unfold counters_ok in Hc.
      destruct (completed_update_counters m) as (Et & Ea & Es); [lia |].
      unfold bounded_by, counters_ok. rewrite Et, Ea, Es.
      destruct (Z.ltb_spec 0 (ActiveRequests m)); lia.
    + eapply bounded_by_mono; [| by eapply Hinv]. lia.
  - rewrite cleanup_lookup in Hlook.
    destruct (workloads wr !! id) as [m |] eqn:E; [| done].
    destruct (isInactive now m); [done |]. injection Hlook as <-.
    eapply bounded_by_mono; [| by eapply Hinv]. lia.
Qed.

Lemma run_bounded (ops : list Op) wr (n : Z) :
  0 <= n -> n + Z.of_nat (length ops) <= int64_max ->
  (forall id m, workloads wr !! id = Some m -> bounded_by n m) ->
  forall id m, workloads (run ops wr) !! id = Some m ->
    bounded_by (n + Z.of_nat (length ops)) m.
Proof.
  revert wr n. induction ops as [| op ops IH]; intros wr n Hn Hlen Hinv id m.
  - simpl. rewrite Z.add_0_r. apply Hinv.
  - cbn [run fold_left length] in *. intros Hlook.
    replace (n + Z.of_nat (S (length ops)))
      with ((n + 1) + Z.of_nat (length ops)) by lia.
    apply (IH (step wr op) (n + 1)) with (id := id); [lia | lia | | done].
    apply step_bounded; [lia | done].
Qed.

(** Every state reached from the empty registry by a history that is
    shorter than the range of [int64]. *)
Lemma reachable_bounded (wd : Duration) (ops : list Op) :
  Z.of_nat (length ops) <= int64_max ->
  forall id m, workloads (run ops (NewWorkloadRegistry wd)) !! id = Some m ->
    bounded_by (Z.of_nat (length ops)) m.
Proof.
  intros Hlen id m Hlook.
  apply (run_bounded ops (NewWorkloadRegistry wd) 0) with (id := id);
    [lia | lia | | done].
  intros k m0. unfold NewWorkloadRegistry; simpl. by rewrite lookup_empty.
Qed.

Lemma run_app (pre post : list Op) wr :
  run (pre ++ post) wr = run post (run pre wr).
Proof. unfold run. apply fold_left_app. Qed.

End RegistryCounters.

Section RegistryProperties.

Context {F : Type} `{Float64 F}.

Implicit Types (wr : WorkloadRegistry F) (m : WorkloadMetrics F).

(** C5 (counter non-negativity).  Start from the empty registry and apply
    any history of [WorkloadHandleNewRequest] and
    [WorkloadHandleCompletedRequest] calls, in any interleaving and for
    any workload ids, also one with more completions than new requests
    for an id.  After every prefix of the history, every tracked workload
    has [ActiveRequests >= 0].  The history is shorter than [2^63] calls,
    so that no [int64] counter wraps around. *)
Theorem active_requests_never_negative (wd : Duration) (ops : list Op)
    (n : nat) (id : string) m :
  forallb is_new_or_completed ops = true ->
  Z.of_nat (length ops) <= int64_max ->
  workloads (run (take n ops) (NewWorkloadRegistry wd)) !! id = Some m ->
  0 <= ActiveRequests m.
Proof.
  intros _ Hlen Hlook.
  apply reachable_bounded in Hlook.
  - destruct Hlook as (Hc & _). unfold counters_ok in Hc. lia.
  - rewrite length_take. lia.
Qed.

(** C8 (reaper correctness).  For a tracked workload, [cleanup] at clock
    reading [now] deletes its entry exactly when [ActiveRequests == 0] and
    [now - LastRequestTime] exceeds five minutes; an entry that is kept is
    kept unchanged; an entry with [ActiveRequests > 0] is always kept,
    whatever its [LastRequestTime]; and [cleanup] adds no entry. *)
Theorem cleanup_removes_exactly_inactive wr (now : Time) (id : string) m :
  workloads wr !! id = Some m ->
  (workloads (cleanup wr now) !! id = None
   <-> ActiveRequests m = 0 /\ 5 * Minute < now - LastRequestTime m)
  /\ (workloads (cleanup wr now) !! id = None
      \/ workloads (cleanup wr now) !! id = Some m)
  /\ (0 < ActiveRequests m -> workloads (cleanup wr now) !! id = Some m)
  /\ (forall k, workloads wr !! k = None ->
                workloads (cleanup wr now) !! k = None).
Proof.
  intros Hlook.
  assert (Hnew : forall k, workloads wr !! k = None ->
                           workloads (cleanup wr now) !! k = None).
  { intros k Hk. by rewrite cleanup_lookup, Hk. }
  rewrite cleanup_lookup, Hlook.
  pose proof (isInactive_spec now m) as Hspec.
  destruct (isInactive now m) eqn:E.
  - split; [| split; [| split]].
    + split; [intros _; by apply Hspec | done].
    + by left.
    + intros Hpos. destruct Hspec as [Hspec _].
      destruct Hspec as [Hz _]; [done | lia].
    + exact Hnew.
  - split; [| split; [| split]].
    + split; [done |]. intros Hin. apply Hspec in Hin. done.
    + by right.
    + done.
    + exact Hnew.
Qed.

(** C9 (counter invariant).  In a registry whose entries satisfy
    [TotalRequests >= ActiveRequests >= 0] (and whose lifetime counters
    are below the largest [int64]), every operation keeps that invariant
    for every tracked workload and never lowers a [TotalRequests];
    [WorkloadHandleNewRequest] raises both counters of its workload by
    one, counting from zero for a workload it creates;
    [WorkloadHandleCompletedRequest] leaves [TotalRequests] alone and
    lowers [ActiveRequests] by one only when it is positive. *)
Theorem counters_invariant_preserved wr :
  registry_ok wr ->
  (forall op id m', workloads (step wr op) !! id = Some m' -> counters_ok m')
  /\ (forall op id m m',
        workloads wr !! id = Some m ->
        workloads (step wr op) !! id = Some m' ->
        TotalRequests m <= TotalRequests m')
  /\ (forall id now,
        let m := default (fresh_metrics id now) (workloads wr !! id) in
        exists m',
          workloads (WorkloadHandleNewRequest wr id now) !! id = Some m'
          /\ TotalRequests m' = TotalRequests m + 1
          /\ ActiveRequests m' = ActiveRequests m + 1)
  /\ (forall id m,
        workloads wr !! id = Some m ->
        exists m',
          workloads (WorkloadHandleCompletedRequest wr id) !! id = Some m'
          /\ TotalRequests m' = TotalRequests m
          /\ ActiveRequests m'
             = if 0 <? ActiveRequests m then ActiveRequests m - 1
               else ActiveRequests m).
Proof.
  intros Hok.
  assert (Hnew : forall id now,
    let m := default (fresh_metrics id now) (workloads wr !! id) in
    0 <= ActiveRequests m <= TotalRequests m /\ TotalRequests m < int64_max).
  { intros id now. destruct (workloads wr !! id) as [m |] eqn:E; simpl.
    - apply (Hok _ _ E).
    - unfold int64_max. lia. }
  assert (Hstep : forall op id m',
    workloads (step wr op) !! id = Some m' ->
    counters_ok m'
    /\ forall m, workloads wr !! id = Some m -> TotalRequests m <= TotalRequests m').
  { intros op id m' Hlook.
    destruct op as [w now | w d | w | now]; cbn [step] in Hlook.
    - rewrite new_request_lookup in Hlook. case_decide as Hid.
      + injection Hlook as <-. subst w.
        destruct (Hnew id now) as [Hc Hroom].
        destruct (new_request_update_counters (windowDuration wr) now _ Hc Hroom)
          as [Et Ea].
        unfold counters_ok. rewrite Et, Ea. split; [lia |].
        intros m E. rewrite E. simpl. lia.
      + split; [by apply (Hok _ _ Hlook) |].
        intros m E. rewrite E in Hlook. injection Hlook as <-. lia.
    - rewrite dispatched_lookup in Hlook. case_decide as Hid.
      + subst w. destruct (workloads wr !! id) as [m |] eqn:E; [| done].
        injection Hlook as <-. destruct (Hok _ _ E) as [Hc _].
        split; [exact Hc |]. intros m0 [= <-]. simpl. lia.
      + split; [by apply (Hok _ _ Hlook) |].
        intros m E. rewrite E in Hlook. injection Hlook as <-. lia.
    - rewrite completed_lookup in Hlook. case_decide as Hid.
      + subst w. destruct (workloads wr !! id) as [m |] eqn:E; [| done].
        injection Hlook as <-. destruct (Hok _ _ E) as [Hc Hroom].
        unfold counters_ok in Hc.
        destruct (completed_update_counters m) as (Et & Ea & _); [lia |].
        unfold counters_ok. rewrite Et, Ea. split.
        * destruct (Z.ltb_spec 0 (ActiveRequests m)); lia.
        * intros m0 [= <-]. lia.
      + split; [by apply (Hok _ _ Hlook) |].
        intros m E. rewrite E in Hlook. injection Hlook as <-. lia.
    - rewrite cleanup_lookup in Hlook.
      destruct (workloads wr !! id) as [m |] eqn:E; [| done].
      destruct (isInactive now m); [done |]. injection Hlook as <-.
      split; [by apply (Hok _ _ E) |]. intros m0 [= <-]. lia. }
  split; [| split; [| split]].
  - intros op id m' Hlook. by apply (Hstep op id m').
  - intros op id m m' Hm Hm'. by apply (Hstep op id m').
  - intros id now m. eexists. split.
    + rewrite new_request_lookup. by rewrite decide_True.
    + destruct (Hnew id now) as [Hc Hroom].
      by apply new_request_update_counters.
  - intros id m E. eexists. split.
    + rewrite completed_lookup, decide_True by done. by rewrite E.
    + destruct (Hok _ _ E) as [Hc Hroom]. unfold counters_ok in Hc.
      destruct (completed_update_counters m) as (Et & Ea & _); [lia | done].
Qed.

End RegistryProperties.

(** The history [over_completed] completes ["tenant-a"] twice after one
    request; the counter stays at zero. *)
Lemma active_requests_never_negative_witness :
  forallb is_new_or_completed over_completed = true
  /\ Z.of_nat (length over_completed) <= int64_max
  /\ exists m : WorkloadMetrics Q,
       workloads (run (take 3 over_completed) (NewWorkloadRegistry 0))
         !! "tenant-a" = Some m
       /\ ActiveRequests m = 0
       /\ 0 <= ActiveRequests m.
Proof.
  split; [reflexivity |]. split; [vm_compute; discriminate |].
  eexists. split; [vm_compute; reflexivity |].
  split; [reflexivity |].
  apply (active_requests_never_negative (F := Q) 0 over_completed 3 "tenant-a").
  - reflexivity.
  - vm_compute; discriminate.
  - vm_compute; reflexivity.
Defined.

(** Ten minutes after the history [idle_and_busy], the idle workload is
    reaped. *)
Lemma cleanup_removes_exactly_inactive_witness :
  exists m : WorkloadMetrics Q,
    let wr := run idle_and_busy (NewWorkloadRegistry 0) in
    workloads wr !! "idle" = Some m
    /\ workloads (cleanup wr ten_minutes) !! "idle" = None
    /\ ((workloads (cleanup wr ten_minutes) !! "idle" = None
         <-> ActiveRequests m = 0 /\ 5 * Minute < ten_minutes - LastRequestTime m)
        /\ (workloads (cleanup wr ten_minutes) !! "idle" = None
            \/ workloads (cleanup wr ten_minutes) !! "idle" = Some m)
        /\ (0 < ActiveRequests m
            -> workloads (cleanup wr ten_minutes) !! "idle" = Some m)
        /\ (forall k, workloads wr !! k = None ->
                      workloads (cleanup wr ten_minutes) !! k = None)).
Proof.
  eexists. cbv zeta. split; [vm_compute; reflexivity |].
  split; [vm_compute; reflexivity |].
  apply (cleanup_removes_exactly_inactive (F := Q)
           (run idle_and_busy (NewWorkloadRegistry 0)) ten_minutes "idle").
  vm_compute; reflexivity.
Defined.

Lemma counters_invariant_preserved_witness :
  let wr : WorkloadRegistry Q := run idle_and_busy (NewWorkloadRegistry 0) in
  registry_ok wr
  /\ (forall op id m', workloads (step wr op) !! id = Some m' -> counters_ok m')
  /\ (forall id m,
        workloads wr !! id = Some m ->
        exists m',
          workloads (WorkloadHandleCompletedRequest wr id) !! id = Some m'
          /\ TotalRequests m' = TotalRequests m
          /\ ActiveRequests m'
             = if 0 <? ActiveRequests m then ActiveRequests m - 1
               else ActiveRequests m).
Proof.
  cbv zeta.
  assert (Hok : registry_ok (F := Q) (run idle_and_busy (NewWorkloadRegistry 0))).
  { intros id m Hlook. apply reachable_bounded in Hlook.
    - destruct Hlook as (Hc & Ht & _). split; [exact Hc |].
      revert Ht. unfold int64_max. simpl. lia.
    - vm_compute; discriminate. }
  split; [exact Hok |].
  pose proof (counters_invariant_preserved (F := Q) _ Hok) as (H1 & _ & _ & H4).
  split; [exact H1 | exact H4].
Defined.

(** ** The order of float64 values *)

Ltac decide_Z_tests :=
  repeat match goal with
    | |- context [(?a <? ?b)%Z] => destruct (Z.ltb_spec a b)
    | |- context [(?a =? ?b)%Z] => destruct (Z.eqb_spec a b)
    end;
  cbn [orb andb]; try reflexivity; try lia.

Lemma SFltb_key (x y : spec_float) :
  SFltb x y = key_ltb (sf_key x) (sf_key y).
Proof.
  unfold SFltb.
  destruct x as [sx | sx | | sx mx ex], y as [sy | sy | | sy my ey];
    try destruct sx; try destruct sy; try reflexivity;
    cbn [SFcompare sf_key key_ltb lex_ltb];
    rewrite ?Pos.compare_cont_spec; cbn [Pos.switch_Eq];
    destruct (Z.compare_spec ex ey); destruct (Pos.compare_spec mx my);
    cbn [CompOpp]; decide_Z_tests.
Qed.

Lemma SFeqb_key (x y : spec_float) :
  SFeqb x y = key_eqb (sf_key x) (sf_key y).
Proof.
  unfold SFeqb.
  destruct x as [sx | sx | | sx mx ex], y as [sy | sy | | sy my ey];
    try destruct sx; try destruct sy; try reflexivity;
    cbn [SFcompare sf_key key_eqb lex_eqb];
    rewrite ?Pos.compare_cont_spec; cbn [Pos.switch_Eq];
    destruct (Z.compare_spec ex ey); destruct (Pos.compare_spec mx my);
    cbn [CompOpp]; decide_Z_tests.
Qed.

Lemma lex_ltb_spec (a b : Z * Z * Z) :
  lex_ltb a b = true
  <-> a.1.1 < b.1.1
      \/ (a.1.1 = b.1.1 /\ (a.1.2 < b.1.2 \/ (a.1.2 = b.1.2 /\ a.2 < b.2))).
Proof.
  destruct a as [[a1 a2] a3], b as [[b1 b2] b3]. cbn [lex_ltb fst snd].
  rewrite !orb_true_iff, !andb_true_iff, !orb_true_iff, !andb_true_iff,
    !Z.ltb_lt, !Z.eqb_eq.
  reflexivity.
Qed.

Lemma lex_eqb_spec (a b : Z * Z * Z) :
  lex_eqb a b = true <-> a.1.1 = b.1.1 /\ a.1.2 = b.1.2 /\ a.2 = b.2.
Proof.
  destruct a as [[a1 a2] a3], b as [[b1 b2] b3]. cbn [lex_eqb fst snd].
  rewrite !andb_true_iff, !Z.eqb_eq. tauto.
Qed.

(** Brings comparisons of keys to linear arithmetic over their
    components. *)
Ltac lex_arith :=
  repeat match goal with
    | k : (Z * Z * Z)%type |- _ => destruct k as [[? ?] ?]
    end;
  rewrite <- ?not_true_iff_false in *;
  rewrite ?lex_ltb_spec, ?lex_eqb_spec in *;
  cbn [fst snd] in *;
  first [lia | exfalso; lia].

#[export] Instance binary64_order : Float64Order float.
Proof.
  split; cbn [feqb fltb binary64]; intros x y;
    try (intros z; lazymatch type of z with float => idtac end);
    rewrite ?FloatAxioms.eqb_spec, ?FloatAxioms.ltb_spec, ?SFeqb_key, ?SFltb_key;
    destruct (sf_key (Prim2SF x)) as [a |];
    destruct (sf_key (Prim2SF y)) as [b |];
    try destruct (sf_key (Prim2SF z)) as [c |];
    cbn [key_eqb key_ltb]; try congruence.
  - destruct (lex_eqb a b) eqn:E1, (lex_eqb b a) eqn:E2; try reflexivity;
      lex_arith.
  - intros; lex_arith.
  - intros; lex_arith.
  - intros; lex_arith.
  - intros; lex_arith.
  - intros; lex_arith.
  - intros; lex_arith.
  - intros _ _ Hne.
    destruct (lex_ltb a b) eqn:E1; [by left |].
    destruct (lex_ltb b a) eqn:E2; [by right |]. exfalso. lex_arith.
Qed.

Lemma exact_ltb_lt (x y : Q) : Exact.ltb x y = true <-> (x < y)%Q.
Proof.
  unfold Exact.ltb. rewrite negb_true_iff, <- not_true_iff_false, Qle_bool_iff.
  split; [apply Qnot_le_lt | apply Qlt_not_le].
Qed.

Lemma exact_ltb_ge (x y : Q) : Exact.ltb x y = false <-> (y <= x)%Q.
Proof.
  unfold Exact.ltb. rewrite negb_false_iff. apply Qle_bool_iff.
Qed.

Lemma exact_eqb_eq (x y : Q) : Qeq_bool x y = true <-> (x == y)%Q.
Proof. apply Qeq_bool_iff. Qed.

Lemma exact_eqb_neq (x y : Q) : Qeq_bool x y = false <-> ~ (x == y)%Q.
Proof. rewrite <- not_true_iff_false, Qeq_bool_iff. reflexivity. Qed.

(** Brings the tests of the exact model to statements about rationals. *)
Ltac exact_arith :=
  cbn [feqb fltb exact] in *;
  rewrite ?exact_ltb_lt, ?exact_ltb_ge, ?exact_eqb_eq, ?exact_eqb_neq in *.

(** [lra] on rationals after turning divisions by constants into
    multiplications. *)
Ltac qlra := unfold Qdiv in *; cbn [Qinv Qnum Qden] in *; lra.

#[export] Instance exact_order : Float64Order Q.
Proof.
  split; cbn [feqb fltb exact].
  - intros x y. destruct (Qeq_bool x y) eqn:E1, (Qeq_bool y x) eqn:E2;
      try reflexivity; exact_arith; exfalso;
      [apply E2 | apply E1]; by symmetry.
  - intros x y z. exact_arith. lra.
  - intros x y z. exact_arith. lra.
  - intros x y. exact_arith. lra.
  - intros x y. exact_arith. lra.
  - intros x y z. exact_arith. lra.
  - intros x y z. exact_arith. lra.
  - intros x y _ _. exact_arith. intros Hne.
    destruct (Qlt_le_dec x y) as [Hlt | Hle]; [by left | right].
    apply Qle_lteq in Hle as [Hlt | Heq]; [exact Hlt |].
    exfalso. apply Hne. by symmetry.
Qed.

(** ** Dispatch and the moving average *)

Section Dispatch.

Context {F : Type} `{Float64 F}.

Implicit Types (wr : WorkloadRegistry F) (m : WorkloadMetrics F).

(** C1 (dispatch).  [WorkloadHandleDispatchedRequest] returns the registry
    as it is when the workload has no entry, so it never creates one.
    Otherwise it replaces the entry, and only that entry: with [alpha] the
    entry's [EMAAlpha], or 0.2 when that is zero, [AverageWaitTime]
    becomes the wait itself when [DispatchedCount] is 0, and otherwise
    [alpha*wait + (1-alpha)*previous] computed in float64 and converted
    back to a [time.Duration]; [DispatchedCount] goes up by one in both
    cases and the request counters are not touched. *)
Theorem dispatched_request_ema wr (id : string) (waitTime : Duration) :
  (workloads wr !! id = None ->
   WorkloadHandleDispatchedRequest wr id waitTime = wr)
  /\ (forall m,
        workloads wr !! id = Some m ->
        let alpha :=
          if (EMAAlpha m ==? flit 0 1)%f64 then flit 2 10 else EMAAlpha m in
        exists m',
          workloads (WorkloadHandleDispatchedRequest wr id waitTime) !! id
            = Some m'
          /\ (DispatchedCount m = 0 -> AverageWaitTime m' = waitTime)
          /\ (DispatchedCount m <> 0 ->
              AverageWaitTime m'
              = int64_of_float
                  (alpha * float64_of_int waitTime
                   + (flit 1 1 - alpha) * float64_of_int (AverageWaitTime m))%f64)
          /\ DispatchedCount m' = wrap64 (DispatchedCount m + 1)
          /\ EMAAlpha m' = alpha
          /\ TotalRequests m' = TotalRequests m
          /\ ActiveRequests m' = ActiveRequests m
          /\ SlidingWindowRequests m' = SlidingWindowRequests m)
  /\ (forall k, k <> id ->
        workloads (WorkloadHandleDispatchedRequest wr id waitTime) !! k
          = workloads wr !! k).
Proof.
  split; [| split].
  - intros Hnone. unfold WorkloadHandleDispatchedRequest. by rewrite Hnone.
  - intros m Hm alpha. exists (dispatched_update waitTime m). split.
    + rewrite dispatched_lookup, decide_True by done. by rewrite Hm.
    + unfold dispatched_update; cbn [AverageWaitTime DispatchedCount EMAAlpha
        TotalRequests ActiveRequests SlidingWindowRequests].
      fold alpha. repeat split.
      * intros ->. reflexivity.
      * intros Hne. apply Z.eqb_neq in Hne. by rewrite Hne.
  - intros k Hne. rewrite dispatched_lookup. by rewrite decide_False.
Qed.

End Dispatch.

(** In the states the registry reaches, [EMAAlpha] is still zero or is
    the default, so every blend uses [alpha = 0.2]. *)
Section DefaultAlpha.

Context {F : Type} `{Float64 F}.

Hypothesis zero_is_zero : feqb (flit 0 1) (flit 0 1) = true.
Hypothesis default_not_zero : feqb (flit 2 10) (flit 0 1) = false.

Implicit Types (wr : WorkloadRegistry F) (m : WorkloadMetrics F).

Lemma step_alpha wr (op : Op) :
  (forall id m, workloads wr !! id = Some m -> alpha_unset_or_default m) ->
  forall id m, workloads (step wr op) !! id = Some m -> alpha_unset_or_default m.
Proof.
  intros Hinv id m' Hlook.
  destruct op as [w now | w d | w | now]; cbn [step] in Hlook.
  - rewrite new_request_lookup in Hlook. case_decide as Hid.
    + injection Hlook as <-. unfold alpha_unset_or_default.
      cbn [new_request_update EMAAlpha].
      destruct (workloads wr !! w) as [m |] eqn:E; cbn [default].
      * by apply (Hinv w m).
      * by left.
    + by apply (Hinv id).
  - rewrite dispatched_lookup in Hlook. case_decide as Hid.
    + destruct (workloads wr !! w) as [m |] eqn:E; [| done].
      injection Hlook as <-. right. cbn [dispatched_update EMAAlpha].
      destruct (Hinv w m E) as [-> | ->].
      * by rewrite zero_is_zero.
      * by rewrite default_not_zero.
    + by apply (Hinv id).
  - rewrite completed_lookup in Hlook. case_decide as Hid.
    + destruct (workloads wr !! w) as [m |] eqn:E; [| done].
      injection Hlook as <-. by apply (Hinv w m).
    + by apply (Hinv id).
  - rewrite cleanup_lookup in Hlook.
    destruct (workloads wr !! id) as [m |] eqn:E; [| done].
    destruct (isInactive now m); [done |]. injection Hlook as <-.
    by apply (Hinv id).
Qed.

Lemma run_alpha (ops : list Op) wr :
  (forall id m, workloads wr !! id = Some m -> alpha_unset_or_default m) ->
  forall id m, workloads (run ops wr) !! id = Some m -> alpha_unset_or_default m.
Proof.
  revert wr. induction ops as [| op ops IH]; intros wr Hinv; [done |].
  cbn [run fold_left]. apply IH. by apply step_alpha.
Qed.

Lemma reachable_blend (wd : Duration) (ops : list Op) (id : string)
    (waitTime : Duration) m :
  workloads (run ops (NewWorkloadRegistry wd)) !! id = Some m ->
  DispatchedCount m <> 0 ->
  AverageWaitTime (dispatched_update waitTime m)
  = int64_of_float
      (flit 2 10 * float64_of_int waitTime
       + (flit 1 1 - flit 2 10) * float64_of_int (AverageWaitTime m))%f64.
Proof.
  intros Hlook Hcount.
  assert (Ha : alpha_unset_or_default m).
  { apply (run_alpha ops (NewWorkloadRegistry wd)) with (id := id); [| done].
    intros k m0. unfold NewWorkloadRegistry; cbn [workloads].
    by rewrite lookup_empty. }
  unfold dispatched_update; cbn [AverageWaitTime].
  apply Z.eqb_neq in Hcount. rewrite Hcount.
  destruct Ha as [-> | ->].
  - by rewrite zero_is_zero.
  - by rewrite default_not_zero.
Qed.

End DefaultAlpha.

Lemma reachable_blend_binary64 (wd : Duration) (ops : list Op) (id : string)
    (waitTime : Duration) (m : WorkloadMetrics float) :
  workloads (run ops (NewWorkloadRegistry wd)) !! id = Some m ->
  DispatchedCount m <> 0 ->
  AverageWaitTime (dispatched_update waitTime m)
  = Binary64.to_int
      (0.2 * Binary64.of_int waitTime
       + (1 - 0.2) * Binary64.of_int (AverageWaitTime m))%float.
Proof.
  intros Hlook Hcount.
  rewrite (reachable_blend (F := float)) with (wd := wd) (ops := ops) (id := id);
    try done; vm_compute; reflexivity.
Qed.

Lemma reachable_blend_exact (wd : Duration) (ops : list Op) (id : string)
    (waitTime : Duration) (m : WorkloadMetrics Q) :
  workloads (run ops (NewWorkloadRegistry wd)) !! id = Some m ->
  DispatchedCount m <> 0 ->
  AverageWaitTime (dispatched_update waitTime m)
  = Exact.to_int
      ((2 # 10) * inject_Z waitTime
       + (1 - (2 # 10)) * inject_Z (AverageWaitTime m))%Q.
Proof.
  intros Hlook Hcount.
  by rewrite (reachable_blend (F := Q)) with (wd := wd) (ops := ops) (id := id).
Qed.

(** The two-sample scenario of the registry's design notes, on the
    compiled arithmetic: the first dispatch stores the wait itself, the
    second blends with [alpha = 0.2]; 100 ms then 200 ms give 120 ms. *)
Lemma ema_two_samples_binary64 :
  (AverageWaitTime <$> workloads (twice_dispatched (F := float)) !! "batch")
    = Some 120000000
  /\ (DispatchedCount <$> workloads (twice_dispatched (F := float)) !! "batch")
    = Some 2.
Proof. split; vm_compute; reflexivity. Qed.

Lemma ema_two_samples_exact :
  (AverageWaitTime <$> workloads (twice_dispatched (F := Q)) !! "batch")
    = Some 120000000
  /\ (DispatchedCount <$> workloads (twice_dispatched (F := Q)) !! "batch")
    = Some 2.
Proof. split; vm_compute; reflexivity. Qed.

(** Rounding and truncation are visible: with waits of 1 ns and then
    3 ns the exact average [0.2*3 + 0.8*1 = 1.4] is stored as 1 ns. *)
Lemma ema_truncates :
  AverageWaitTime
    (dispatched_update (F := float) 3
       (dispatched_update (F := float) 1 (fresh_metrics "batch" 0))) = 1.
Proof. vm_compute. reflexivity. Qed.

(** A dispatch for an unknown workload leaves the empty registry empty. *)
Lemma dispatch_unknown_no_entry :
  workloads
    (WorkloadHandleDispatchedRequest (F := float)
       (NewWorkloadRegistry (60 * Second)) "ghost" Second) = ∅.
Proof. reflexivity. Qed.

(** ** The header contract *)

(** C4 (criticality at parse time).  For a header whose JSON parses and
    carries a criticality [c], [extractWorkloadContext] returns
    [clamp(c, 1, 5)]: 1 for zero and negative values, 5 for values above
    5, [c] itself inside the range, and so never the default for a value
    outside the range.  The default 3 is returned when the field is
    absent. *)
Theorem extractWorkloadContext_clamps (fresh : string)
    (workload_id : option string) (c : Z) :
  let parsed := Header.extractWorkloadContext fresh
                  (Header.HeaderJSON workload_id (Some c)) in
  GetCriticality parsed = clamp c 1 5
  /\ (c < 1 -> GetCriticality parsed = 1)
  /\ (5 < c -> GetCriticality parsed = 5)
  /\ (1 <= c <= 5 -> GetCriticality parsed = c)
  /\ (c < 1 \/ 5 < c -> GetCriticality parsed <> 3)
  /\ GetCriticality
       (Header.extractWorkloadContext fresh (Header.HeaderJSON workload_id None))
     = 3.
Proof.
  cbn [Header.extractWorkloadContext GetCriticality].
  unfold Header.clamp_criticality, clamp.
  destruct (Z.ltb_spec c 1), (Z.ltb_spec 5 c); repeat split; intros; lia.
Qed.

(** The rows of [TestExtractWorkloadContext], with the header already
    parsed: expected criticality, and the id when it is not generated. *)
Lemma extractWorkloadContext_test_table (fresh : string) :
  let run_case h := Header.extractWorkloadContext fresh h in
  run_case (Header.HeaderJSON (Some "fraud-detection") (Some 5))
    = {| GetWorkloadID := "fraud-detection"; GetCriticality := 5 |}
  /\ run_case (Header.HeaderJSON (Some "chatbot-prod") (Some 3))
    = {| GetWorkloadID := "chatbot-prod"; GetCriticality := 3 |}
  /\ run_case Header.HeaderMissing
    = {| GetWorkloadID := fresh; GetCriticality := 3 |}
  /\ run_case Header.HeaderMalformed
    = {| GetWorkloadID := fresh; GetCriticality := 3 |}
  /\ run_case (Header.HeaderJSON (Some "") (Some 4))
    = {| GetWorkloadID := fresh; GetCriticality := 4 |}
  /\ run_case (Header.HeaderJSON (Some "test-workload") (Some 0))
    = {| GetWorkloadID := "test-workload"; GetCriticality := 1 |}
  /\ run_case (Header.HeaderJSON (Some "test-workload") (Some (-5)))
    = {| GetWorkloadID := "test-workload"; GetCriticality := 1 |}
  /\ run_case (Header.HeaderJSON (Some "test-workload") (Some 10))
    = {| GetWorkloadID := "test-workload"; GetCriticality := 5 |}
  /\ run_case (Header.HeaderJSON (Some "test-workload") (Some 1))
    = {| GetWorkloadID := "test-workload"; GetCriticality := 1 |}
  /\ run_case (Header.HeaderJSON (Some "my-app_v2.0") (Some 3))
    = {| GetWorkloadID := "my-app_v2.0"; GetCriticality := 3 |}.
Proof. cbv zeta. repeat split. Qed.

(** The validation printed in the phase-2 notes differs from the contract
    exactly outside the range. *)
Lemma phase2_criticality_differs (c : Z) :
  Header.phase2_criticality c = Header.clamp_criticality c <-> 1 <= c <= 5.
Proof.
  unfold Header.phase2_criticality, Header.clamp_criticality, clamp.
  destruct (Z.ltb_spec c 1), (Z.ltb_spec 5 c); cbn [orb]; lia.
Qed.

(** ** The scoring policy *)

Section PolicyFacts.

Context {F : Type} `{Float64 F}.

Implicit Types (p : WorkloadAwarePolicy F) (item : QueueItem).

(** [computeScore] as the source writes it, in one piece. *)
Lemma computeScore_source p item (now tick : Time) :
  computeScore p item now tick
  = let workloadCtx := GetWorkloadContext (OriginalRequest item) in
    let workloadID :=
      match workloadCtx with
      | Some ctx => GetWorkloadID ctx
      | None => "default"%string
      end in
    let criticality :=
      match workloadCtx with
      | Some ctx =>
          if (GetCriticality ctx <? 1) || (5 <? GetCriticality ctx) then 3
          else GetCriticality ctx
      | None => 3
      end in
    let avgWaitTime :=
      match workloadRegistry p with
      | Some registry =>
          match GetMetrics registry workloadID with
          | Some metrics => Duration_Seconds (AverageWaitTime metrics)
          | None => flit 0 1
          end
      | None => flit 0 1
      end in
    let requestRate :=
      match workloadRegistry p with
      | Some registry => GetRequestRate registry workloadID tick
      | None => flit 0 1
      end in
    let normalizedWait :=
      math_Min (avgWaitTime / MaxWaitTimeSeconds (config p))%f64 (flit 1 1) in
    let normalizedCrit := (float64_of_int criticality / flit 5 1)%f64 in
    let normalizedRate :=
      math_Min (requestRate / MaxRequestRate (config p))%f64 (flit 1 1) in
    ((normalizedWait * WaitTimeWeight (config p))
     + (normalizedCrit * CriticalityWeight (config p))
     - (normalizedRate * RequestRateWeight (config p)))%f64.
Proof.
  unfold computeScore, scoring_identity, registry_inputs, weighted_score.
  destruct (GetWorkloadContext (OriginalRequest item)) as [ctx |];
    destruct (workloadRegistry p) as [registry |]; reflexivity.
Qed.

Lemma computeScore_unfold p item (now tick : Time) :
  computeScore p item now tick
  = weighted_score (config p)
      (registry_inputs p (scoring_identity item).1 tick).1
      (effective_criticality item)
      (registry_inputs p (scoring_identity item).1 tick).2.
Proof.
  unfold computeScore, effective_criticality.
  destruct (scoring_identity item) as [workloadID criticality]; cbn [fst snd].
  by destruct (registry_inputs p workloadID tick).
Qed.

(** C3, as the code has it (criticality in scoring).  The criticality
    that [computeScore] scores with is the declared one when it lies in
    1..5 and exactly 3 in every other case: no workload context, zero, a
    negative value, or a value above 5.  It always lies in 1..5, and it
    is the only way the declared criticality enters the score. *)
Theorem effective_criticality_default p item (now tick : Time) :
  effective_criticality item
  = match GetWorkloadContext (OriginalRequest item) with
    | None => 3
    | Some workloadCtx =>
        if (1 <=? GetCriticality workloadCtx) && (GetCriticality workloadCtx <=? 5)
        then GetCriticality workloadCtx
        else 3
    end
  /\ 1 <= effective_criticality item <= 5
  /\ computeScore p item now tick
     = weighted_score (config p)
         (registry_inputs p (scoring_identity item).1 tick).1
         (effective_criticality item)
         (registry_inputs p (scoring_identity item).1 tick).2.
Proof.
  split; [| split; [| apply computeScore_unfold]];
    unfold effective_criticality, scoring_identity;
    destruct (GetWorkloadContext (OriginalRequest item)) as [ctx |];
    cbn [snd]; try lia;
    destruct (Z.ltb_spec (GetCriticality ctx) 1),
      (Z.ltb_spec 5 (GetCriticality ctx)),
      (Z.leb_spec 1 (GetCriticality ctx)),
      (Z.leb_spec (GetCriticality ctx) 5); cbn [orb andb]; lia.
Qed.

End PolicyFacts.

(** C3, as stated, fails: a declared criticality of 6 is scored as 3, not
    as the nearest bound 5, and a declared 0 is scored as 3, not as 1. *)
Lemma effective_criticality_not_clamped :
  effective_criticality (scored_item "workload-test" 6 0) = 3
  /\ effective_criticality (scored_item "workload-test" 6 0) <> clamp 6 1 5
  /\ effective_criticality (scored_item "workload-test" 0 0) = 3
  /\ effective_criticality (scored_item "workload-test" 0 0) <> 1.
Proof. repeat split; vm_compute; congruence. Qed.

(** [TestWorkloadAwarePolicy_ComputeScore_InvalidCriticality] and
    [..._MissingMetadata]: the score is that of criticality 3, which the
    test compares for equality with the double [0.24]. *)
Lemma invalid_criticality_scores_as_default :
  let score c :=
    computeScore (F := float)
      (NewWorkloadAwarePolicyWithDefaults (Some (NewWorkloadRegistry (60 * Second))))
      (scored_item "workload-test" c 0) 0 0 in
  score 0 = 0.24%float /\ score (-1) = 0.24%float /\ score 6 = 0.24%float
  /\ score 3 = 0.24%float
  /\ computeScore (F := float)
       (NewWorkloadAwarePolicyWithDefaults (Some (NewWorkloadRegistry (60 * Second))))
       (bare_item 0) 0 0 = 0.24%float.
Proof. cbv zeta. repeat split; vm_compute; reflexivity. Qed.

(** ** [Less] *)

Section LessFacts.

Context {F : Type} `{Float64Order F}.

Implicit Types (p : WorkloadAwarePolicy F) (a b : QueueItem).

Lemma fltb_irrefl (x : F) : fltb x x = false.
Proof.
  destruct (fltb x x) eqn:E; [| reflexivity].
  by rewrite (fltb_asym x x E) in E.
Qed.

(** The item with the higher score is dispatched first. *)
Lemma Less_higher_score p (now tickA tickB : Time) a b :
  fltb (computeScore p b now tickB) (computeScore p a now tickA) = true ->
  Less p now tickA tickB (Some a) (Some b) = true.
Proof.
  intros Hlt. cbn [Less]. unfold fneb, fgtb.
  rewrite feqb_sym, (fltb_not_eq _ _ Hlt). exact Hlt.
Qed.

Lemma Less_lower_score p (now tickA tickB : Time) a b :
  fltb (computeScore p a now tickA) (computeScore p b now tickB) = true ->
  Less p now tickA tickB (Some a) (Some b) = false.
Proof.
  intros Hlt. cbn [Less]. unfold fneb, fgtb.
  rewrite (fltb_not_eq _ _ Hlt). cbn [negb]. by apply fltb_asym.
Qed.

(** On equal scores the enqueue times decide. *)
Lemma Less_tie p (now tickA tickB : Time) a b :
  feqb (computeScore p a now tickA) (computeScore p b now tickB) = true ->
  Less p now tickA tickB (Some a) (Some b)
  = Time_Before (EnqueueTime a) (EnqueueTime b).
Proof. intros Heq. cbn [Less]. unfold fneb. by rewrite Heq. Qed.

(** Whatever the scores, [Less] answers [true] only in these two ways. *)
Lemma Less_true_inv p (now tickA tickB : Time) a b :
  Less p now tickA tickB (Some a) (Some b) = true ->
  fltb (computeScore p b now tickB) (computeScore p a now tickA) = true
  \/ (feqb (computeScore p a now tickA) (computeScore p b now tickB) = true
      /\ EnqueueTime a < EnqueueTime b).
Proof.
  cbn [Less]. unfold fneb, fgtb, Time_Before.
  destruct (feqb _ _); cbn [negb]; [| by left].
  intros Hlt. right. split; [done | by apply Z.ltb_lt].
Qed.

End LessFacts.

(** ** Scores in exact arithmetic *)

Lemma exact_Min_cases (x y : Q) :
  ((x < y)%Q /\ Exact.Min x y = x) \/ ((y <= x)%Q /\ Exact.Min x y = y).
Proof.
  unfold Exact.Min. destruct (Exact.ltb x y) eqn:E.
  - left. split; [by apply exact_ltb_lt | done].
  - right. split; [by apply exact_ltb_ge | done].
Qed.

(** The score under the default configuration, written out. *)
Lemma exact_default_score (w r : Q) (c : Z) :
  weighted_score (F := Q) DefaultWorkloadAwarePolicyConfig w c r
  = (Exact.Min (w / (60 # 1)) 1 * (4 # 10)
     + inject_Z c / (5 # 1) * (4 # 10)
     - Exact.Min (r / (100 # 1)) 1 * (2 # 10))%Q.
Proof. reflexivity. Qed.

(** In exact arithmetic [Duration.Seconds] is the quotient by [10^9]. *)
Lemma exact_Duration_Seconds (d : Duration) :
  (Duration_Seconds (F := Q) d == inject_Z d / inject_Z Second)%Q.
Proof.
  unfold Duration_Seconds. cbn [fadd fdiv float64_of_int flit exact].
  pose proof (Z.quot_rem' d Second) as Hd. unfold Second in *.
  set (q := d ÷ 1000000000) in *. set (r := Z.rem d 1000000000) in *.
  rewrite Hd. rewrite inject_Z_plus, inject_Z_mult.
  change (1000000000 # 1)%Q with (inject_Z 1000000000).
  field.
Qed.

(** ** Anti-starvation *)

(** C2, as the code has it (anti-starvation).  Default weights and caps,
    scores in exact arithmetic.  When the registry reports a request rate
    of zero for the workloads of both items at the moment they are scored,
    so that neither score carries a request-rate penalty: an item of
    criticality 1 whose workload has an average wait time of 60 s scores
    [0.4*1 + 0.4*0.2 = 0.48]; a fresh item of criticality 5 whose
    workload has no wait recorded scores [0.4*0 + 0.4*1.0 = 0.40];
    [0.48 > 0.40], and [Less] puts the criticality-1 item first. *)
Theorem anti_starvation_scores (p : WorkloadAwarePolicy Q)
    (registry : WorkloadRegistry Q) (starved fresh : QueueItem)
    (cs cf : WorkloadContext) (ms : WorkloadMetrics Q)
    (now tickA tickB : Time) :
  config p = DefaultWorkloadAwarePolicyConfig ->
  workloadRegistry p = Some registry ->
  GetWorkloadContext (OriginalRequest starved) = Some cs ->
  GetCriticality cs = 1 ->
  workloads registry !! GetWorkloadID cs = Some ms ->
  AverageWaitTime ms = 60 * Second ->
  (GetRequestRate registry (GetWorkloadID cs) tickA == 0)%Q ->
  GetWorkloadContext (OriginalRequest fresh) = Some cf ->
  GetCriticality cf = 5 ->
  (forall mf, workloads registry !! GetWorkloadID cf = Some mf ->
              AverageWaitTime mf = 0) ->
  (GetRequestRate registry (GetWorkloadID cf) tickB == 0)%Q ->
  (computeScore p starved now tickA == 48 # 100)%Q
  /\ (computeScore p fresh now tickB == 40 # 100)%Q
  /\ (40 # 100 < 48 # 100)%Q
  /\ Less p now tickA tickB (Some starved) (Some fresh) = true
  /\ Less p now tickB tickA (Some fresh) (Some starved) = false.
Proof.
  intros Hcfg Hreg Hcs Hcrit_s Hms Hwait Hrate_s Hcf Hcrit_f Hmf Hrate_f.
  assert (Hs : (computeScore p starved now tickA == 48 # 100)%Q).
  { rewrite computeScore_unfold. unfold effective_criticality, scoring_identity,
      registry_inputs, GetMetrics.
    rewrite Hcs, Hreg, Hcfg, Hcrit_s. cbn [fst snd]. rewrite Hms, Hwait.
    change (if (1 <? 1) || (5 <? 1) then 3 else 1) with 1.
    rewrite exact_default_score.
    generalize dependent (GetRequestRate registry (GetWorkloadID cs) tickA).
    intros rate Hrate_s.
    destruct (exact_Min_cases (rate / (100 # 1)) 1) as [[_ ->] | [Hge _]];
      [| exfalso; qlra].
    assert (Hsec : (Duration_Seconds (F := Q) (60 * Second)%Z == 60 # 1)%Q)
      by (vm_compute; reflexivity).
    generalize dependent (Duration_Seconds (F := Q) (60 * Second)).
    intros secs Hsec.
    destruct (exact_Min_cases (secs / (60 # 1)) 1) as [[Hlt _] | [_ ->]];
      [exfalso; qlra |].
    unfold inject_Z. qlra. }
  assert (Hf : (computeScore p fresh now tickB == 40 # 100)%Q).
  { rewrite computeScore_unfold. unfold effective_criticality, scoring_identity,
      registry_inputs, GetMetrics.
    rewrite Hcf, Hreg, Hcfg, Hcrit_f. cbn [fst snd].
    change (if (5 <? 1) || (5 <? 5) then 3 else 5) with 5.
    rewrite exact_default_score.
    generalize dependent (GetRequestRate registry (GetWorkloadID cf) tickB).
    intros rate Hrate_f.
    destruct (exact_Min_cases (rate / (100 # 1)) 1) as [[_ ->] | [Hge _]];
      [| exfalso; qlra].
    assert (Hw : (match workloads registry !! GetWorkloadID cf with
                  | Some metrics => Duration_Seconds (AverageWaitTime metrics)
                  | None => flit 0 1
                  end == 0)%Q).
    { destruct (workloads registry !! GetWorkloadID cf) as [mf |] eqn:E.
      - rewrite (Hmf mf eq_refl). reflexivity.
      - reflexivity. }
    generalize dependent
      (match workloads registry !! GetWorkloadID cf with
       | Some metrics => Duration_Seconds (F := Q) (AverageWaitTime metrics)
       | None => flit 0 1
       end).
    intros w Hw.
    destruct (exact_Min_cases (w / (60 # 1)) 1) as [[_ ->] | [Hge _]];
      [| exfalso; qlra].
    unfold inject_Z. qlra. }
  split; [exact Hs |]. split; [exact Hf |]. split; [reflexivity |]. split.
  - apply Less_higher_score. cbn [fltb exact]. apply exact_ltb_lt. lra.
  - apply Less_lower_score. cbn [fltb exact]. apply exact_ltb_lt. lra.
Qed.

(** The scenario on [waited_registry 60], scored at second 61: the window
    of ["batch"] has expired and that of ["interactive"] has just opened,
    so neither has a rate penalty. *)
Lemma anti_starvation_scores_witness :
  let p : WorkloadAwarePolicy Q := waited_policy 60 in
  let tick := 61 * Second in
  let starved := scored_item "batch" 1 0 in
  let fresh := scored_item "interactive" 5 tick in
  (computeScore p starved tick tick == 48 # 100)%Q
  /\ (computeScore p fresh tick tick == 40 # 100)%Q
  /\ (40 # 100 < 48 # 100)%Q
  /\ Less p tick tick tick (Some starved) (Some fresh) = true
  /\ Less p tick tick tick (Some fresh) (Some starved) = false.
Proof.
  cbv zeta.
  eapply (anti_starvation_scores (waited_policy 60) (waited_registry 60)
            (scored_item "batch" 1 0) (scored_item "interactive" 5 (61 * Second))
            _ _ _ (61 * Second) (61 * Second) (61 * Second)).
  - reflexivity.
  - reflexivity.
  - reflexivity.
  - reflexivity.
  - vm_compute; reflexivity.
  - reflexivity.
  - vm_compute; reflexivity.
  - reflexivity.
  - reflexivity.
  - intros mf Hmf. vm_compute in Hmf. injection Hmf as <-. reflexivity.
  - vm_compute; reflexivity.
Defined.

(** C2, as stated, fails: the stated conditions do not fix the request
    rates, and the score subtracts a rate penalty.  After [under_load],
    one second after fifty requests of ["batch"], its rate is 50 per
    second: the item of criticality 1, whose workload has an average wait
    of 60 s, scores [0.4 + 0.08 - 0.2*0.5 = 0.38], not 0.48; the fresh
    item of criticality 5, whose workload has no wait recorded, scores
    0.40, and [Less] puts the criticality-5 item first, in exact
    arithmetic and on binary64. *)
Lemma anti_starvation_fails_under_load :
  let registry : WorkloadRegistry Q :=
    run under_load (NewWorkloadRegistry (60 * Second)) in
  let p : WorkloadAwarePolicy Q := loaded_policy in
  let tick := 62 * Second in
  let starved := scored_item "batch" 1 0 in
  let fresh := scored_item "interactive" 5 tick in
  config p = DefaultWorkloadAwarePolicyConfig
  /\ workloadRegistry p = Some registry
  /\ (AverageWaitTime <$> workloads registry !! "batch") = Some (60 * Second)
  /\ (AverageWaitTime <$> workloads registry !! "interactive") = Some 0
  /\ (computeScore p starved tick tick == 38 # 100)%Q
  /\ ~ (computeScore p starved tick tick == 48 # 100)%Q
  /\ (computeScore p fresh tick tick == 40 # 100)%Q
  /\ Less p tick tick tick (Some starved) (Some fresh) = false
  /\ Less p tick tick tick (Some fresh) (Some starved) = true
  /\ Less (F := float) loaded_policy tick tick tick (Some starved) (Some fresh)
     = false
  /\ Less (F := float) loaded_policy tick tick tick (Some fresh) (Some starved)
     = true.
Proof.
  cbv zeta. repeat apply conj; try (vm_compute; reflexivity).
  vm_compute. discriminate.
Qed.

(** The same statement on the compiled arithmetic: the scores are the
    doubles next to 0.48 and 0.4, and the order is the same. *)
Lemma anti_starvation_scores_binary64 (p : WorkloadAwarePolicy float)
    (registry : WorkloadRegistry float) (starved fresh : QueueItem)
    (cs cf : WorkloadContext) (ms : WorkloadMetrics float)
    (now tickA tickB : Time) :
  config p = DefaultWorkloadAwarePolicyConfig ->
  workloadRegistry p = Some registry ->
  GetWorkloadContext (OriginalRequest starved) = Some cs ->
  GetCriticality cs = 1 ->
  workloads registry !! GetWorkloadID cs = Some ms ->
  AverageWaitTime ms = 60 * Second ->
  GetRequestRate registry (GetWorkloadID cs) tickA = 0%float ->
  GetWorkloadContext (OriginalRequest fresh) = Some cf ->
  GetCriticality cf = 5 ->
  (forall mf, workloads registry !! GetWorkloadID cf = Some mf ->
              AverageWaitTime mf = 0) ->
  GetRequestRate registry (GetWorkloadID cf) tickB = 0%float ->
  computeScore p starved now tickA = 0.48000000000000004%float
  /\ computeScore p fresh now tickB = 0.4%float
  /\ Less p now tickA tickB (Some starved) (Some fresh) = true
  /\ Less p now tickB tickA (Some fresh) (Some starved) = false.
Proof.
  intros Hcfg Hreg Hcs Hcrit_s Hms Hwait Hrate_s Hcf Hcrit_f Hmf Hrate_f.
  assert (Hs : computeScore p starved now tickA = 0.48000000000000004%float).
  { rewrite computeScore_unfold. unfold effective_criticality, scoring_identity,
      registry_inputs, GetMetrics.
    rewrite Hcs, Hreg, Hcfg, Hcrit_s. cbn [fst snd].
    rewrite Hms, Hwait, Hrate_s. vm_compute. reflexivity. }
  assert (Hf : computeScore p fresh now tickB = 0.4%float).
  { rewrite computeScore_unfold. unfold effective_criticality, scoring_identity,
      registry_inputs, GetMetrics.
    rewrite Hcf, Hreg, Hcfg, Hcrit_f. cbn [fst snd]. rewrite Hrate_f.
    destruct (workloads registry !! GetWorkloadID cf) as [mf |] eqn:E.
    - rewrite (Hmf mf eq_refl). vm_compute. reflexivity.
    - vm_compute. reflexivity. }
  split; [exact Hs |]. split; [exact Hf |]. split.
  - apply Less_higher_score. rewrite Hs, Hf. vm_compute. reflexivity.
  - apply Less_lower_score. rewrite Hs, Hf. vm_compute. reflexivity.
Qed.

(** The scenario on [waited_registry 60] on the compiled arithmetic. *)
Lemma anti_starvation_binary64 :
  let p : WorkloadAwarePolicy float := waited_policy 60 in
  let tick := 61 * Second in
  let starved := scored_item "batch" 1 0 in
  let fresh := scored_item "interactive" 5 tick in
  computeScore p starved tick tick = 0.48000000000000004%float
  /\ computeScore p fresh tick tick = 0.4%float
  /\ Less p tick tick tick (Some starved) (Some fresh) = true
  /\ Less p tick tick tick (Some fresh) (Some starved) = false.
Proof. cbv zeta. repeat split; vm_compute; reflexivity. Qed.

(** ** The order induced by [Less] *)

Section LessOrder.

Context {F : Type} `{Float64Order F}.

Implicit Types (p : WorkloadAwarePolicy F) (a b c : QueueItem)
  (x y z : option QueueItem).

Lemma Less_at_irrefl p (now : Time) x : Less_at p now x x = false.
Proof.
  destruct x as [a |]; [| reflexivity].
  unfold Less_at. cbn [Less]. unfold fneb, fgtb, Time_Before.
  destruct (feqb _ _); cbn [negb].
  - apply Z.ltb_irrefl.
  - apply fltb_irrefl.
Qed.

Lemma Less_at_asym p (now : Time) x y :
  Less_at p now x y = true -> Less_at p now y x = false.
Proof.
  unfold Less_at. destruct x as [a |], y as [b |]; try done.
  intros Hab. apply Less_true_inv in Hab as [Hlt | [Heq Ht]].
  - by apply Less_lower_score.
  - rewrite Less_tie by (by rewrite feqb_sym).
    unfold Time_Before. apply Z.ltb_ge. lia.
Qed.

Lemma Less_at_trans p (now : Time) x y z :
  Less_at p now x y = true -> Less_at p now y z = true ->
  Less_at p now x z = true.
Proof.
  unfold Less_at. destruct x as [a |], y as [b |], z as [c |]; try done.
  intros Hab Hbc.
  apply Less_true_inv in Hab as [Hab | [Hab Htab]];
    apply Less_true_inv in Hbc as [Hbc | [Hbc Htbc]].
  - apply Less_higher_score. by eapply fltb_trans.
  - apply Less_higher_score. by eapply fltb_eq_l.
  - apply Less_higher_score. eapply fltb_eq_r; [| exact Hbc].
    by rewrite feqb_sym.
  - rewrite Less_tie by (by eapply feqb_trans).
    unfold Time_Before. apply Z.ltb_lt. lia.
Qed.

Lemma Less_at_total p (now : Time) a b :
  feqb (computeScore p a now now) (computeScore p a now now) = true ->
  feqb (computeScore p b now now) (computeScore p b now now) = true ->
  feqb (computeScore p a now now) (computeScore p b now now) = false
    \/ EnqueueTime a <> EnqueueTime b ->
  Less_at p now (Some a) (Some b) = true \/ Less_at p now (Some b) (Some a) = true.
Proof.
  intros Ha Hb Hdiff. unfold Less_at.
  destruct (feqb (computeScore p a now now) (computeScore p b now now)) eqn:E.
  - destruct Hdiff as [Hne | Hne]; [done |].
    rewrite !Less_tie by (done || by rewrite feqb_sym).
    unfold Time_Before.
    destruct (Z.lt_total (EnqueueTime a) (EnqueueTime b)) as [Hlt | [Heq | Hgt]].
    + left. by apply Z.ltb_lt.
    + done.
    + right. by apply Z.ltb_lt.
  - destruct (fltb_total _ _ Ha Hb E) as [Hlt | Hlt].
    + right. by apply Less_higher_score.
    + left. by apply Less_higher_score.
Qed.

(** C6, as the code has it ([Less]).  A nil item is never placed before
    anything and every item is placed before nil; [Less(nil, nil)] is
    false.  Of two items the one with the higher score is first; on an
    exact tie of the scores the one enqueued earlier is first.  With the
    registry observed at one instant this makes [Less] a strict partial
    order: irreflexive, asymmetric and transitive, and it orders any two
    items whose scores are numbers and that differ in score or in enqueue
    time.  Two items that agree in both are left unordered. *)
Theorem Less_strict_order p (now tickA tickB : Time) a b x y z :
  Less p now tickA tickB None None = false
  /\ Less p now tickA tickB None y = false
  /\ Less p now tickA tickB (Some a) None = true
  /\ (fltb (computeScore p b now tickB) (computeScore p a now tickA) = true ->
      Less p now tickA tickB (Some a) (Some b) = true)
  /\ (fltb (computeScore p a now tickA) (computeScore p b now tickB) = true ->
      Less p now tickA tickB (Some a) (Some b) = false)
  /\ (feqb (computeScore p a now tickA) (computeScore p b now tickB) = true ->
      Less p now tickA tickB (Some a) (Some b)
      = Time_Before (EnqueueTime a) (EnqueueTime b))
  /\ Less_at p now x x = false
  /\ (Less_at p now x y = true -> Less_at p now y x = false)
  /\ (Less_at p now x y = true -> Less_at p now y z = true ->
      Less_at p now x z = true)
  /\ (feqb (computeScore p a now now) (computeScore p a now now) = true ->
      feqb (computeScore p b now now) (computeScore p b now now) = true ->
      feqb (computeScore p a now now) (computeScore p b now now) = false
        \/ EnqueueTime a <> EnqueueTime b ->
      Less_at p now (Some a) (Some b) = true
      \/ Less_at p now (Some b) (Some a) = true).
Proof.
  repeat apply conj.
  - reflexivity.
  - by destruct y.
  - reflexivity.
  - apply Less_higher_score.
  - apply Less_lower_score.
  - apply Less_tie.
  - apply Less_at_irrefl.
  - apply Less_at_asym.
  - apply Less_at_trans.
  - apply Less_at_total.
Qed.

End LessOrder.

(** C6, as stated, fails: two different items with the same score and the
    same enqueue time are not ordered by [Less] in either direction, so
    the order is not total. *)
Lemma Less_not_total :
  let p : WorkloadAwarePolicy float := unwired_policy in
  let a := scored_item "workload-a" 3 0 in
  let b := scored_item "workload-b" 3 0 in
  a <> b
  /\ Less_at p 0 (Some a) (Some b) = false
  /\ Less_at p 0 (Some b) (Some a) = false.
Proof.
  cbv zeta. split; [discriminate |]. split; vm_compute; reflexivity.
Qed.

(** A score that is not a number is ordered against nothing: with a
    wait-time cap of zero the normalised wait is [0/0], every score is
    NaN, and two items enqueued at different times are left unordered. *)
Lemma Less_nan_unordered :
  let a := scored_item "workload-a" 3 0 in
  let b := scored_item "workload-b" 3 Second in
  PrimFloat.is_nan (computeScore zero_cap_policy a 0 0) = true
  /\ Less_at zero_cap_policy 0 (Some a) (Some b) = false
  /\ Less_at zero_cap_policy 0 (Some b) (Some a) = false.
Proof. cbv zeta. repeat split; vm_compute; reflexivity. Qed.

Lemma Less_strict_order_witness :
  let p : WorkloadAwarePolicy float := waited_policy 60 in
  let tick := 61 * Second in
  let a := scored_item "batch" 1 0 in
  let b := scored_item "interactive" 5 tick in
  Less_at p tick (Some a) (Some b) = true
  /\ Less_at p tick (Some b) (Some a) = false
  /\ Less_at p tick (Some a) None = true
  /\ Less_at p tick None (Some a) = false.
Proof.
  cbv zeta.
  pose proof (Less_strict_order (F := float) (waited_policy 60)
                (61 * Second) (61 * Second) (61 * Second)
                (scored_item "batch" 1 0)
                (scored_item "interactive" 5 (61 * Second))
                (Some (scored_item "batch" 1 0))
                (Some (scored_item "interactive" 5 (61 * Second))) None)
    as (_ & Hnil & Hitem & Hhigh & _ & _ & _ & Hasym & _).
  assert (Hab : Less_at (F := float) (waited_policy 60) (61 * Second)
                  (Some (scored_item "batch" 1 0))
                  (Some (scored_item "interactive" 5 (61 * Second))) = true).
  { apply Hhigh. vm_compute. reflexivity. }
  split; [exact Hab |]. split; [exact (Hasym Hab) |].
  split; [exact Hitem |]. reflexivity.
Defined.

(** ** Monotonicity of the score *)

Lemma exact_Min_le (x : Q) : (Exact.Min x 1 <= x)%Q /\ (Exact.Min x 1 <= 1)%Q.
Proof. destruct (exact_Min_cases x 1) as [[Hlt ->] | [Hge ->]]; lra. Qed.

(** [math.Min(_, 1.0)] is monotone, strictly so below the cap, and
    constant from the cap on. *)
Lemma exact_Min_mono (x y : Q) :
  (x <= y)%Q -> (Exact.Min x 1 <= Exact.Min y 1)%Q.
Proof.
  intros Hxy.
  destruct (exact_Min_cases x 1) as [[? ->] | [? ->]],
    (exact_Min_cases y 1) as [[? ->] | [? ->]]; lra.
Qed.

Lemma exact_Min_strict (x y : Q) :
  (x < y)%Q -> (y <= 1)%Q -> (Exact.Min x 1 < Exact.Min y 1)%Q.
Proof.
  intros Hxy Hy.
  destruct (exact_Min_cases x 1) as [[? ->] | [? ->]],
    (exact_Min_cases y 1) as [[? ->] | [? ->]]; lra.
Qed.

Lemma exact_Min_capped (x : Q) : (1 <= x)%Q -> Exact.Min x 1 = 1%Q.
Proof.
  intros Hx. destruct (exact_Min_cases x 1) as [[? ->] | [? ->]];
    [exfalso; lra | reflexivity].
Qed.

Lemma Qdiv_le_pos (x y c : Q) : (0 < c)%Q -> (x <= y)%Q -> (x / c <= y / c)%Q.
Proof.
  intros Hc Hxy. unfold Qdiv. apply Qmult_le_compat_r; [exact Hxy |].
  apply Qlt_le_weak. by apply Qinv_lt_0_compat.
Qed.

Lemma Qdiv_lt_pos (x y c : Q) : (0 < c)%Q -> (x < y)%Q -> (x / c < y / c)%Q.
Proof.
  intros Hc Hxy. unfold Qdiv. apply Qmult_lt_compat_r; [| exact Hxy].
  by apply Qinv_lt_0_compat.
Qed.

Lemma Qdiv_le_1 (x c : Q) : (0 < c)%Q -> (x <= c)%Q -> (x / c <= 1)%Q.
Proof.
  intros Hc Hx. apply Qle_shift_div_r; [exact Hc | lra].
Qed.

Lemma Qdiv_ge_1 (x c : Q) : (0 < c)%Q -> (c <= x)%Q -> (1 <= x / c)%Q.
Proof.
  intros Hc Hx. apply Qle_shift_div_l; [exact Hc | lra].
Qed.

Lemma exact_Duration_Seconds_lt (d1 d2 : Duration) :
  d1 < d2 -> (Duration_Seconds (F := Q) d1 < Duration_Seconds d2)%Q.
Proof.
  intros Hd. rewrite !exact_Duration_Seconds.
  apply Qdiv_lt_pos; [reflexivity |]. by rewrite <- Zlt_Qlt.
Qed.

Lemma exact_weighted_score (cfg : WorkloadAwarePolicyConfig Q) (w r : Q) (c : Z) :
  weighted_score cfg w c r
  = (Exact.Min (w / MaxWaitTimeSeconds cfg) 1 * WaitTimeWeight cfg
     + inject_Z c / (5 # 1) * CriticalityWeight cfg
     - Exact.Min (r / MaxRequestRate cfg) 1 * RequestRateWeight cfg)%Q.
Proof. reflexivity. Qed.

Section Monotone.

Variable cfg : WorkloadAwarePolicyConfig Q.

Hypothesis wait_weight_pos : (0 < WaitTimeWeight cfg)%Q.
Hypothesis criticality_weight_pos : (0 < CriticalityWeight cfg)%Q.
Hypothesis rate_weight_pos : (0 < RequestRateWeight cfg)%Q.
Hypothesis max_wait_pos : (0 < MaxWaitTimeSeconds cfg)%Q.
Hypothesis max_rate_pos : (0 < MaxRequestRate cfg)%Q.

Lemma score_criticality_strict (w r : Q) (c1 c2 : Z) :
  c1 < c2 -> (weighted_score cfg w c1 r < weighted_score cfg w c2 r)%Q.
Proof.
  intros Hc. rewrite !exact_weighted_score.
  assert (Hq : (inject_Z c1 / (5 # 1) * CriticalityWeight cfg
                < inject_Z c2 / (5 # 1) * CriticalityWeight cfg)%Q).
  { apply Qmult_lt_compat_r; [exact criticality_weight_pos |].
    apply Qdiv_lt_pos; [reflexivity |]. by rewrite <- Zlt_Qlt. }
  lra.
Qed.

Lemma score_wait_mono (w1 w2 r : Q) (c : Z) :
  (w1 <= w2)%Q -> (weighted_score cfg w1 c r <= weighted_score cfg w2 c r)%Q.
Proof.
  intros Hw. rewrite !exact_weighted_score.
  assert (Hq : (Exact.Min (w1 / MaxWaitTimeSeconds cfg) 1 * WaitTimeWeight cfg
                <= Exact.Min (w2 / MaxWaitTimeSeconds cfg) 1 * WaitTimeWeight cfg)%Q).
  { apply Qmult_le_compat_r; [| by apply Qlt_le_weak].
    apply exact_Min_mono. by apply Qdiv_le_pos. }
  lra.
Qed.

Lemma score_wait_strict (w1 w2 r : Q) (c : Z) :
  (w1 < w2)%Q -> (w2 <= MaxWaitTimeSeconds cfg)%Q ->
  (weighted_score cfg w1 c r < weighted_score cfg w2 c r)%Q.
Proof.
  intros Hw Hcap. rewrite !exact_weighted_score.
  assert (Hq : (Exact.Min (w1 / MaxWaitTimeSeconds cfg) 1 * WaitTimeWeight cfg
                < Exact.Min (w2 / MaxWaitTimeSeconds cfg) 1 * WaitTimeWeight cfg)%Q).
  { apply Qmult_lt_compat_r; [exact wait_weight_pos |].
    apply exact_Min_strict; [by apply Qdiv_lt_pos | by apply Qdiv_le_1]. }
  lra.
Qed.

Lemma score_wait_capped (w1 w2 r : Q) (c : Z) :
  (MaxWaitTimeSeconds cfg <= w1)%Q -> (MaxWaitTimeSeconds cfg <= w2)%Q ->
  weighted_score cfg w1 c r = weighted_score cfg w2 c r.
Proof.
  intros H1 H2. rewrite !exact_weighted_score.
  by rewrite !(exact_Min_capped (_ / MaxWaitTimeSeconds cfg))
    by (by apply Qdiv_ge_1).
Qed.

Lemma score_rate_mono (w r1 r2 : Q) (c : Z) :
  (r1 <= r2)%Q -> (weighted_score cfg w c r2 <= weighted_score cfg w c r1)%Q.
Proof.
  intros Hr. rewrite !exact_weighted_score.
  assert (Hq : (Exact.Min (r1 / MaxRequestRate cfg) 1 * RequestRateWeight cfg
                <= Exact.Min (r2 / MaxRequestRate cfg) 1 * RequestRateWeight cfg)%Q).
  { apply Qmult_le_compat_r; [| by apply Qlt_le_weak].
    apply exact_Min_mono. by apply Qdiv_le_pos. }
  lra.
Qed.

Lemma score_rate_strict (w r1 r2 : Q) (c : Z) :
  (r1 < r2)%Q -> (r2 <= MaxRequestRate cfg)%Q ->
  (weighted_score cfg w c r2 < weighted_score cfg w c r1)%Q.
Proof.
  intros Hr Hcap. rewrite !exact_weighted_score.
  assert (Hq : (Exact.Min (r1 / MaxRequestRate cfg) 1 * RequestRateWeight cfg
                < Exact.Min (r2 / MaxRequestRate cfg) 1 * RequestRateWeight cfg)%Q).
  { apply Qmult_lt_compat_r; [exact rate_weight_pos |].
    apply exact_Min_strict; [by apply Qdiv_lt_pos | by apply Qdiv_le_1]. }
  lra.
Qed.

Lemma score_rate_capped (w r1 r2 : Q) (c : Z) :
  (MaxRequestRate cfg <= r1)%Q -> (MaxRequestRate cfg <= r2)%Q ->
  weighted_score cfg w c r1 = weighted_score cfg w c r2.
Proof.
  intros H1 H2. rewrite !exact_weighted_score.
  by rewrite !(exact_Min_capped (_ / MaxRequestRate cfg))
    by (by apply Qdiv_ge_1).
Qed.

End Monotone.

Lemma scoring_identity_in_range (item : QueueItem) (ctx : WorkloadContext) :
  GetWorkloadContext (OriginalRequest item) = Some ctx ->
  1 <= GetCriticality ctx <= 5 ->
  scoring_identity item = (GetWorkloadID ctx, GetCriticality ctx).
Proof.
  intros Hctx Hc. unfold scoring_identity. rewrite Hctx.
  destruct (Z.ltb_spec (GetCriticality ctx) 1),
    (Z.ltb_spec 5 (GetCriticality ctx)); cbn [orb]; try lia. reflexivity.
Qed.

(** C7, as the code has it (monotonicity).  Weights and caps positive, as
    in the default configuration; scores in exact arithmetic.  With the
    workload, and so its wait time and rate, held fixed, the score is
    strictly increasing in a declared criticality over 1..5.  With the
    other two inputs held fixed, the score is strictly increasing in the
    workload's average wait time up to the cap [MaxWaitTimeSeconds],
    never decreasing, and constant from the cap on; it is strictly
    decreasing in the request rate up to the cap [MaxRequestRate], never
    increasing, and constant from the cap on. *)
Theorem score_monotone_up_to_caps (p : WorkloadAwarePolicy Q) :
  (0 < WaitTimeWeight (config p))%Q ->
  (0 < CriticalityWeight (config p))%Q ->
  (0 < RequestRateWeight (config p))%Q ->
  (0 < MaxWaitTimeSeconds (config p))%Q ->
  (0 < MaxRequestRate (config p))%Q ->
  let score d c r := weighted_score (config p) (Duration_Seconds d) c r in
  (forall a b ca cb now tick,
     GetWorkloadContext (OriginalRequest a) = Some ca ->
     GetWorkloadContext (OriginalRequest b) = Some cb ->
     GetWorkloadID ca = GetWorkloadID cb ->
     1 <= GetCriticality ca < GetCriticality cb ->
     GetCriticality cb <= 5 ->
     (computeScore p a now tick < computeScore p b now tick)%Q)
  /\ (forall c r (d1 d2 : Duration),
        d1 < d2 ->
        (Duration_Seconds d2 <= MaxWaitTimeSeconds (config p))%Q ->
        (score d1 c r < score d2 c r)%Q)
  /\ (forall c r (d1 d2 : Duration),
        d1 <= d2 -> (score d1 c r <= score d2 c r)%Q)
  /\ (forall c r (d1 d2 : Duration),
        (MaxWaitTimeSeconds (config p) <= Duration_Seconds d1)%Q ->
        (MaxWaitTimeSeconds (config p) <= Duration_Seconds d2)%Q ->
        score d1 c r = score d2 c r)
  /\ (forall c d (r1 r2 : Q),
        (r1 < r2)%Q -> (r2 <= MaxRequestRate (config p))%Q ->
        (score d c r2 < score d c r1)%Q)
  /\ (forall c d (r1 r2 : Q),
        (r1 <= r2)%Q -> (score d c r2 <= score d c r1)%Q)
  /\ (forall c d (r1 r2 : Q),
        (MaxRequestRate (config p) <= r1)%Q ->
        (MaxRequestRate (config p) <= r2)%Q ->
        score d c r1 = score d c r2).
Proof.
  intros Hww Hcw Hrw Hmw Hmr score. subst score. cbv beta.
  repeat apply conj.
  - intros a b ca cb now tick Ha Hb Hid Hc Hc5.
    rewrite !computeScore_unfold. unfold effective_criticality.
    rewrite (scoring_identity_in_range a ca Ha) by lia.
    rewrite (scoring_identity_in_range b cb Hb) by lia.
    cbn [fst snd]. rewrite Hid.
    apply score_criticality_strict; [exact Hcw | lia].
  - intros c r d1 d2 Hd Hcap.
    apply score_wait_strict; try done. by apply exact_Duration_Seconds_lt.
  - intros c r d1 d2 Hd. apply score_wait_mono; try done.
    destruct (Z.eq_dec d1 d2) as [-> | Hne]; [apply Qle_refl |].
    apply Qlt_le_weak, exact_Duration_Seconds_lt. lia.
  - intros c r d1 d2 H1 H2. by apply score_wait_capped.
  - intros c d r1 r2 Hr Hcap. by apply score_rate_strict.
  - intros c d r1 r2 Hr. by apply score_rate_mono.
  - intros c d r1 r2 H1 H2. by apply score_rate_capped.
Qed.

Lemma score_monotone_up_to_caps_witness :
  let p : WorkloadAwarePolicy Q := waited_policy 60 in
  let score d c r := weighted_score (config p) (Duration_Seconds d) c r in
  Qlt (score (30 * Second) 3 0%Q) (score (60 * Second) 3 0%Q)
  /\ score (60 * Second) 3 0%Q = score (120 * Second) 3 0%Q
  /\ Qlt (score 0 3 (100 # 1)%Q) (score 0 3 (50 # 1)%Q)
  /\ score 0 3 (100 # 1)%Q = score 0 3 (200 # 1)%Q.
Proof.
  cbv zeta.
  destruct (score_monotone_up_to_caps (waited_policy 60))
    as (_ & Hwait & _ & Hwcap & Hrate & _ & Hrcap);
    try reflexivity.
  split; [| split; [| split]].
  - apply Hwait; [reflexivity | vm_compute; discriminate].
  - apply Hwcap; vm_compute; discriminate.
  - apply Hrate; [reflexivity | vm_compute; discriminate].
  - apply Hrcap; vm_compute; discriminate.
Defined.

(** C7, as stated, fails above the caps: a workload whose average wait
    time is 120 s scores no higher than one at 60 s, and a workload at
    200 requests per second scores no lower than one at 100. *)
Lemma score_flat_above_caps :
  let item := scored_item "batch" 3 0 in
  let tick := 61 * Second in
  (AverageWaitTime <$> workloads (waited_registry (F := Q) 60) !! "batch")
    = Some (60 * Second)
  /\ (AverageWaitTime <$> workloads (waited_registry (F := Q) 120) !! "batch")
     = Some (120 * Second)
  /\ ~ (computeScore (waited_policy 60) item tick tick
        < computeScore (waited_policy 120) item tick tick)%Q
  /\ ~ Qlt (weighted_score DefaultWorkloadAwarePolicyConfig 0%Q 3 (200 # 1)%Q)
         (weighted_score DefaultWorkloadAwarePolicyConfig 0%Q 3 (100 # 1)%Q).
Proof.
  cbv zeta. repeat apply conj; try (vm_compute; reflexivity);
    vm_compute; discriminate.
Qed.

(** The same on the compiled arithmetic: the two scores are the same
    double. *)
Lemma score_flat_above_caps_binary64 :
  let item := scored_item "batch" 3 0 in
  let tick := 61 * Second in
  computeScore (F := float) (waited_policy 60) item tick tick
  = computeScore (F := float) (waited_policy 120) item tick tick.
Proof. vm_compute. reflexivity. Qed.

(** On the compiled arithmetic rounding merges scores as well, below the
    caps: with a two-hour window, the rate one hour after the only
    request and the rate one nanosecond later differ, and the two scores
    are the same double. *)
Lemma score_rate_rounding_binary64 :
  let item := scored_item "batch" 3 0 in
  let registry := default (NewWorkloadRegistry 0) (workloadRegistry long_window_policy) in
  PrimFloat.ltb (GetRequestRate registry "batch" (3600 * Second + 1))
    (GetRequestRate registry "batch" (3600 * Second)) = true
  /\ computeScore long_window_policy item 0 (3600 * Second)
     = computeScore long_window_policy item 0 (3600 * Second + 1).
Proof. cbv zeta. split; vm_compute; reflexivity. Qed.

(** ** The request rate *)

Section RateFacts.

Context {F : Type} `{Float64 F}.

Implicit Types (wr : WorkloadRegistry F) (m : WorkloadMetrics F).

(** [GetRequestRate] as the source writes it, in one piece. *)
Lemma GetRequestRate_unfold wr (id : string) (now : Time) :
  GetRequestRate wr id now
  = match workloads wr !! id with
    | None => flit 0 1
    | Some metrics =>
        let windowAge := Time_Sub now (WindowStartTime metrics) in
        if windowDuration wr <? windowAge then flit 0 1
        else if (Duration_Seconds windowAge ==? flit 0 1)%f64 then flit 0 1
        else (float64_of_int (SlidingWindowRequests metrics)
              / Duration_Seconds windowAge)%f64
    end.
Proof.
  unfold GetRequestRate, rate_operands.
  destruct (workloads wr !! id) as [m |]; [| reflexivity]. cbv zeta.
  destruct (windowDuration wr <? Time_Sub now (WindowStartTime m));
    [reflexivity |].
  by destruct (feqb _ _).
Qed.

(** The division of [GetRequestRate] is reached only past the test
    [windowAge.Seconds() == 0]. *)
Lemma rate_operands_guard wr (id : string) (now : Time) (requests seconds : F) :
  rate_operands wr id now = Some (requests, seconds) ->
  feqb seconds (flit 0 1) = false
  /\ exists m, workloads wr !! id = Some m
       /\ Time_Sub now (WindowStartTime m) <= windowDuration wr
       /\ requests = float64_of_int (SlidingWindowRequests m)
       /\ seconds = Duration_Seconds (Time_Sub now (WindowStartTime m)).
Proof.
  unfold rate_operands. destruct (workloads wr !! id) as [m |]; [| done].
  destruct (Z.ltb_spec (windowDuration wr) (Time_Sub now (WindowStartTime m)));
    [done |].
  destruct (feqb _ _) eqn:E; [done |]. intros [= <- <-].
  split; [exact E |]. by exists m.
Qed.

Lemma GetRequestRate_unknown wr (id : string) (now : Time) :
  workloads wr !! id = None -> GetRequestRate wr id now = flit 0 1.
Proof. intros E. unfold GetRequestRate, rate_operands. by rewrite E. Qed.

Lemma GetRequestRate_expired wr (id : string) (now : Time) m :
  workloads wr !! id = Some m ->
  windowDuration wr < Time_Sub now (WindowStartTime m) ->
  GetRequestRate wr id now = flit 0 1.
Proof.
  intros E Hexp. unfold GetRequestRate, rate_operands. rewrite E.
  apply Z.ltb_lt in Hexp. by rewrite Hexp.
Qed.

(** Window starts are clock readings of earlier calls. *)
Lemma step_window_start wr (op : Op) (T : Time) :
  (forall t, op_time op = Some t -> t <= T) ->
  (forall id m, workloads wr !! id = Some m -> WindowStartTime m <= T) ->
  forall id m, workloads (step wr op) !! id = Some m -> WindowStartTime m <= T.
Proof.
  intros Hop Hinv id m' Hlook.
  destruct op as [w now | w d | w | now]; cbn [step] in Hlook.
  - rewrite new_request_lookup in Hlook. case_decide as Hid.
    + injection Hlook as <-. unfold new_request_update; cbn [WindowStartTime].
      specialize (Hop now eq_refl).
      destruct (_ <? _); [exact Hop |].
      destruct (workloads wr !! w) as [m |] eqn:E; cbn [default].
      * by apply (Hinv w m).
      * exact Hop.
    + by apply (Hinv id).
  - rewrite dispatched_lookup in Hlook. case_decide as Hid.
    + destruct (workloads wr !! w) as [m |] eqn:E; [| done].
      injection Hlook as <-. by apply (Hinv w m).
    + by apply (Hinv id).
  - rewrite completed_lookup in Hlook. case_decide as Hid.
    + destruct (workloads wr !! w) as [m |] eqn:E; [| done].
      injection Hlook as <-. by apply (Hinv w m).
    + by apply (Hinv id).
  - rewrite cleanup_lookup in Hlook.
    destruct (workloads wr !! id) as [m |] eqn:E; [| done].
    destruct (isInactive now m); [done |]. injection Hlook as <-.
    by apply (Hinv id).
Qed.

Lemma run_window_start (ops : list Op) wr (T : Time) :
  clock_upto T ops ->
  (forall id m, workloads wr !! id = Some m -> WindowStartTime m <= T) ->
  forall id m, workloads (run ops wr) !! id = Some m -> WindowStartTime m <= T.
Proof.
  revert wr. induction ops as [| op ops IH]; intros wr Hclock Hinv; [done |].
  apply Forall_cons in Hclock as [Hop Hclock]. cbn [run fold_left].
  apply IH; [exact Hclock |]. by apply step_window_start.
Qed.

End RateFacts.

(** On the compiled arithmetic the guard holds as well: a window of age
    zero yields [0.0] without a division. *)
Lemma GetRequestRate_zero_age_binary64 (wr : WorkloadRegistry float)
    (id : string) (now : Time) (m : WorkloadMetrics float) :
  workloads wr !! id = Some m ->
  Time_Sub now (WindowStartTime m) = 0 ->
  GetRequestRate wr id now = 0%float.
Proof.
  intros E Hage. unfold GetRequestRate, rate_operands. rewrite E, Hage.
  destruct (windowDuration wr <? 0); [reflexivity |].
  replace (feqb (Duration_Seconds (F := float) 0) (flit 0 1)) with true
    by (vm_compute; reflexivity).
  reflexivity.
Qed.

(** *** Signs on binary64 *)

Lemma sign_clear_round_aux (m e : Z) (l : location) :
  sign_clear (binary_round_aux prec emax false m e l) = true.
Proof.
  unfold binary_round_aux.
  destruct (shr_fexp prec emax m e l) as [mrs' e'].
  destruct (shr_fexp prec emax _ e' loc_Exact) as [mrs'' e''].
  destruct (shr_m mrs''); try reflexivity.
  destruct (e'' <=? emax - prec); reflexivity.
Qed.

Lemma sign_clear_round (m : positive) (e : Z) :
  sign_clear (binary_round prec emax false m e) = true.
Proof.
  unfold binary_round. destruct (shl_align _ _ _) as [mz ez].
  apply sign_clear_round_aux.
Qed.

Lemma sign_clear_normalize (z e : Z) :
  0 <= z -> sign_clear (binary_normalize prec emax z e false) = true.
Proof.
  destruct z as [| q | q]; intros Hz;
    [reflexivity | apply sign_clear_round | lia].
Qed.

Lemma sign_clear_SF2Prim (s : spec_float) :
  sign_clear s = true -> sign_clear (Prim2SF (SF2Prim s)) = true.
Proof.
  destruct s as [[] | [] | | [] m e]; try discriminate; intros _;
    try (vm_compute; reflexivity).
  cbn [SF2Prim]. rewrite Z_ldexp_spec, of_uint63_spec.
  pose proof (Uint63.to_Z_bounded (Uint63.of_Z (Z.pos m))) as [Hb _].
  destruct (Uint63.to_Z (Uint63.of_Z (Z.pos m))) as [| q | q];
    [reflexivity | | lia].
  cbn [binary_normalize].
  destruct (binary_round prec emax false q 0) as [[] | [] | | [] m' e'] eqn:E;
    try reflexivity;
    try (pose proof (sign_clear_round q 0) as Hc; rewrite E in Hc; discriminate).
  cbn [SFldexp]. apply sign_clear_round.
Qed.

Lemma sign_clear_add (x y : spec_float) :
  sign_clear x = true -> sign_clear y = true ->
  sign_clear (SFadd prec emax x y) = true.
Proof.
  destruct x as [[] | [] | | [] mx ex], y as [[] | [] | | [] my ey];
    try discriminate; intros _ _; try reflexivity.
  cbn [SFadd cond_Zopp]. apply sign_clear_normalize. lia.
Qed.

Lemma sign_clear_div (x y : spec_float) :
  sign_clear x = true -> sign_clear y = true ->
  sign_clear (SFdiv prec emax x y) = true.
Proof.
  destruct x as [[] | [] | | [] mx ex], y as [[] | [] | | [] my ey];
    try discriminate; intros _ _; try reflexivity.
  cbn [SFdiv xorb].
  destruct (SFdiv_core_binary prec emax (Z.pos mx) ex (Z.pos my) ey)
    as [[mz ez] lz].
  apply sign_clear_round_aux.
Qed.

Lemma sign_clear_not_lt (x : spec_float) :
  sign_clear x = true -> SFltb x (S754_zero false) = false.
Proof.
  destruct x as [[] | [] | | [] mx ex]; try discriminate; reflexivity.
Qed.

Lemma sign_clear_of_int (z : Z) :
  0 <= z -> sign_clear (Prim2SF (Binary64.of_int z)) = true.
Proof.
  intros Hz. apply sign_clear_SF2Prim. by apply sign_clear_normalize.
Qed.

#[export] Instance binary64_sign : Float64Sign float binary64_nonneg.
Proof.
  unfold binary64_nonneg. split.
  - apply sign_clear_of_int.
  - intros n d Hn. cbn [flit binary64]. unfold Binary64.lit.
    rewrite div_spec. apply sign_clear_div; by apply sign_clear_of_int.
  - intros x y Hx Hy. cbn [fadd binary64]. rewrite add_spec.
    by apply sign_clear_add.
  - intros x y Hx Hy. cbn [fdiv binary64]. rewrite div_spec.
    by apply sign_clear_div.
  - intros x Hx. cbn [fltb flit binary64]. rewrite FloatAxioms.ltb_spec.
    replace (Prim2SF (Binary64.lit 0 1)) with (S754_zero false)
      by (vm_compute; reflexivity).
    by apply sign_clear_not_lt.
  - vm_compute. reflexivity.
Qed.

#[export] Instance exact_sign : Float64Sign Q exact_nonneg.
Proof.
  unfold exact_nonneg. split.
  - intros z Hz. cbn [float64_of_int exact].
    change 0%Q with (inject_Z 0). by rewrite <- Zle_Qle.
  - intros n d Hn. cbn [flit exact]. unfold Qle. cbn [Qnum Qden]. lia.
  - intros x y Hx Hy. cbn [fadd exact]. lra.
  - intros x y Hx Hy. cbn [fdiv exact]. unfold Qdiv.
    apply Qmult_le_0_compat; [exact Hx | by apply Qinv_le_0_compat].
  - intros x Hx. cbn [fltb flit exact]. by apply exact_ltb_ge.
  - reflexivity.
Qed.

(** *** The rate in reachable states *)

Section ReachableRate.

Context {F : Type} `{Float64 F} {fnonneg : F -> Prop} `{!Float64Sign F fnonneg}.

Implicit Types (wr : WorkloadRegistry F) (m : WorkloadMetrics F).

Lemma Duration_Seconds_nonneg (d : Duration) :
  0 <= d -> fnonneg (Duration_Seconds d).
Proof.
  intros Hd. unfold Duration_Seconds. apply fnonneg_add.
  - apply fnonneg_of_int. apply Z.quot_pos; [exact Hd | by unfold Second].
  - apply fnonneg_div; [| by apply fnonneg_lit].
    apply fnonneg_of_int. apply Z.rem_nonneg; [by unfold Second | exact Hd].
Qed.

(** The rate of a workload whose window did not start after [now] and
    whose window counter is not negative. *)
Lemma GetRequestRate_nonneg wr (id : string) (now : Time) :
  (forall m, workloads wr !! id = Some m ->
     WindowStartTime m <= now /\ 0 <= SlidingWindowRequests m) ->
  fnonneg (GetRequestRate wr id now).
Proof.
  intros Hinv. unfold GetRequestRate.
  destruct (rate_operands wr id now) as [[requests seconds] |] eqn:Hops;
    [| by apply fnonneg_lit].
  apply rate_operands_guard in Hops as (_ & m & E & _ & -> & ->).
  destruct (Hinv m E) as [Hstart Hswr].
  apply fnonneg_div; [by apply fnonneg_of_int |].
  apply Duration_Seconds_nonneg. by apply Time_Sub_nonneg.
Qed.


End ReachableRate.


(** In exact arithmetic: the rate is a non-negative rational. *)
Lemma GetRequestRate_nonneg_exact (wd : Duration) (ops : list Op)
    (now : Time) (id : string) :
  Z.of_nat (length ops) <= int64_max ->
  clock_upto now ops ->
  (0 <= GetRequestRate (F := Q) (run ops (NewWorkloadRegistry wd)) id now)%Q.
Proof.
  intros Hlen Hclock.
  apply (GetRequestRate_nonneg (fnonneg := exact_nonneg)). intros m E. split.
  - apply (run_window_start ops (NewWorkloadRegistry wd) now Hclock)
      with (id := id); [| exact E].
    intros k m0. unfold NewWorkloadRegistry; cbn [workloads].
    by rewrite lookup_empty.
  - apply reachable_bounded in E; [| exact Hlen].
    destruct E as (_ & _ & Hs). lia.
Qed.

(** * Further properties of the registry *)

Section RegistryHistories.

Context {F : Type} `{Float64 F}.

Implicit Types (wr : WorkloadRegistry F) (m : WorkloadMetrics F).

(** How one call can have produced the entry of a workload. *)
Lemma step_lookup_cases wr (op : Op) (id : string) m' :
  workloads (step wr op) !! id = Some m' ->
  workloads wr !! id = Some m'
  \/ (exists now, op = OpNewRequest id now
        /\ m' = new_request_update (windowDuration wr) now
                  (default (fresh_metrics id now) (workloads wr !! id)))
  \/ (exists w m, op = OpDispatchedRequest id w
        /\ workloads wr !! id = Some m /\ m' = dispatched_update w m)
  \/ (exists m, op = OpCompletedRequest id
        /\ workloads wr !! id = Some m /\ m' = completed_update m).
Proof.
  intros Hlook. destruct op as [w now | w d | w | now]; cbn [step] in Hlook.
  - rewrite new_request_lookup in Hlook. case_decide as Hid; [| by left].
    subst w. injection Hlook as <-. right; left. by exists now.
  - rewrite dispatched_lookup in Hlook. case_decide as Hid; [| by left].
    subst w. destruct (workloads wr !! id) as [m |] eqn:E; [| done].
    injection Hlook as <-. right; right; left. by exists d, m.
  - rewrite completed_lookup in Hlook. case_decide as Hid; [| by left].
    subst w. destruct (workloads wr !! id) as [m |] eqn:E; [| done].
    injection Hlook as <-. right; right; right. by exists m.
  - rewrite cleanup_lookup in Hlook.
    destruct (workloads wr !! id) as [m |] eqn:E; [| done].
    destruct (isInactive now m); [done |]. by left.
Qed.

Lemma run_snoc (ops : list Op) (op : Op) wr :
  run (ops ++ [op]) wr = step (run ops wr) op.
Proof. by rewrite run_app. Qed.

Lemma run_windowDuration (ops : list Op) wr :
  windowDuration (run ops wr) = windowDuration wr.
Proof.
  revert wr. induction ops as [| op ops IH]; intros wr; [done |].
  cbn [run fold_left]. fold (run ops (step wr op)).
  by rewrite IH, step_windowDuration.
Qed.

Lemma empty_registry_lookup (wd : Duration) (id : string) :
  workloads (NewWorkloadRegistry (F := F) wd) !! id = None.
Proof. unfold NewWorkloadRegistry; cbn [workloads]. apply lookup_empty. Qed.

Lemma NewWorkloadRegistry_window (wd : Duration) :
  windowDuration (NewWorkloadRegistry (F := F) wd)
  = (if wd <=? 0 then 60 * Second else wd)
  /\ 0 < windowDuration (NewWorkloadRegistry (F := F) wd).
Proof.
  unfold NewWorkloadRegistry; cbn [windowDuration].
  split; [done |]. destruct (Z.leb_spec wd 0); unfold Second; lia.
Qed.

(** X1 (window length).  The sliding-window length of a registry is
    decided once, by [NewWorkloadRegistry]: the requested length when it
    is positive and 60 s otherwise.  No call changes it afterwards, so in
    every state the registry reaches the window length is positive. *)
Theorem windowDuration_positive_and_fixed (wd : Duration) (ops : list Op) :
  windowDuration (run ops (NewWorkloadRegistry (F := F) wd))
  = (if wd <=? 0 then 60 * Second else wd)
  /\ 0 < windowDuration (run ops (NewWorkloadRegistry (F := F) wd)).
Proof.
  assert (Hfixed : forall wr, windowDuration (run ops wr) = windowDuration wr).
  { induction ops as [| op ops IH]; intros wr; [done |].
    cbn [run fold_left]. fold (run ops (step wr op)).
    rewrite IH. apply step_windowDuration. }
  rewrite Hfixed. unfold NewWorkloadRegistry; cbn [windowDuration].
  split; [done |]. destruct (Z.leb_spec wd 0); unfold Second; lia.
Qed.

(** X2 (who creates entries).  An entry exists only for a workload that
    sent a request: in every state reached from the empty registry, a
    tracked workload has a [WorkloadHandleNewRequest] call of its own in
    the history; its entry carries its own id, and [LastRequestTime] is the
    clock reading of one of those calls.  Dispatches, completions and
    sweeps never create an entry. *)
Theorem tracked_only_after_request (wd : Duration) (ops : list Op)
    (id : string) m :
  workloads (run ops (NewWorkloadRegistry wd)) !! id = Some m ->
  WorkloadID m = id /\ In (OpNewRequest id (LastRequestTime m)) ops.
Proof.
  revert m. induction ops as [| op ops IH] using rev_ind; intros m'.
  - cbn [run fold_left]. by rewrite empty_registry_lookup.
  - rewrite run_snoc. intros Hlook.
    apply step_lookup_cases in Hlook
      as [E | [(now & -> & ->) | [(w & m & -> & E & ->) | (m & -> & E & ->)]]].
    + destruct (IH _ E) as [Hid Hin]. split; [exact Hid |].
      apply in_or_app. by left.
    + split.
      * cbn [new_request_update WorkloadID].
        destruct (workloads _ !! id) as [m |] eqn:E; cbn [default]; [| done].
        by destruct (IH _ eq_refl).
      * apply in_or_app. right. by left.
    + destruct (IH _ E) as [Hid Hin]. split; [exact Hid |].
      apply in_or_app. by left.
    + destruct (IH _ E) as [Hid Hin]. split; [exact Hid |].
      apply in_or_app. by left.
Qed.

(** *** Workloads do not interfere *)

Lemma step_agree wr1 wr2 (op : Op) (id : string) :
  windowDuration wr1 = windowDuration wr2 ->
  workloads wr1 !! id = workloads wr2 !! id ->
  workloads (step wr1 op) !! id = workloads (step wr2 op) !! id.
Proof.
  intros Hwd Hlook. destruct op as [w now | w d | w | now]; cbn [step].
  - rewrite !new_request_lookup. case_decide as Hid; [| done].
    subst w. by rewrite Hwd, Hlook.
  - rewrite !dispatched_lookup. case_decide as Hid; [| done].
    subst w. by rewrite Hlook.
  - rewrite !completed_lookup. case_decide as Hid; [| done].
    subst w. by rewrite Hlook.
  - rewrite !cleanup_lookup. by rewrite Hlook.
Qed.

Lemma step_not_concerned wr (op : Op) (id : string) :
  concerns id op = false ->
  workloads (step wr op) !! id = workloads wr !! id.
Proof.
  destruct op as [w now | w d | w | now]; cbn [step concerns]; intros Hc;
    try apply bool_decide_eq_false in Hc; try done.
  - rewrite new_request_lookup. by rewrite decide_False.
  - rewrite dispatched_lookup. by rewrite decide_False.
  - rewrite completed_lookup. by rewrite decide_False.
Qed.

Lemma run_agree (ops : list Op) wr1 wr2 (id : string) :
  windowDuration wr1 = windowDuration wr2 ->
  workloads wr1 !! id = workloads wr2 !! id ->
  workloads (run ops wr1) !! id
  = workloads (run (List.filter (concerns id) ops) wr2) !! id.
Proof.
  revert wr1 wr2. induction ops as [| op ops IH]; intros wr1 wr2 Hwd Hlook;
    [done |].
  cbn [run fold_left List.filter]. fold (run ops (step wr1 op)).
  destruct (concerns id op) eqn:Hc.
  - cbn [fold_left]. fold (run (List.filter (concerns id) ops) (step wr2 op)).
    apply IH; [by rewrite !step_windowDuration | by apply step_agree].
  - fold (run (List.filter (concerns id) ops) wr2).
    apply IH; [by rewrite step_windowDuration |].
    by rewrite step_not_concerned.
Qed.

(** X3 (isolation of workloads).  What the registry reports for a
    workload depends only on the calls made for that workload and on the
    sweeps: dropping from a history every call made for another workload
    changes neither the metrics [GetMetrics] returns for it nor, at any
    clock reading, its [GetRequestRate]. *)
Theorem workloads_do_not_interfere (ops : list Op) wr (id : string) :
  GetMetrics (run ops wr) id
  = GetMetrics (run (List.filter (concerns id) ops) wr) id
  /\ forall now : Time,
       GetRequestRate (run ops wr) id now
       = GetRequestRate (run (List.filter (concerns id) ops) wr) id now.
Proof.
  assert (E : workloads (run ops wr) !! id
              = workloads (run (List.filter (concerns id) ops) wr) !! id)
    by by apply run_agree.
  split; [exact E |]. intros now.
  unfold GetRequestRate, rate_operands. by rewrite E, !run_windowDuration.
Qed.

End RegistryHistories.

Section RegistryLifeCycle.

Context {F : Type} `{Float64 F}.

Implicit Types (wr : WorkloadRegistry F) (m : WorkloadMetrics F).

Lemma started_snoc (id : string) (ops : list Op) (op : Op) :
  started id (ops ++ [op])
  = started id ops + (if is_request_of id op then 1 else 0).
Proof.
  unfold started. rewrite List.filter_app, length_app. cbn [List.filter].
  destruct (is_request_of id op); cbn [length]; lia.
Qed.


Lemma started_bounds (id : string) (ops : list Op) :
  0 <= started id ops <= Z.of_nat (length ops).
Proof.
  unfold started. pose proof (List.filter_length_le (is_request_of id) ops). lia.
Qed.




(** *** The sliding window *)



Lemma burst_snoc (id : string) (ts : list Time) (t : Time) :
  burst id (ts ++ [t]) = burst id ts ++ [OpNewRequest id t].
Proof. unfold burst. by rewrite map_app. Qed.

(** The entry of a workload after a burst inside one window. *)
Lemma burst_lookup (wd : Duration) (id : string) (t0 : Time) (ts : list Time) :
  Z.of_nat (S (length ts)) < int64_max ->
  Forall (fun t => Time_Sub t t0
                   <= windowDuration (NewWorkloadRegistry (F := F) wd)) ts ->
  workloads (run (burst id (t0 :: ts)) (NewWorkloadRegistry wd)) !! id
  = Some {| WorkloadID := id;
            TotalRequests := Z.of_nat (S (length ts));
            ActiveRequests := Z.of_nat (S (length ts));
            SlidingWindowRequests := Z.of_nat (S (length ts));
            WindowStartTime := t0;
            LastRequestTime := List.last ts t0;
            AverageWaitTime := 0;
            DispatchedCount := 0;
            EMAAlpha := flit 0 1 |}.
Proof.
  destruct (NewWorkloadRegistry_window (F := F) wd) as [_ Hpos].
  induction ts as [| t ts IH] using rev_ind; intros Hlen Hin.
  - unfold burst. cbn [map run fold_left step].
    rewrite new_request_lookup, decide_True by done.
    rewrite empty_registry_lookup. cbn [default from_option Datatypes.id].
    unfold new_request_update.
    cbn [fresh_metrics WorkloadID TotalRequests ActiveRequests
         SlidingWindowRequests WindowStartTime LastRequestTime
         AverageWaitTime DispatchedCount EMAAlpha length List.last].
    rewrite Time_Sub_exact by (unfold int64_min, int64_max; lia).
    rewrite Z.sub_diag.
    destruct (Z.ltb_spec (windowDuration (NewWorkloadRegistry (F := F) wd)) 0);
      [lia |].
    by rewrite wrap64_in_range by (unfold int64_min, int64_max; lia).
  - apply Forall_app in Hin as [Hin Ht]. rewrite Forall_singleton in Ht.
    rewrite length_app in Hlen. cbn [length] in Hlen.
    specialize (IH ltac:(lia) Hin).
    rewrite app_comm_cons, burst_snoc, run_snoc. cbn [step].
    rewrite new_request_lookup, decide_True by done.
    rewrite run_windowDuration, IH. cbn [default from_option Datatypes.id].
    unfold new_request_update.
    cbn [WorkloadID TotalRequests ActiveRequests SlidingWindowRequests
         WindowStartTime LastRequestTime AverageWaitTime DispatchedCount
         EMAAlpha].
    destruct (Z.ltb_spec (windowDuration (NewWorkloadRegistry (F := F) wd))
                (Time_Sub t t0)); [lia |].
    rewrite last_last, length_app. cbn [length].
    rewrite !wrap64_in_range by (unfold int64_min, int64_max in *; lia).
    do 2 f_equal; lia.
Qed.

(** X6 (one window).  Requests of one workload that all arrive within
    one window length of the first are all counted in its window: after
    [n] such requests the lifetime, active and window counters are [n],
    the window starts at the first request and [LastRequestTime] is the
    last one.  The first request that arrives later than that opens a new
    window: the window counter restarts at 1 and the window starts at
    that request, while the other two counters go on counting. *)
Theorem burst_within_window (wd : Duration) (id : string) (t0 : Time)
    (ts : list Time) :
  let window := windowDuration (NewWorkloadRegistry (F := F) wd) in
  let n := Z.of_nat (S (length ts)) in
  n < int64_max ->
  Forall (fun t => Time_Sub t t0 <= window) ts ->
  workloads (run (burst id (t0 :: ts)) (NewWorkloadRegistry wd)) !! id
  = Some {| WorkloadID := id;
            TotalRequests := n;
            ActiveRequests := n;
            SlidingWindowRequests := n;
            WindowStartTime := t0;
            LastRequestTime := List.last ts t0;
            AverageWaitTime := 0;
            DispatchedCount := 0;
            EMAAlpha := flit 0 1 |}
  /\ forall late : Time,
       window < Time_Sub late t0 ->
       workloads (run (burst id (t0 :: ts ++ [late])) (NewWorkloadRegistry wd)) !! id
       = Some {| WorkloadID := id;
                 TotalRequests := n + 1;
                 ActiveRequests := n + 1;
                 SlidingWindowRequests := 1;
                 WindowStartTime := late;
                 LastRequestTime := late;
                 AverageWaitTime := 0;
                 DispatchedCount := 0;
                 EMAAlpha := flit 0 1 |}.
Proof.
  cbv zeta. intros Hlen Hin.
  split; [by apply burst_lookup |].
  intros late Hlate.
  rewrite app_comm_cons, burst_snoc, run_snoc. cbn [step].
  rewrite new_request_lookup, decide_True by done.
  rewrite run_windowDuration. rewrite (burst_lookup wd id t0 ts) by done.
  cbn [default from_option Datatypes.id].
  unfold new_request_update.
  cbn [WorkloadID TotalRequests ActiveRequests SlidingWindowRequests
       WindowStartTime LastRequestTime AverageWaitTime DispatchedCount EMAAlpha].
  apply Z.ltb_lt in Hlate. rewrite Hlate.
  by rewrite !wrap64_in_range by (unfold int64_min, int64_max in *; lia).
Qed.

(** *** Sweeps *)

Lemma registry_eq wr1 wr2 :
  workloads wr1 = workloads wr2 -> windowDuration wr1 = windowDuration wr2 ->
  wr1 = wr2.
Proof. destruct wr1, wr2; cbn. by intros -> ->. Qed.

Lemma isInactive_later (t1 t2 : Time) m :
  t1 <= t2 -> isInactive t1 m = true -> isInactive t2 m = true.
Proof. rewrite !isInactive_spec. lia. Qed.

(** X8 (sweeps compose).  A sweep after an earlier sweep leaves the
    registry as the later sweep alone would: nothing is reaped by the
    earlier sweep that the later one would keep, and a second sweep at
    the same clock reading changes nothing. *)
Theorem cleanup_absorbs_earlier wr (t1 t2 : Time) :
  t1 <= t2 -> cleanup (cleanup wr t1) t2 = cleanup wr t2.
Proof.
  intros Hle. apply registry_eq; [| done].
  apply map_eq. intros k. rewrite !cleanup_lookup.
  destruct (workloads wr !! k) as [m |]; [| done].
  destruct (isInactive t1 m) eqn:E1.
  - by rewrite (isInactive_later t1 t2 m Hle E1).
  - done.
Qed.

(** X10 (listing).  [GetAllWorkloadIDs] lists every tracked workload
    exactly once and nothing else, whatever the order in which the map is
    ranged over; a request of a workload not yet tracked makes the list
    one longer, a request of a tracked workload leaves its length, and
    a sweep only ever removes ids from it. *)
Theorem GetAllWorkloadIDs_lists_tracked wr :
  NoDup (GetAllWorkloadIDs wr)
  /\ (forall id, In id (GetAllWorkloadIDs wr) <-> GetMetrics wr id <> None)
  /\ (forall id now,
        length (GetAllWorkloadIDs (WorkloadHandleNewRequest wr id now))
        = match GetMetrics wr id with
          | Some _ => length (GetAllWorkloadIDs wr)
          | None => S (length (GetAllWorkloadIDs wr))
          end)
  /\ (forall id now,
        In id (GetAllWorkloadIDs (cleanup wr now)) ->
        In id (GetAllWorkloadIDs wr)).
Proof.
  assert (Hmem : forall wr id,
    In id (GetAllWorkloadIDs wr) <-> workloads wr !! id <> None).
  { intros wr0 id. unfold GetAllWorkloadIDs.
    rewrite <- list_elem_of_In, list_elem_of_fmap. split.
    - intros [[k m] [-> Hin]]. apply elem_of_map_to_list in Hin.
      cbn. by rewrite Hin.
    - intros Hne. destruct (workloads wr0 !! id) as [m |] eqn:E; [| done].
      exists (id, m). split; [done |]. by apply elem_of_map_to_list. }
  assert (Hlen : forall wr, length (GetAllWorkloadIDs wr) = size (workloads wr)).
  { intros wr0. unfold GetAllWorkloadIDs.
    by rewrite length_fmap, length_map_to_list. }
  split; [apply NoDup_fst_map_to_list |]. split; [apply Hmem |]. split.
  - intros id now. rewrite !Hlen. unfold GetMetrics.
    unfold WorkloadHandleNewRequest, LoadOrStore.
    destruct (workloads wr !! id) as [m |] eqn:E; cbn [with_workloads workloads].
    + rewrite map_size_insert_Some; [done | by rewrite E].
    + rewrite insert_insert_eq. by rewrite map_size_insert_None.
  - intros id now. rewrite !Hmem, cleanup_lookup.
    by destruct (workloads wr !! id).
Qed.

(** *** The lifetime counter *)

Lemma no_sweeps_snoc (ops : list Op) (op : Op) :
  no_sweeps (ops ++ [op]) -> no_sweeps ops /\ target op <> None.
Proof. unfold no_sweeps. by rewrite Forall_app, Forall_singleton. Qed.

(** X12 (lifetime counter).  In every state reached from the empty
    registry, [TotalRequests] of a tracked workload is at most the number
    of requests the workload has sent; in a history without sweeps it is
    exactly that number, and the workload is tracked as soon as it has
    sent one.  (A sweep can reap the entry, after which the count starts
    again.  History shorter than [2^63] calls.) *)
Theorem total_requests_counts_requests (wd : Duration) (ops : list Op)
    (id : string) :
  Z.of_nat (length ops) <= int64_max ->
  match workloads (run ops (NewWorkloadRegistry (F := F) wd)) !! id with
  | Some m =>
      1 <= TotalRequests m <= started id ops
      /\ (no_sweeps ops -> TotalRequests m = started id ops)
  | None => no_sweeps ops -> started id ops = 0
  end.
Proof.
  induction ops as [| op ops IH] using rev_ind; intros Hlen.
  - cbn [run fold_left]. by rewrite empty_registry_lookup.
  - rewrite length_app in Hlen. cbn [length] in Hlen.
    specialize (IH ltac:(lia)).
    pose proof (started_bounds id ops) as Hs.
    rewrite started_snoc, run_snoc.
    set (wr := run ops (NewWorkloadRegistry wd)) in *.
    assert (Hkeep :
      workloads (step wr op) !! id = workloads wr !! id
      \/ (exists m, workloads wr !! id = Some m
            /\ exists m', workloads (step wr op) !! id = Some m'
                 /\ TotalRequests m' = TotalRequests m)
      \/ (target op = None /\ workloads (step wr op) !! id = None) ->
      match workloads (step wr op) !! id with
      | Some m =>
          1 <= TotalRequests m <= started id ops + 0
          /\ (no_sweeps (ops ++ [op]) -> TotalRequests m = started id ops + 0)
      | None => no_sweeps (ops ++ [op]) -> started id ops + 0 = 0
      end).
    { intros [E | [(m & E & m' & E' & Et) | [Hsweep E]]].
      - rewrite E. destruct (workloads wr !! id) as [m |].
        + destruct IH as [H1 H2]. split; [lia |].
          intros Hno. apply no_sweeps_snoc in Hno as [Hno _].
          rewrite (H2 Hno). lia.
        + intros Hno. apply no_sweeps_snoc in Hno as [Hno _].
          rewrite (IH Hno). lia.
      - rewrite E', Et. rewrite E in IH. destruct IH as [H1 H2].
        split; [lia |].
        intros Hno. apply no_sweeps_snoc in Hno as [Hno _].
        rewrite (H2 Hno). lia.
      - rewrite E. intros Hno. by apply no_sweeps_snoc in Hno as [_ Hno]. }
    destruct op as [w now | w d | w | now]; cbn [is_request_of].
    + destruct (decide (w = id)) as [-> | Hne].
      * rewrite bool_decide_eq_true_2 by done. cbn [step].
        rewrite new_request_lookup, decide_True by done.
        cbn [new_request_update TotalRequests].
        destruct (workloads wr !! id) as [m |] eqn:E;
          cbn [default from_option Datatypes.id].
        -- destruct IH as [H1 H2].
           rewrite wrap64_in_range by (unfold int64_min, int64_max in *; lia).
           split; [lia |].
           intros Hno. apply no_sweeps_snoc in Hno as [Hno _].
           rewrite (H2 Hno). lia.
        -- cbn [fresh_metrics TotalRequests].
           rewrite wrap64_in_range by (unfold int64_min, int64_max; lia).
           split; [lia |].
           intros Hno. apply no_sweeps_snoc in Hno as [Hno _].
           rewrite (IH Hno). lia.
      * rewrite bool_decide_eq_false_2 by done.
        apply Hkeep. left. cbn [step].
        rewrite new_request_lookup. by rewrite decide_False.
    + apply Hkeep. cbn [step]. rewrite dispatched_lookup.
      destruct (decide (w = id)) as [-> | Hne]; [| by left].
      destruct (workloads wr !! id) as [m |] eqn:E; [| by left].
      right; left. exists m. split; [done |]. by eexists.
    + apply Hkeep. cbn [step]. rewrite completed_lookup.
      destruct (decide (w = id)) as [-> | Hne]; [| by left].
      destruct (workloads wr !! id) as [m |] eqn:E; [| by left].
      right; left. exists m. split; [done |]. by eexists.
    + apply Hkeep. cbn [step]. rewrite cleanup_lookup.
      destruct (workloads wr !! id) as [m |] eqn:E; [| by left].
      destruct (isInactive now m); [| by left].
      right; right. by split.
Qed.

(** X13 (a reaped workload starts afresh).  When a sweep reaps a
    workload, nothing of its history is kept: its next request creates
    the entry of a workload never seen before, with all three request
    counters at 1, the window opening at that request, and neither a
    dispatch count nor an average wait, whatever the reaped entry
    held. *)
Theorem reaped_workload_starts_afresh wr (id : string) (now later : Time) m :
  workloads wr !! id = Some m ->
  ActiveRequests m = 0 ->
  5 * Minute < now - LastRequestTime m ->
  workloads (cleanup wr now) !! id = None
  /\ workloads (WorkloadHandleNewRequest (cleanup wr now) id later) !! id
     = Some {| WorkloadID := id;
               TotalRequests := 1;
               ActiveRequests := 1;
               SlidingWindowRequests := 1;
               WindowStartTime := later;
               LastRequestTime := later;
               AverageWaitTime := 0;
               DispatchedCount := 0;
               EMAAlpha := flit 0 1 |}.
Proof.
  intros E Hactive Hidle.
  assert (Hreaped : workloads (cleanup wr now) !! id = None).
  { rewrite cleanup_lookup, E.
    replace (isInactive now m) with true; [done |].
    symmetry. by apply isInactive_spec. }
  split; [exact Hreaped |].
  rewrite new_request_lookup, decide_True by done.
  rewrite Hreaped. cbn [default from_option Datatypes.id].
  unfold new_request_update.
  cbn [fresh_metrics WorkloadID TotalRequests ActiveRequests
       SlidingWindowRequests WindowStartTime LastRequestTime
       AverageWaitTime DispatchedCount EMAAlpha].
  rewrite !wrap64_in_range by (unfold int64_min, int64_max; lia).
  by destruct (_ <? _).
Qed.

(** X14 (calls for different workloads commute).  Two calls made for
    different workloads, each a request, a dispatch or a completion,
    leave the same registry in either order. *)
Theorem calls_for_different_workloads_commute wr (op1 op2 : Op)
    (id1 id2 : string) :
  target op1 = Some id1 -> target op2 = Some id2 -> id1 <> id2 ->
  step (step wr op1) op2 = step (step wr op2) op1.
Proof.
  intros H1 H2 Hne.
  assert (Hother : forall op id k, target op = Some id -> k <> id ->
                                   concerns k op = false).
  { intros op id k Hop Hk.
    destruct op as [w t | w d | w | t]; cbn in Hop |- *; try done;
      injection Hop as ->; apply bool_decide_eq_false_2; congruence. }
  apply registry_eq; [| by rewrite !step_windowDuration].
  apply map_eq. intros k.
  destruct (decide (k = id1)) as [-> | Hk1].
  - rewrite (step_not_concerned (step wr op1) op2 id1)
      by (apply (Hother op2 id2); done).
    apply step_agree; [by rewrite step_windowDuration |].
    symmetry. apply step_not_concerned. by apply (Hother op2 id2).
  - rewrite (step_not_concerned (step wr op2) op1 k)
      by by apply (Hother op1 id1).
    symmetry. apply step_agree; [by rewrite step_windowDuration |].
    symmetry. apply step_not_concerned. by apply (Hother op1 id1).
Qed.

End RegistryLifeCycle.

(** ** The wait-time average in exact arithmetic *)

Lemma quot_within (lo hi n : Z) (d : positive) :
  lo * Zpos d <= n <= hi * Zpos d -> lo <= Z.quot n (Zpos d) <= hi.
Proof.
  intros [Hlo Hhi]. split.
  - apply Z.quot_le_lower_bound; lia.
  - apply Z.quot_le_upper_bound; lia.
Qed.

(** The blend of two durations of [lo..hi] is a duration of [lo..hi]. *)
Lemma exact_blend_within (lo hi w a : Z) :
  int64_min <= lo -> hi <= int64_max -> lo <= w <= hi -> lo <= a <= hi ->
  lo <= Exact.to_int ((2 # 10) * inject_Z w + (1 - (2 # 10)) * inject_Z a)%Q
     <= hi.
Proof.
  intros Hlo Hhi Hw Ha. unfold Exact.to_int.
  cbn [Qnum Qden Qplus Qmult Qminus Qopp inject_Z].
  match goal with
  | |- context [Z.quot ?n (Zpos ?d)] =>
      pose proof (quot_within lo hi n d) as Hq;
      set (q := Z.quot n (Zpos d)) in *
  end.
  assert (Hin : lo <= q <= hi) by (apply Hq; lia).
  unfold in_int64.
  destruct (Z.leb_spec int64_min q), (Z.leb_spec q int64_max);
    cbn [andb]; lia.
Qed.

Lemma waits_within_snoc (lo hi : Duration) (ops : list Op) (op : Op) :
  waits_within lo hi (ops ++ [op]) ->
  waits_within lo hi ops
  /\ forall id w, op = OpDispatchedRequest id w -> lo <= w <= hi.
Proof.
  unfold waits_within. rewrite Forall_app, Forall_singleton.
  intros [Hpre Hop]. split; [exact Hpre |]. by intros id w ->.
Qed.

(** *** Counting dispatches *)

Lemma dispatched_snoc (id : string) (ops : list Op) (op : Op) :
  dispatched id (ops ++ [op])
  = dispatched id ops + (if is_dispatch_of id op then 1 else 0).
Proof.
  unfold dispatched. rewrite List.filter_app, length_app. cbn [List.filter].
  destruct (is_dispatch_of id op); cbn [length]; lia.
Qed.

Lemma dispatched_bounds (id : string) (ops : list Op) :
  0 <= dispatched id ops <= Z.of_nat (length ops).
Proof.
  unfold dispatched. pose proof (List.filter_length_le (is_dispatch_of id) ops).
  lia.
Qed.

Lemma after_first_request_snoc (id : string) (ops : list Op) (op : Op) :
  after_first_request id (ops ++ [op])
  = if existsb (is_request_of id) ops
    then after_first_request id ops ++ [op]
    else [].
Proof.
  induction ops as [| o ops IH]; cbn [app after_first_request existsb].
  - by destruct (is_request_of id op).
  - destruct (is_request_of id o); [done | exact IH].
Qed.

Lemma after_first_request_none (id : string) (ops : list Op) :
  existsb (is_request_of id) ops = false -> after_first_request id ops = [].
Proof.
  induction ops as [| o ops IH]; [done |]. cbn [existsb after_first_request].
  destruct (is_request_of id o); [done | exact IH].
Qed.

(** [DispatchedCount] against the dispatches of the history.  In a
    history without sweeps a workload is tracked from its first request
    on, so the dispatches that find its entry are those that follow that
    request. *)
Lemma reachable_dispatch_count {F : Type} `{Float64 F} (wd : Duration)
    (ops : list Op) (id : string) :
  Z.of_nat (length ops) <= int64_max ->
  match workloads (run ops (NewWorkloadRegistry (F := F) wd)) !! id with
  | Some m =>
      0 <= DispatchedCount m <= dispatched id ops
      /\ (no_sweeps ops ->
          existsb (is_request_of id) ops = true
          /\ DispatchedCount m = dispatched id (after_first_request id ops))
  | None => no_sweeps ops -> existsb (is_request_of id) ops = false
  end.
Proof.
  induction ops as [| op ops IH] using rev_ind; intros Hlen.
  - cbn [run fold_left]. by rewrite empty_registry_lookup.
  - rewrite length_app in Hlen. cbn [length] in Hlen.
    specialize (IH ltac:(lia)).
    pose proof (dispatched_bounds id ops) as Hd.
    rewrite run_snoc, dispatched_snoc, after_first_request_snoc.
    rewrite existsb_app. cbn [existsb]. rewrite orb_false_r.
    set (wr := run ops (NewWorkloadRegistry wd)) in *.
    destruct op as [w now | w d | w | now]; cbn [step is_request_of is_dispatch_of].
    + rewrite new_request_lookup. destruct (decide (w = id)) as [-> | Hne].
      * rewrite bool_decide_eq_true_2 by done. rewrite orb_true_r.
        cbn [new_request_update DispatchedCount].
        destruct (workloads wr !! id) as [m |] eqn:E;
          cbn [default from_option Datatypes.id].
        -- destruct IH as [H1 H2]. split; [lia |].
           intros Hno. apply no_sweeps_snoc in Hno as [Hno _].
           destruct (H2 Hno) as [Hex Hcount]. split; [done |].
           rewrite Hex, dispatched_snoc. cbn [is_dispatch_of]. lia.
        -- cbn [fresh_metrics DispatchedCount]. split; [lia |].
           intros Hno. apply no_sweeps_snoc in Hno as [Hno _].
           rewrite (IH Hno). by split.
      * rewrite bool_decide_eq_false_2 by done. rewrite orb_false_r.
        destruct (workloads wr !! id) as [m |] eqn:E.
        -- destruct IH as [H1 H2]. split; [lia |].
           intros Hno. apply no_sweeps_snoc in Hno as [Hno _].
           destruct (H2 Hno) as [Hex Hcount]. split; [done |].
           rewrite Hex, dispatched_snoc. cbn [is_dispatch_of]. lia.
        -- intros Hno. apply no_sweeps_snoc in Hno as [Hno _]. by apply IH.
    + rewrite orb_false_r. rewrite dispatched_lookup.
      destruct (decide (w = id)) as [-> | Hne].
      * rewrite bool_decide_eq_true_2 by done.
        destruct (workloads wr !! id) as [m |] eqn:E;
          cbn [fmap option_fmap option_map].
        -- destruct IH as [H1 H2].
           cbn [dispatched_update DispatchedCount].
           rewrite wrap64_in_range by (unfold int64_min, int64_max in *; lia).
           split; [lia |].
           intros Hno. apply no_sweeps_snoc in Hno as [Hno _].
           destruct (H2 Hno) as [Hex Hcount]. split; [done |].
           rewrite Hex, dispatched_snoc. cbn [is_dispatch_of].
           rewrite bool_decide_eq_true_2 by done. lia.
        -- intros Hno. apply no_sweeps_snoc in Hno as [Hno _]. by apply IH.
      * rewrite bool_decide_eq_false_2 by done.
        destruct (workloads wr !! id) as [m |] eqn:E.
        -- destruct IH as [H1 H2]. split; [lia |].
           intros Hno. apply no_sweeps_snoc in Hno as [Hno _].
           destruct (H2 Hno) as [Hex Hcount]. split; [done |].
           rewrite Hex, dispatched_snoc. cbn [is_dispatch_of].
           rewrite bool_decide_eq_false_2 by done. lia.
        -- intros Hno. apply no_sweeps_snoc in Hno as [Hno _]. by apply IH.
    + rewrite orb_false_r. rewrite completed_lookup.
      assert (Hsame : DispatchedCount <$> (if decide (w = id)
                        then completed_update <$> workloads wr !! w
                        else workloads wr !! id)
                      = DispatchedCount <$> workloads wr !! id).
      { destruct (decide (w = id)) as [-> | Hne]; [| done].
        by destruct (workloads wr !! id). }
      destruct (if decide (w = id) then completed_update <$> workloads wr !! w
                else workloads wr !! id) as [m' |] eqn:E';
        destruct (workloads wr !! id) as [m |] eqn:E;
        cbn [fmap option_fmap option_map] in Hsame; try done.
      * injection Hsame as Hsame. rewrite Hsame.
        destruct IH as [H1 H2]. split; [lia |].
        intros Hno. apply no_sweeps_snoc in Hno as [Hno _].
        destruct (H2 Hno) as [Hex Hcount]. split; [done |].
        rewrite Hex, dispatched_snoc. cbn [is_dispatch_of]. lia.
      * intros Hno. apply no_sweeps_snoc in Hno as [Hno _]. by apply IH.
    + rewrite orb_false_r. rewrite cleanup_lookup.
      destruct (workloads wr !! id) as [m |] eqn:E.
      * destruct (isInactive now m).
        -- intros Hno. by apply no_sweeps_snoc in Hno as [_ Hno].
        -- destruct IH as [H1 H2]. split; [lia |].
           intros Hno. by apply no_sweeps_snoc in Hno as [_ Hno].
      * intros Hno. by apply no_sweeps_snoc in Hno as [_ Hno].
Qed.

Lemma tracked_throughout_snoc {F : Type} `{Float64 F} (wr : WorkloadRegistry F)
    (id : string) (ops : list Op) (op : Op) :
  tracked_throughout id wr (ops ++ [op]) = true ->
  tracked_throughout id wr ops = true
  /\ is_Some (workloads (run (ops ++ [op]) wr) !! id).
Proof.
  unfold tracked_throughout. rewrite length_app. cbn [length].
  rewrite Nat.add_1_r, (seq_S (S (length ops)) 0), forallb_app.
  intros [Hpre Hlast]%andb_true_iff. split.
  - apply forallb_forall. intros k Hk.
    rewrite forallb_forall in Hpre. specialize (Hpre k Hk).
    apply in_seq in Hk. by rewrite take_app_le in Hpre by lia.
  - cbn [forallb] in Hlast. rewrite andb_true_r in Hlast.
    apply bool_decide_eq_true_1 in Hlast.
    rewrite take_ge in Hlast; [done |]. rewrite length_app. cbn [length]. lia.
Qed.

(** From an entry on, and as long as it is not reaped, [DispatchedCount]
    goes up by one with every dispatch reported for the workload and with
    nothing else. *)
Lemma entry_dispatch_count {F : Type} `{Float64 F} (wr : WorkloadRegistry F)
    (id : string) (post : list Op) (m0 : WorkloadMetrics F) :
  workloads wr !! id = Some m0 ->
  0 <= DispatchedCount m0 ->
  DispatchedCount m0 + Z.of_nat (length post) <= int64_max ->
  tracked_throughout id wr post = true ->
  DispatchedCount <$> workloads (run post wr) !! id
  = Some (DispatchedCount m0 + dispatched id post).
Proof.
  intros E0 Hc0. induction post as [| op post IH] using rev_ind; intros Hlen Htr.
  - cbn [run fold_left]. rewrite E0. cbn. unfold dispatched. cbn. f_equal. lia.
  - rewrite length_app in Hlen. cbn [length] in Hlen.
    apply tracked_throughout_snoc in Htr as [Htr Hsome].
    specialize (IH ltac:(lia) Htr).
    pose proof (dispatched_bounds id post) as Hd.
    rewrite run_snoc in Hsome |- *. rewrite dispatched_snoc.
    set (wr' := run post wr) in *.
    destruct (workloads wr' !! id) as [m |] eqn:E; [| done].
    cbn [fmap option_fmap option_map] in IH. injection IH as IH.
    destruct op as [w now | w d | w | now]; cbn [step is_dispatch_of] in Hsome |- *.
    + rewrite new_request_lookup. destruct (decide (w = id)) as [-> | Hne].
      * rewrite E. cbn [default from_option Datatypes.id].
        cbn [fmap option_fmap option_map new_request_update DispatchedCount].
        f_equal. lia.
      * rewrite E. cbn [fmap option_fmap option_map]. f_equal. lia.
    + rewrite dispatched_lookup. destruct (decide (w = id)) as [-> | Hne].
      * rewrite E, bool_decide_eq_true_2 by done.
        cbn [fmap option_fmap option_map dispatched_update DispatchedCount].
        rewrite wrap64_in_range by (unfold int64_min, int64_max in *; lia).
        f_equal. lia.
      * rewrite E, bool_decide_eq_false_2 by done.
        cbn [fmap option_fmap option_map]. f_equal. lia.
    + rewrite completed_lookup. destruct (decide (w = id)) as [-> | Hne].
      * rewrite E. cbn [fmap option_fmap option_map completed_update DispatchedCount].
        f_equal. lia.
      * rewrite E. cbn [fmap option_fmap option_map]. f_equal. lia.
    + rewrite cleanup_lookup, E in Hsome |- *.
      destruct (isInactive now m); [by destruct Hsome |].
      cbn [fmap option_fmap option_map]. f_equal. lia.
Qed.

(** X11 (dispatch count and average wait).  In exact arithmetic, in every
    state reached from the empty registry by a history whose reported
    waits all lie in [lo..hi], for a tracked workload:
    [DispatchedCount] counts the dispatches of the entry, that is, when
    the entry was created by a request that found the workload untracked
    and no sweep has reaped it since, [DispatchedCount] is the number of
    dispatches reported for the workload after that request; so in a
    history without sweeps it is the number of dispatches reported after
    the workload's first request, and it never exceeds the number of all
    dispatches reported for the workload; while [DispatchedCount] is zero
    [AverageWaitTime] is zero; and from the first counted dispatch on
    [AverageWaitTime] lies in [lo..hi] as well, so the moving average
    never leaves the range of the waits it was fed, and is never negative
    when no wait is.  (History shorter than [2^63] calls.) *)
Theorem average_wait_within_samples (wd : Duration) (ops : list Op)
    (id : string) (m : WorkloadMetrics Q) (lo hi : Duration) :
  Z.of_nat (length ops) <= int64_max ->
  int64_min <= lo -> hi <= int64_max ->
  waits_within lo hi ops ->
  workloads (run ops (NewWorkloadRegistry wd)) !! id = Some m ->
  (forall (pre post : list Op) (now : Time),
      ops = pre ++ OpNewRequest id now :: post ->
      workloads (run pre (NewWorkloadRegistry (F := Q) wd)) !! id = None ->
      tracked_throughout id
        (run (pre ++ [OpNewRequest id now]) (NewWorkloadRegistry (F := Q) wd))
        post = true ->
      DispatchedCount m = dispatched id post)
  /\ (no_sweeps ops ->
      DispatchedCount m = dispatched id (after_first_request id ops))
  /\ 0 <= DispatchedCount m <= dispatched id ops
  /\ (DispatchedCount m = 0 -> AverageWaitTime m = 0)
  /\ (0 < DispatchedCount m -> lo <= AverageWaitTime m <= hi).
Proof.
  intros Hlen Hlo Hhi Hwaits Hlook.
  pose proof (reachable_dispatch_count (F := Q) wd ops id Hlen) as Hcount.
  rewrite Hlook in Hcount. destruct Hcount as [Hbound Hexact].
  split; [| split; [intros Hno; by apply Hexact | split; [exact Hbound |]]].
  { intros pre post now -> Hnone Htr.
    rewrite length_app in Hlen. cbn [length] in Hlen.
    replace (pre ++ OpNewRequest id now :: post)
      with ((pre ++ [OpNewRequest id now]) ++ post) in Hlook
      by (by rewrite <- app_assoc).
    rewrite run_app in Hlook.
    assert (E0 : exists m0 : WorkloadMetrics Q,
      workloads (run (pre ++ [OpNewRequest id now])
                   (NewWorkloadRegistry (F := Q) wd)) !! id = Some m0
      /\ DispatchedCount m0 = 0).
    { rewrite run_snoc. cbn [step].
      rewrite new_request_lookup, decide_True by done. rewrite Hnone.
      eexists. split; [reflexivity |]. reflexivity. }
    destruct E0 as (m0 & E0 & Hm0).
    pose proof (entry_dispatch_count _ id post m0 E0) as Hentry.
    rewrite Hm0 in Hentry.
    specialize (Hentry ltac:(lia) ltac:(unfold int64_max in *; lia) Htr).
    rewrite Hlook in Hentry. cbn [fmap option_fmap option_map] in Hentry.
    injection Hentry as ->. lia. }
  clear Hbound Hexact. revert m Hlen Hwaits Hlook.
  induction ops as [| op ops IH] using rev_ind; intros m' Hlen Hwaits.
  - cbn [run fold_left]. by rewrite empty_registry_lookup.
  - rewrite length_app in *. cbn [length] in *.
    apply waits_within_snoc in Hwaits as [Hpre Hop].
    rewrite run_snoc. intros Hlook.
    assert (Hkeep : forall m,
      workloads (run ops (NewWorkloadRegistry wd)) !! id = Some m ->
      DispatchedCount m' = DispatchedCount m ->
      AverageWaitTime m' = AverageWaitTime m ->
      (DispatchedCount m' = 0 -> AverageWaitTime m' = 0)
      /\ (0 < DispatchedCount m' -> lo <= AverageWaitTime m' <= hi)).
    { intros m E -> ->. by apply (IH m ltac:(lia) Hpre E). }
    apply step_lookup_cases in Hlook
      as [E | [(now & -> & ->) | [(w & m & -> & E & ->) | (m & -> & E & ->)]]].
    + by apply (Hkeep m').
    + destruct (workloads (run ops (NewWorkloadRegistry wd)) !! id)
        as [m |] eqn:E; cbn [default from_option Datatypes.id].
      * by apply (Hkeep m).
      * cbn [new_request_update fresh_metrics DispatchedCount AverageWaitTime].
        split; [done | lia].
    + destruct (IH m ltac:(lia) Hpre E) as (H2 & H3).
      specialize (Hop id w eq_refl).
      pose proof (reachable_dispatch_count (F := Q) wd ops id ltac:(lia)) as Hc.
      rewrite E in Hc. destruct Hc as [Hc _].
      pose proof (dispatched_bounds id ops) as Hd.
      assert (Hcount : DispatchedCount (dispatched_update w m)
                       = DispatchedCount m + 1).
      { cbn [dispatched_update DispatchedCount].
        rewrite wrap64_in_range; unfold int64_min, int64_max in *; lia. }
      rewrite Hcount. split; [lia |]. intros _.
      destruct (Z.eq_dec (DispatchedCount m) 0) as [Hz | Hnz].
      * cbn [dispatched_update AverageWaitTime]. rewrite Hz. exact Hop.
      * rewrite (reachable_blend_exact wd ops id w m E Hnz).
        apply exact_blend_within; [done | done | done |]. apply H3. lia.
    + by apply (Hkeep m).
Qed.

(** With waits that are not negative, neither is the average. *)
Lemma reachable_average_wait_nonneg (wd : Duration) (ops : list Op)
    (id : string) (m : WorkloadMetrics Q) (hi : Duration) :
  Z.of_nat (length ops) <= int64_max ->
  0 <= hi <= int64_max ->
  waits_within 0 hi ops ->
  workloads (run ops (NewWorkloadRegistry wd)) !! id = Some m ->
  0 <= AverageWaitTime m <= hi.
Proof.
  intros Hlen Hhi. revert m.
  induction ops as [| op ops IH] using rev_ind; intros m' Hwaits.
  - cbn [run fold_left]. by rewrite empty_registry_lookup.
  - rewrite length_app in Hlen. cbn [length] in Hlen.
    apply waits_within_snoc in Hwaits as [Hpre Hop].
    specialize (IH ltac:(lia)).
    rewrite run_snoc. intros Hlook.
    apply step_lookup_cases in Hlook
      as [E | [(now & -> & ->) | [(w & m & -> & E & ->) | (m & -> & E & ->)]]].
    + by apply IH.
    + cbn [new_request_update AverageWaitTime].
      destruct (workloads (run ops (NewWorkloadRegistry wd)) !! id)
        as [m |] eqn:E; cbn [default from_option Datatypes.id].
      * by apply IH.
      * cbn [fresh_metrics AverageWaitTime]. lia.
    + specialize (Hop id w eq_refl).
      destruct (Z.eq_dec (DispatchedCount m) 0) as [Hz | Hnz].
      * cbn [dispatched_update AverageWaitTime]. rewrite Hz. exact Hop.
      * rewrite (reachable_blend_exact wd ops id w m E Hnz).
        apply exact_blend_within;
          [unfold int64_min; lia | lia | done | by apply IH].
    + by apply (IH m).
Qed.

(** On binary64 the blend is rounded before it is cut to a duration, and
    the average can leave the range of its samples by rounding: two waits
    of [2^53 + 1] ns average to [2^53] ns. *)
Lemma average_wait_rounding_binary64 :
  AverageWaitTime
    (dispatched_update (F := float) 9007199254740993
       (dispatched_update (F := float) 9007199254740993
          (fresh_metrics "batch" 0)))
  = 9007199254740992.
Proof. vm_compute. reflexivity. Qed.

(** ** The rate in exact arithmetic *)

Lemma Time_Sub_mono (t1 t2 u : Time) :
  t1 <= t2 -> Time_Sub t1 u <= Time_Sub t2 u.
Proof.
  unfold Time_Sub, int64_min, int64_max. intros Hle.
  destruct (Z.ltb_spec (t1 - u) (- 2 ^ 63)), (Z.ltb_spec (t2 - u) (- 2 ^ 63));
    destruct (Z.ltb_spec (2 ^ 63 - 1) (t1 - u)),
      (Z.ltb_spec (2 ^ 63 - 1) (t2 - u)); lia.
Qed.

Lemma Time_Sub_pos (t u : Time) : u < t -> 0 < Time_Sub t u.
Proof.
  unfold Time_Sub, int64_min, int64_max. intros Hlt.
  destruct (Z.ltb_spec (t - u) (- 2 ^ 63)); [lia |].
  destruct (Z.ltb_spec (2 ^ 63 - 1) (t - u)); lia.
Qed.

Lemma exact_Duration_Seconds_pos (d : Duration) :
  0 < d -> (0 < Duration_Seconds (F := Q) d)%Q.
Proof.
  intros Hd. rewrite exact_Duration_Seconds.
  apply Qlt_shift_div_l; [done |]. rewrite Qmult_0_l.
  change 0%Q with (inject_Z 0). by rewrite <- Zlt_Qlt.
Qed.

(** The rate of a tracked workload whose window is open and older than
    zero. *)
Lemma exact_rate_in_window (wr : WorkloadRegistry Q) (id : string)
    (now : Time) (m : WorkloadMetrics Q) :
  workloads wr !! id = Some m ->
  0 < Time_Sub now (WindowStartTime m) <= windowDuration wr ->
  GetRequestRate wr id now
  = (inject_Z (SlidingWindowRequests m)
     / Duration_Seconds (Time_Sub now (WindowStartTime m)))%Q.
Proof.
  intros E [Hpos Hin]. rewrite GetRequestRate_unfold, E. cbv zeta.
  destruct (Z.ltb_spec (windowDuration wr) (Time_Sub now (WindowStartTime m)));
    [lia |].
  pose proof (exact_Duration_Seconds_pos _ Hpos) as Hsec.
  destruct (feqb _ _) eqn:Hz; [| reflexivity].
  cbn [feqb flit exact] in Hz. apply exact_eqb_eq in Hz.
  rewrite Hz in Hsec. by apply Qlt_irrefl in Hsec.
Qed.

Lemma exact_rate_nonneg (wr : WorkloadRegistry Q) (id : string) (now : Time)
    (m : WorkloadMetrics Q) :
  workloads wr !! id = Some m ->
  0 <= SlidingWindowRequests m -> WindowStartTime m <= now ->
  (0 <= GetRequestRate wr id now)%Q.
Proof.
  intros E Hs Hstart.
  apply (GetRequestRate_nonneg (fnonneg := exact_nonneg)).
  intros m0. rewrite E. by intros [= <-].
Qed.

Lemma Qdiv_le_antitone (x y1 y2 : Q) :
  (0 <= x)%Q -> (0 < y1)%Q -> (y1 <= y2)%Q -> (x / y2 <= x / y1)%Q.
Proof.
  intros Hx Hy1 Hy. assert (Hy2 : (0 < y2)%Q) by lra.
  apply Qle_shift_div_l; [exact Hy1 |].
  assert (E : (x / y2 * y1 == x * y1 / y2)%Q) by (field; lra).
  rewrite E. apply Qle_shift_div_r; [exact Hy2 |]. nra.
Qed.

(** Inside an open window the rate falls as the window ages. *)
Lemma exact_rate_decays_open (wr : WorkloadRegistry Q) (id : string)
    (t1 t2 : Time) (m : WorkloadMetrics Q) :
  workloads wr !! id = Some m ->
  0 <= SlidingWindowRequests m ->
  0 < Time_Sub t1 (WindowStartTime m) ->
  Time_Sub t1 (WindowStartTime m) <= Time_Sub t2 (WindowStartTime m) ->
  Time_Sub t2 (WindowStartTime m) <= windowDuration wr ->
  (GetRequestRate wr id t2 <= GetRequestRate wr id t1)%Q.
Proof.
  intros E Hs Hpos Hmono Hin.
  rewrite (exact_rate_in_window wr id t2 m E) by lia.
  rewrite (exact_rate_in_window wr id t1 m E) by lia.
  apply Qdiv_le_antitone.
  - change 0%Q with (inject_Z 0). by rewrite <- Zle_Qle.
  - by apply exact_Duration_Seconds_pos.
  - destruct (Z.eq_dec (Time_Sub t1 (WindowStartTime m))
                (Time_Sub t2 (WindowStartTime m))) as [-> | Hne].
    + apply Qle_refl.
    + apply Qlt_le_weak, exact_Duration_Seconds_lt. lia.
Qed.

(** X9 (the rate decays).  In exact arithmetic, while the registry is not
    touched: at the very instant the window of a workload opens, its
    request rate reads [0.0]; from any later reading on the rate never
    rises as the clock advances; and once the window has expired, its age
    exceeding the window length, the rate reads [0.0] again. *)
Theorem GetRequestRate_decays (wr : WorkloadRegistry Q) (id : string)
    (t1 t2 : Time) (m : WorkloadMetrics Q) :
  workloads wr !! id = Some m ->
  0 <= SlidingWindowRequests m ->
  WindowStartTime m < t1 -> t1 <= t2 ->
  GetRequestRate wr id (WindowStartTime m) = 0%Q
  /\ (GetRequestRate wr id t2 <= GetRequestRate wr id t1)%Q
  /\ (windowDuration wr < Time_Sub t2 (WindowStartTime m) ->
      GetRequestRate wr id t2 = 0%Q).
Proof.
  intros E Hs Hstart Hle. split; [| split].
  - rewrite GetRequestRate_unfold, E. cbv zeta.
    rewrite Time_Sub_exact by (unfold int64_min, int64_max; lia).
    rewrite Z.sub_diag. by destruct (windowDuration wr <? 0).
  - pose proof (Time_Sub_pos t1 (WindowStartTime m) Hstart) as Hpos.
    pose proof (Time_Sub_mono t1 t2 (WindowStartTime m) Hle) as Hmono.
    destruct (Z.lt_ge_cases (windowDuration wr) (Time_Sub t2 (WindowStartTime m)))
      as [Hexpired | Hopen].
    + rewrite (GetRequestRate_expired wr id t2 m E Hexpired).
      apply (exact_rate_nonneg wr id t1 m E Hs). lia.
    + by apply (exact_rate_decays_open wr id t1 t2 m).
  - intros Hexpired. exact (GetRequestRate_expired wr id t2 m E Hexpired).
Qed.

(** X7 (requests per second).  In exact arithmetic: after [n] requests of
    a workload that all arrived within one window length of the first,
    [GetRequestRate] read inside that window, later than the first
    request, is [n] divided by the seconds elapsed since the first
    request. *)
Theorem GetRequestRate_of_burst (wd : Duration) (id : string) (t0 : Time)
    (ts : list Time) (now : Time) :
  let window := windowDuration (NewWorkloadRegistry (F := Q) wd) in
  let n := Z.of_nat (S (length ts)) in
  n < int64_max ->
  Forall (fun t => Time_Sub t t0 <= window) ts ->
  0 < Time_Sub now t0 <= window ->
  (GetRequestRate (run (burst id (t0 :: ts)) (NewWorkloadRegistry wd)) id now
   == inject_Z n / (inject_Z (Time_Sub now t0) / inject_Z Second))%Q.
Proof.
  cbv zeta. intros Hlen Hin Hnow.
  pose proof (burst_lookup (F := Q) wd id t0 ts Hlen Hin) as E.
  rewrite (exact_rate_in_window _ id now _ E)
    by (rewrite run_windowDuration; exact Hnow).
  cbn [SlidingWindowRequests WindowStartTime].
  by rewrite exact_Duration_Seconds.
Qed.

(** * Further properties of the ordering policy *)

Lemma effective_criticality_range (item : QueueItem) :
  1 <= effective_criticality item <= 5.
Proof.
  unfold effective_criticality, scoring_identity.
  destruct (GetWorkloadContext (OriginalRequest item)) as [ctx |];
    cbn [snd]; [| lia].
  destruct (Z.ltb_spec (GetCriticality ctx) 1),
    (Z.ltb_spec 5 (GetCriticality ctx)); cbn [orb]; lia.
Qed.

Section PolicyInputs.

Context {F : Type} `{Float64 F}.

Implicit Types (p : WorkloadAwarePolicy F) (a b item : QueueItem).

(** What the policy reads for a workload its registry does not track, or
    without a registry: no wait and no rate. *)
Lemma registry_inputs_untracked p (id : string) (tick : Time) :
  (forall r, workloadRegistry p = Some r -> workloads r !! id = None) ->
  registry_inputs p id tick = (flit 0 1, flit 0 1).
Proof.
  intros Hnone. unfold registry_inputs.
  destruct (workloadRegistry p) as [r |]; [| reflexivity].
  unfold GetMetrics. rewrite (Hnone r eq_refl).
  by rewrite GetRequestRate_unknown by by apply Hnone.
Qed.

(** X17 (one score per workload).  The score of an item is a function of
    its workload id and effective criticality alone: neither its own
    enqueue time, nor its id or size, nor the parameter [now] of
    [computeScore] enters it.  So two items of the same workload and
    criticality, scored at the same clock reading, always tie, and [Less]
    orders them by enqueue time, first come first served, whenever that
    score is a number. *)
Theorem same_workload_first_come_first_served p (now : Time) a b :
  scoring_identity a = scoring_identity b ->
  (forall now1 now2 tick : Time,
     computeScore p a now1 tick = computeScore p b now2 tick)
  /\ (feqb (computeScore p a now now) (computeScore p a now now) = true ->
      Less_at p now (Some a) (Some b)
      = Time_Before (EnqueueTime a) (EnqueueTime b)).
Proof.
  intros Hid.
  assert (Hscore : forall now1 now2 tick : Time,
    computeScore p a now1 tick = computeScore p b now2 tick).
  { intros now1 now2 tick. unfold computeScore. by rewrite Hid. }
  split; [exact Hscore |]. intros Hnum.
  unfold Less_at. cbn [Less]. unfold fneb.
  rewrite <- (Hscore now now now). by rewrite Hnum.
Qed.

End PolicyInputs.

(** ** Without registry data, on the compiled arithmetic *)

Lemma binary64_untracked_score (registry : option (WorkloadRegistry float))
    (item : QueueItem) (now tick : Time) :
  (forall r, registry = Some r ->
     workloads r !! (scoring_identity item).1 = None) ->
  computeScore (NewWorkloadAwarePolicyWithDefaults registry) item now tick
  = weighted_score DefaultWorkloadAwarePolicyConfig
      (flit 0 1) (effective_criticality item) (flit 0 1).
Proof.
  intros Hnone. rewrite computeScore_unfold.
  by rewrite registry_inputs_untracked.
Qed.

(** X16 (degraded mode).  On IEEE binary64, under the default
    configuration: when the policy has no registry (as the instance the
    plugin registry creates), or its registry tracks neither workload,
    [Less] orders two items by effective criticality, higher first, and
    items of equal effective criticality by enqueue time, earlier
    first.  Rounding never merges or swaps two of the five criticality
    levels. *)
Theorem untracked_ordered_by_criticality
    (registry : option (WorkloadRegistry float)) (now : Time)
    (a b : QueueItem) :
  (forall r, registry = Some r ->
     workloads r !! (scoring_identity a).1 = None
     /\ workloads r !! (scoring_identity b).1 = None) ->
  Less_at (NewWorkloadAwarePolicyWithDefaults registry) now (Some a) (Some b)
  = (effective_criticality b <? effective_criticality a)
    || ((effective_criticality a =? effective_criticality b)
        && Time_Before (EnqueueTime a) (EnqueueTime b)).
Proof.
  intros Hnone. unfold Less_at. cbn [Less].
  rewrite !binary64_untracked_score by (intros r Hr; by apply Hnone).
  pose proof (effective_criticality_range a) as Ha.
  pose proof (effective_criticality_range b) as Hb.
  generalize dependent (effective_criticality a). intros ca Ha.
  generalize dependent (effective_criticality b). intros cb Hb.
  generalize (Time_Before (EnqueueTime a) (EnqueueTime b)). intros tb.
  assert (Hca : ca = 1 \/ ca = 2 \/ ca = 3 \/ ca = 4 \/ ca = 5) by lia.
  assert (Hcb : cb = 1 \/ cb = 2 \/ cb = 3 \/ cb = 4 \/ cb = 5) by lia.
  destruct Hca as [-> | [-> | [-> | [-> | ->]]]];
    destruct Hcb as [-> | [-> | [-> | [-> | ->]]]];
    vm_compute; reflexivity.
Qed.

(** ** Scores in exact arithmetic, continued *)

Lemma exact_computeScore_default (p : WorkloadAwarePolicy Q)
    (item : QueueItem) (now tick : Time) :
  config p = DefaultWorkloadAwarePolicyConfig ->
  computeScore p item now tick
  = (Exact.Min ((registry_inputs p (scoring_identity item).1 tick).1 / (60 # 1)) 1
       * (4 # 10)
     + inject_Z (effective_criticality item) / (5 # 1) * (4 # 10)
     - Exact.Min ((registry_inputs p (scoring_identity item).1 tick).2 / (100 # 1)) 1
       * (2 # 10))%Q.
Proof.
  intros Hcfg. rewrite computeScore_unfold, Hcfg. apply exact_default_score.
Qed.

Lemma exact_Min_nonneg (x : Q) : (0 <= x)%Q -> (0 <= Exact.Min x 1)%Q.
Proof.
  intros Hx. destruct (exact_Min_cases x 1) as [[_ ->] | [_ ->]]; lra.
Qed.

Lemma inject_Z_range (c lo hi : Z) :
  lo <= c <= hi -> (inject_Z lo <= inject_Z c <= inject_Z hi)%Q.
Proof. intros [H1 H2]. split; by rewrite <- Zle_Qle. Qed.

(** The inputs the policy reads from a reachable registry are not
    negative. *)
Lemma exact_registry_inputs_nonneg (wd : Duration) (ops : list Op)
    (hi : Duration) (id : string) (tick : Time)
    (config : WorkloadAwarePolicyConfig Q) :
  Z.of_nat (length ops) <= int64_max ->
  hi <= int64_max ->
  waits_within 0 hi ops ->
  clock_upto tick ops ->
  let p := NewWorkloadAwarePolicy
             (Some (run ops (NewWorkloadRegistry wd))) config in
  (0 <= (registry_inputs p id tick).1)%Q
  /\ (0 <= (registry_inputs p id tick).2)%Q.
Proof.
  intros Hlen Hhi Hwaits Hclock p. unfold registry_inputs, p.
  cbn [workloadRegistry NewWorkloadAwarePolicy fst snd]. split.
  - unfold GetMetrics.
    destruct (workloads (run ops (NewWorkloadRegistry wd)) !! id)
      as [m |] eqn:E; [| cbn; lra].
    apply (Duration_Seconds_nonneg (fnonneg := exact_nonneg)).
    apply (reachable_average_wait_nonneg wd ops id m (Z.max 0 hi));
      [exact Hlen | lia | | exact E].
    eapply Forall_impl; [exact Hwaits |].
    intros [w t | w d | w | t]; cbn; lia.
  - by apply GetRequestRate_nonneg_exact.
Qed.

(** X15 (range of the score).  In exact arithmetic, under the default
    configuration: for a registry reached from the empty one by a history
    whose reported waits are not negative, read at a clock reading not
    before those of the history, the three normalised components lie in
    [0..1] (the criticality component in [0.2..1]) and the score of every
    item lies between [-0.12] and [0.8].  (History shorter than [2^63]
    calls.) *)
Theorem score_range_default (wd : Duration) (ops : list Op) (hi : Duration)
    (item : QueueItem) (now tick : Time) :
  Z.of_nat (length ops) <= int64_max ->
  hi <= int64_max ->
  waits_within 0 hi ops ->
  clock_upto tick ops ->
  let p : WorkloadAwarePolicy Q :=
    NewWorkloadAwarePolicyWithDefaults
      (Some (run ops (NewWorkloadRegistry wd))) in
  (- (12 # 100) <= computeScore p item now tick
   /\ computeScore p item now tick <= 8 # 10)%Q.
Proof.
  intros Hlen Hhi Hwaits Hclock p.
  rewrite (exact_computeScore_default p item now tick eq_refl).
  destruct (exact_registry_inputs_nonneg wd ops hi (scoring_identity item).1
              tick DefaultWorkloadAwarePolicyConfig Hlen Hhi Hwaits Hclock)
    as [Hw Hr].
  subst p. unfold NewWorkloadAwarePolicyWithDefaults.
  remember (registry_inputs _ (scoring_identity item).1 tick).1 as w eqn:Ew.
  remember (registry_inputs _ (scoring_identity item).1 tick).2 as r eqn:Er.
  clear Ew Er.
  pose proof (exact_Min_le (w / (60 # 1))) as [_ Hw1].
  pose proof (exact_Min_le (r / (100 # 1))) as [_ Hr1].
  assert (Hw0 : (0 <= Exact.Min (w / (60 # 1)) 1)%Q)
    by (apply exact_Min_nonneg; qlra).
  assert (Hr0 : (0 <= Exact.Min (r / (100 # 1)) 1)%Q)
    by (apply exact_Min_nonneg; qlra).
  pose proof (inject_Z_range _ 1 5 (effective_criticality_range item)) as [Hc1 Hc5].
  generalize dependent (Exact.Min (w / (60 # 1)) 1). intros W HW1 HW0.
  generalize dependent (Exact.Min (r / (100 # 1)) 1). intros R HR1 HR0.
  generalize dependent (inject_Z (effective_criticality item)). intros C HC1 HC5.
  unfold inject_Z in *. split; qlra.
Qed.

(** ** Scores over time *)

(** The average wait the policy reads does not depend on the clock. *)
Lemma registry_inputs_wait {F} `{Float64 F} (p : WorkloadAwarePolicy F)
    (id : string) (t1 t2 : Time) :
  (registry_inputs p id t1).1 = (registry_inputs p id t2).1.
Proof. unfold registry_inputs. by destruct (workloadRegistry p). Qed.

Lemma exact_registry_rate_decays (p : WorkloadAwarePolicy Q) (id : string)
    (t1 t2 : Time) :
  (forall r m, workloadRegistry p = Some r -> workloads r !! id = Some m ->
     0 <= SlidingWindowRequests m /\ WindowStartTime m < t1) ->
  t1 <= t2 ->
  ((registry_inputs p id t2).2 <= (registry_inputs p id t1).2)%Q.
Proof.
  intros Hentry Hle. unfold registry_inputs.
  destruct (workloadRegistry p) as [r |]; cbn [snd]; [| apply Qle_refl].
  destruct (workloads r !! id) as [m |] eqn:E.
  - destruct (Hentry r m eq_refl E) as [Hs Hstart].
    pose proof (Time_Sub_pos t1 (WindowStartTime m) Hstart) as Hpos.
    pose proof (Time_Sub_mono t1 t2 (WindowStartTime m) Hle) as Hmono.
    destruct (Z.lt_ge_cases (windowDuration r) (Time_Sub t2 (WindowStartTime m)))
      as [Hexpired | Hopen].
    + rewrite (GetRequestRate_expired r id t2 m E Hexpired).
      apply (exact_rate_nonneg r id t1 m E Hs). lia.
    + by apply (exact_rate_decays_open r id t1 t2 m).
  - rewrite !GetRequestRate_unknown by done. apply Qle_refl.
Qed.

(** A lower rate never lowers the score. *)
Lemma exact_score_rate_antitone (cfg : WorkloadAwarePolicyConfig Q)
    (w r1 r2 : Q) (c : Z) :
  (0 <= RequestRateWeight cfg)%Q -> (0 < MaxRequestRate cfg)%Q ->
  (r2 <= r1)%Q ->
  (weighted_score cfg w c r1 <= weighted_score cfg w c r2)%Q.
Proof.
  intros Hweight Hcap Hrate. rewrite !exact_weighted_score.
  apply (Qdiv_le_pos _ _ _ Hcap), exact_Min_mono in Hrate.
  apply (Qmult_le_compat_r _ _ _ Hrate) in Hweight.
  lra.
Qed.

(** X18 (scores of waiting items).  In exact arithmetic, with a rate
    weight that is not negative and a positive rate cap: while the
    registry is not touched, the score of an item never goes down as the
    clock advances past the start of its workload's window, since only
    the rate penalty depends on the clock and it only shrinks. *)
Theorem score_never_decreases_while_waiting (p : WorkloadAwarePolicy Q)
    (item : QueueItem) (now1 now2 t1 t2 : Time) :
  (0 <= RequestRateWeight (config p))%Q ->
  (0 < MaxRequestRate (config p))%Q ->
  (forall r m, workloadRegistry p = Some r ->
     workloads r !! (scoring_identity item).1 = Some m ->
     0 <= SlidingWindowRequests m /\ WindowStartTime m < t1) ->
  t1 <= t2 ->
  (computeScore p item now1 t1 <= computeScore p item now2 t2)%Q.
Proof.
  intros Hweight Hcap Hentry Hle.
  rewrite !computeScore_unfold.
  rewrite (registry_inputs_wait p _ t2 t1).
  apply exact_score_rate_antitone; [exact Hweight | exact Hcap |].
  by apply exact_registry_rate_decays.
Qed.


(** The first reading has to be later than the start of the window.  At
    the very instant the window opened the rate reads [0.0], and one
    nanosecond later it is far above the cap: with these two readings
    [Less] puts the item of ["workload-flood"] enqueued a second later
    before the one enqueued first, in exact arithmetic and on
    binary64. *)
Lemma Less_overtakes_at_window_start :
  let later := scored_item "workload-flood" 4 Second in
  let earlier := scored_item "workload-flood" 4 0 in
  scoring_identity later = scoring_identity earlier
  /\ EnqueueTime earlier < EnqueueTime later
  /\ Less flood_policy 0 0 1 (Some later) (Some earlier) = true
  /\ Less (F := float)
       (NewWorkloadAwarePolicyWithDefaults
          (Some (run flood (NewWorkloadRegistry (60 * Second)))))
       0 0 1 (Some later) (Some earlier) = true.
Proof. cbv zeta. repeat apply conj; vm_compute; reflexivity. Qed.

(** ** What the default weights guarantee *)




(** * The two revisions of the registry *)

Lemma fold_delete_lookup {A : Type} (P : A -> bool) (b ws : gmap string A)
    (k : string) :
  map_fold (fun key v acc => if P v then delete key acc else acc) b ws !! k
  = match ws !! k with
    | Some v => if P v then None else b !! k
    | None => b !! k
    end.
Proof.
  revert k.
  apply (map_fold_weak_ind (fun r visited => forall k,
    r !! k = match visited !! k with
             | Some v => if P v then None else b !! k
             | None => b !! k
             end)).
  - intros k. by rewrite lookup_empty.
  - intros i x visited r Hfresh IH k.
    destruct (decide (k = i)) as [-> | Hne].
    + rewrite lookup_insert_eq. destruct (P x).
      * by rewrite lookup_delete_eq.
      * by rewrite IH, Hfresh.
    + rewrite lookup_insert_ne by done. destruct (P x).
      * rewrite lookup_delete_ne by done. apply IH.
      * apply IH.
Qed.

Lemma earlier_registry_eq (wr1 wr2 : Earlier.WorkloadRegistry) :
  Earlier.workloads wr1 = Earlier.workloads wr2 ->
  Earlier.windowDuration wr1 = Earlier.windowDuration wr2 ->
  wr1 = wr2.
Proof. destruct wr1, wr2; cbn. by intros -> ->. Qed.

Section Revisions.

Context {F : Type} `{Float64 F}.

Implicit Types (wr : WorkloadRegistry F) (m : WorkloadMetrics F).

Lemma forget_waits_lookup wr (id : string) :
  Earlier.workloads (forget_waits wr) !! id = forget_wait <$> workloads wr !! id.
Proof. unfold forget_waits; cbn [Earlier.workloads]. apply lookup_fmap. Qed.

(** X22 (the two revisions agree).  On the fields the two revisions of
    the registry share, the later one behaves exactly as the earlier:
    forgetting the wait-time fields turns [WorkloadHandleNewRequest] into
    [IncrementActive], [WorkloadHandleCompletedRequest] into
    [DecrementActive] and a dispatch into no call at all, and commutes
    with the sweep; [GetRequestRate], [GetMetrics] and the tracked ids
    are the same, and so is the registry [NewWorkloadRegistry] builds. *)
Theorem later_revision_extends_earlier wr (id : string) (now : Time)
    (waitTime : Duration) :
  forget_waits (WorkloadHandleNewRequest wr id now)
    = Earlier.IncrementActive (forget_waits wr) id now
  /\ forget_waits (WorkloadHandleCompletedRequest wr id)
    = Earlier.DecrementActive (forget_waits wr) id
  /\ forget_waits (WorkloadHandleDispatchedRequest wr id waitTime)
    = forget_waits wr
  /\ forget_waits (cleanup wr now) = Earlier.cleanup (forget_waits wr) now
  /\ GetRequestRate wr id now = Earlier.GetRequestRate (forget_waits wr) id now
  /\ forget_wait <$> GetMetrics wr id = Earlier.GetMetrics (forget_waits wr) id
  /\ GetAllWorkloadIDs wr ≡ₚ Earlier.GetAllWorkloadIDs (forget_waits wr)
  /\ forall wd : Duration,
       forget_waits (NewWorkloadRegistry (F := F) wd)
       = Earlier.NewWorkloadRegistry wd.
Proof.
  repeat apply conj.
  - unfold Earlier.IncrementActive. rewrite forget_waits_lookup.
    unfold WorkloadHandleNewRequest, LoadOrStore.
    destruct (workloads wr !! id) as [m |] eqn:E;
      cbn [fmap option_fmap option_map];
      apply earlier_registry_eq; cbn; try done;
      by rewrite !fmap_insert.
  - unfold Earlier.DecrementActive. rewrite forget_waits_lookup.
    unfold WorkloadHandleCompletedRequest.
    destruct (workloads wr !! id) as [m |] eqn:E;
      cbn [fmap option_fmap option_map]; [| done].
    apply earlier_registry_eq; cbn; try done.
    by rewrite !fmap_insert.
  - unfold WorkloadHandleDispatchedRequest.
    destruct (workloads wr !! id) as [m |] eqn:E; [| done].
    apply earlier_registry_eq; cbn; try done.
    rewrite fmap_insert. apply insert_id.
    by rewrite lookup_fmap, E.
  - apply earlier_registry_eq; [| done]. apply map_eq. intros k.
    unfold Earlier.cleanup; cbn [Earlier.workloads forget_waits].
    rewrite (fold_delete_lookup
               (fun metrics =>
                  (Earlier.ActiveRequests metrics =? 0)
                  && (5 * Minute <? Time_Sub now (Earlier.LastRequestTime metrics)))).
    rewrite !lookup_fmap, cleanup_lookup.
    destruct (workloads wr !! k) as [m |]; cbn [fmap option_fmap option_map];
      [| done].
    unfold isInactive. cbn [forget_wait Earlier.ActiveRequests Earlier.LastRequestTime].
    by destruct (_ && _).
  - rewrite GetRequestRate_unfold. unfold Earlier.GetRequestRate.
    rewrite forget_waits_lookup.
    by destruct (workloads wr !! id) as [m |].
  - unfold Earlier.GetMetrics, GetMetrics. by rewrite forget_waits_lookup.
  - unfold GetAllWorkloadIDs, Earlier.GetAllWorkloadIDs, forget_waits;
      cbn [Earlier.workloads].
    rewrite map_to_list_fmap, <- list_fmap_compose.
    erewrite (list_fmap_ext (fst ∘ prod_map Datatypes.id forget_wait) fst);
      [reflexivity |].
    by intros i [k m] _.
  - intros wd. apply earlier_registry_eq; cbn; [apply fmap_empty | done].
Qed.

End Revisions.

(** * The verdict of the test client *)

Section ClientFacts.

Import Client.

Lemma first_position_bounds (pos : Z) (sortedResults : list RequestResult)
    (requestID position : Z) :
  first_position pos sortedResults requestID = Some position ->
  pos + 1 <= position <= pos + Z.of_nat (length sortedResults).
Proof.
  revert pos. induction sortedResults as [| r rest IH]; intros pos; [done |].
  cbn [first_position length]. destruct (RequestID r =? requestID).
  - intros [= <-]. lia.
  - intros Hrest. apply IH in Hrest. lia.
Qed.

Lemma first_position_found (pos : Z) (sortedResults : list RequestResult)
    (result : RequestResult) :
  In result sortedResults ->
  exists position,
    first_position pos sortedResults (RequestID result) = Some position.
Proof.
  revert pos. induction sortedResults as [| r rest IH]; intros pos; [done |].
  cbn [first_position In]. intros [-> | Hin].
  - rewrite Z.eqb_refl. by eexists.
  - destruct (RequestID r =? RequestID result); [by eexists | by apply IH].
Qed.

(** The sum of positions of a group whose members are among the sorted
    results. *)
Lemma total_position_bounds (sortedResults group : list RequestResult) :
  Z.of_nat (length group) * Z.of_nat (length sortedResults) <= int64_max ->
  (forall result, In result group -> In result sortedResults) ->
  Z.of_nat (length group) <= total_position sortedResults group
    <= Z.of_nat (length group) * Z.of_nat (length sortedResults).
Proof.
  unfold total_position. intros Hroom Hsub.
  assert (Hgen : forall (acc : Z),
    0 <= acc ->
    acc + Z.of_nat (length group) * Z.of_nat (length sortedResults)
      <= int64_max ->
    acc + Z.of_nat (length group)
    <= fold_left
         (fun totalPos result =>
            match first_position 0 sortedResults (RequestID result) with
            | Some position => wrap64 (totalPos + position)
            | None => totalPos
            end) group acc
    <= acc + Z.of_nat (length group) * Z.of_nat (length sortedResults)).
  { clear Hroom. induction group as [| r rest IH]; intros acc Hacc Hroom.
    - cbn [fold_left length]. lia.
    - cbn [fold_left length] in *.
      destruct (first_position_found 0 sortedResults r) as [q Hq];
        [apply Hsub; by left |].
      rewrite Hq. apply first_position_bounds in Hq.
      rewrite wrap64_in_range by (unfold int64_min, int64_max in *; nia).
      specialize (IH ltac:(intros x Hx; apply Hsub; by right) (acc + q)
                    ltac:(lia) ltac:(nia)).
      nia. }
  specialize (Hgen 0 ltac:(lia) ltac:(lia)). lia.
Qed.

Lemma criticalityGroups_sub (sortedResults : list RequestResult) (crit : Z)
    (result : RequestResult) :
  In result (criticalityGroups sortedResults crit) -> In result sortedResults.
Proof. unfold criticalityGroups. rewrite List.filter_In. tauto. Qed.

Lemma criticalityGroups_length (sortedResults : list RequestResult) (crit : Z) :
  (length (criticalityGroups sortedResults crit) <= length sortedResults)%nat.
Proof. apply List.filter_length_le. Qed.

(** The average position of a group of [analyzeResults] that is not
    empty, in exact arithmetic. *)
Lemma exact_average_position_range (sortedResults : list RequestResult)
    (crit : Z) :
  Z.of_nat (length sortedResults) * Z.of_nat (length sortedResults)
    <= int64_max ->
  criticalityGroups sortedResults crit <> [] ->
  (1 <= calculateAvgPosition (F := Q) sortedResults
          (criticalityGroups sortedResults crit))%Q
  /\ (calculateAvgPosition (F := Q) sortedResults
        (criticalityGroups sortedResults crit)
      <= inject_Z (Z.of_nat (length sortedResults)))%Q.
Proof.
  intros Hroom Hne.
  pose proof (criticalityGroups_length sortedResults crit) as Hlen.
  set (group := criticalityGroups sortedResults crit) in *.
  assert (Hpos : 0 < Z.of_nat (length group))
    by (destruct group; [done | cbn [length]; lia]).
  pose proof (total_position_bounds sortedResults group ltac:(nia)
                (criticalityGroups_sub sortedResults crit)) as [Hlo Hhi].
  unfold calculateAvgPosition.
  destruct (Z.eqb_spec (Z.of_nat (length group)) 0); [lia |].
  cbn [fdiv float64_of_int exact].
  assert (HposQ : (0 < inject_Z (Z.of_nat (length group)))%Q)
    by (change 0%Q with (inject_Z 0); by rewrite <- Zlt_Qlt).
  split.
  - apply Qle_shift_div_l; [exact HposQ |]. rewrite Qmult_1_l.
    by rewrite <- Zle_Qle.
  - apply Qle_shift_div_r; [exact HposQ |].
    rewrite <- inject_Z_mult, <- Zle_Qle. lia.
Qed.

(** X23 (average completion position).  In exact arithmetic:
    [calculateAvgPosition] answers 0 for an empty group; for a group of
    [analyzeResults] that is not empty, the successful results of one
    criticality, it answers a position between 1 and the number of
    results, also when several results carry the same [RequestID].
    (The number of results, squared, fits a 64-bit [int], so that the
    sum of positions does.) *)
Theorem calculateAvgPosition_range (sortedResults : list RequestResult)
    (crit : Z) :
  Z.of_nat (length sortedResults) * Z.of_nat (length sortedResults)
    <= int64_max ->
  (criticalityGroups sortedResults crit = [] ->
   calculateAvgPosition (F := Q) sortedResults
     (criticalityGroups sortedResults crit) = 0%Q)
  /\ (criticalityGroups sortedResults crit <> [] ->
      (1 <= calculateAvgPosition (F := Q) sortedResults
              (criticalityGroups sortedResults crit))%Q
      /\ (calculateAvgPosition (F := Q) sortedResults
            (criticalityGroups sortedResults crit)
          <= inject_Z (Z.of_nat (length sortedResults)))%Q).
Proof.
  intros Hroom. split.
  - intros ->. reflexivity.
  - by apply exact_average_position_range.
Qed.

(** X24 (a verdict without critical results).  In exact arithmetic: when
    no request of criticality 5 succeeded, its average position reads 0
    and the first comparison of the verdict is won for free: a run with
    successful requests of criticality 3 is then judged on the two lower
    groups alone, and passes as soon as criticality 3 completed ahead of
    criticality 1 on average.  (The number of results, squared, fits a
    64-bit [int].) *)
Theorem policyWorking_without_critical_results
    (sortedResults : list RequestResult) :
  Z.of_nat (length sortedResults) * Z.of_nat (length sortedResults)
    <= int64_max ->
  criticalityGroups sortedResults 5 = [] ->
  criticalityGroups sortedResults 3 <> [] ->
  policyWorking (F := Q) sortedResults
  = fltb (calculateAvgPosition (F := Q) sortedResults
            (criticalityGroups sortedResults 3))
         (calculateAvgPosition (F := Q) sortedResults
            (criticalityGroups sortedResults 1)).
Proof.
  intros Hroom Hhigh Hmedium. unfold policyWorking. cbv zeta.
  rewrite Hhigh.
  destruct (exact_average_position_range sortedResults 3 Hroom Hmedium)
    as [Hone _].
  replace (fltb (calculateAvgPosition (F := Q) sortedResults [])
             (calculateAvgPosition (F := Q) sortedResults
                (criticalityGroups sortedResults 3))) with true; [done |].
  symmetry. apply exact_ltb_lt.
  change (calculateAvgPosition (F := Q) sortedResults []) with 0%Q. lra.
Qed.

End ClientFacts.

(** * The further properties on sample histories *)

Ltac history_facts :=
  repeat (apply Forall_cons; split;
          [cbn; first [ exact I
                      | intros ? [= <-]; vm_compute; discriminate
                      | intros ? [=]
                      | split; vm_compute; discriminate ] |]);
  by apply Forall_nil.

Lemma served_length : Z.of_nat (length served) <= int64_max.
Proof. vm_compute; discriminate. Qed.

Lemma served_clock : clock_upto (400 * Second) served.
Proof. unfold clock_upto, served. history_facts. Qed.

Lemma served_waits : waits_within 0 (4 * Second) served.
Proof. unfold waits_within, served. history_facts. Qed.

(** After [served], ["tenant-a"] is tracked, and it did send requests. *)
Lemma tracked_only_after_request_witness :
  exists m : WorkloadMetrics Q,
    workloads (run served (NewWorkloadRegistry 0)) !! "tenant-a" = Some m
    /\ WorkloadID m = "tenant-a"
    /\ In (OpNewRequest "tenant-a" (LastRequestTime m)) served.
Proof.
  eexists. split; [vm_compute; reflexivity |].
  apply (tracked_only_after_request (F := Q) 0 served "tenant-a").
  vm_compute; reflexivity.
Defined.



(** After [served], which holds a sweep, ["tenant-a"] has sent two
    requests and its lifetime counter is 2. *)
Lemma total_requests_counts_requests_witness :
  Z.of_nat (length served) <= int64_max
  /\ (TotalRequests
        <$> workloads (run served (NewWorkloadRegistry (F := Q) 0)) !! "tenant-a")
     = Some 2
  /\ match workloads (run served (NewWorkloadRegistry (F := Q) 0)) !! "tenant-a" with
     | Some m =>
         1 <= TotalRequests m <= started "tenant-a" served
         /\ (no_sweeps served -> TotalRequests m = started "tenant-a" served)
     | None => no_sweeps served -> started "tenant-a" served = 0
     end.
Proof.
  split; [exact served_length |]. split; [vm_compute; reflexivity |].
  exact (total_requests_counts_requests (F := Q) 0 served "tenant-a"
           served_length).
Defined.

(** The idle workload of [idle_and_busy] is reaped after ten minutes and
    comes back a minute later. *)
Lemma reaped_workload_starts_afresh_witness :
  let wr : WorkloadRegistry Q := run idle_and_busy (NewWorkloadRegistry 0) in
  let later := 11 * Minute in
  exists m : WorkloadMetrics Q,
    workloads wr !! "idle" = Some m
    /\ ActiveRequests m = 0
    /\ 5 * Minute < ten_minutes - LastRequestTime m
    /\ workloads (cleanup wr ten_minutes) !! "idle" = None
    /\ workloads (WorkloadHandleNewRequest (cleanup wr ten_minutes) "idle" later)
         !! "idle"
       = Some {| WorkloadID := "idle";
                 TotalRequests := 1;
                 ActiveRequests := 1;
                 SlidingWindowRequests := 1;
                 WindowStartTime := later;
                 LastRequestTime := later;
                 AverageWaitTime := 0;
                 DispatchedCount := 0;
                 EMAAlpha := flit 0 1 |}.
Proof.
  cbv zeta. eexists. split; [vm_compute; reflexivity |].
  split; [reflexivity |]. split; [reflexivity |].
  eapply (reaped_workload_starts_afresh (F := Q)
            (run idle_and_busy (NewWorkloadRegistry 0)) "idle" ten_minutes
            (11 * Minute)).
  - vm_compute; reflexivity.
  - reflexivity.
  - reflexivity.
Defined.

(** A request of ["idle"] and a completion of ["busy"], in both orders. *)
Lemma calls_for_different_workloads_commute_witness :
  let wr : WorkloadRegistry Q := run idle_and_busy (NewWorkloadRegistry 0) in
  let op1 := OpNewRequest "idle" Second in
  let op2 := OpCompletedRequest "busy" in
  target op1 = Some "idle" /\ target op2 = Some "busy"
  /\ "idle" <> "busy"
  /\ step (step wr op1) op2 = step (step wr op2) op1.
Proof.
  cbv zeta.
  assert (Hne : "idle" <> "busy") by discriminate.
  split; [reflexivity |]. split; [reflexivity |]. split; [exact Hne |].
  exact (calls_for_different_workloads_commute (F := Q)
           (run idle_and_busy (NewWorkloadRegistry 0))
           (OpNewRequest "idle" Second) (OpCompletedRequest "busy")
           "idle" "busy" eq_refl eq_refl Hne).
Defined.

(** Three requests within three seconds, in a window of 60 s. *)
Lemma burst_within_window_witness :
  Z.of_nat 3 < int64_max
  /\ Forall (fun t => Time_Sub t 0
                      <= windowDuration (NewWorkloadRegistry (F := Q) (60 * Second)))
       [1 * Second; 2 * Second]
  /\ workloads (run (burst "tenant-a" [0; 1 * Second; 2 * Second])
                  (NewWorkloadRegistry (F := Q) (60 * Second))) !! "tenant-a"
     = Some {| WorkloadID := "tenant-a";
               TotalRequests := 3;
               ActiveRequests := 3;
               SlidingWindowRequests := 3;
               WindowStartTime := 0;
               LastRequestTime := 2 * Second;
               AverageWaitTime := 0;
               DispatchedCount := 0;
               EMAAlpha := 0%Q |}.
Proof.
  assert (Hlen : Z.of_nat 3 < int64_max) by reflexivity.
  assert (Hin : Forall (fun t => Time_Sub t 0
                          <= windowDuration (NewWorkloadRegistry (F := Q) (60 * Second)))
                  [1 * Second; 2 * Second]).
  { repeat (apply Forall_cons; split; [vm_compute; discriminate |]).
    by apply Forall_nil. }
  split; [exact Hlen |]. split; [exact Hin |].
  exact (proj1 (burst_within_window (F := Q) (60 * Second) "tenant-a" 0
                  [1 * Second; 2 * Second] Hlen Hin)).
Defined.

(** Three seconds after the first of three requests the rate is one
    request per second. *)
Lemma GetRequestRate_of_burst_witness :
  Z.of_nat 3 < int64_max
  /\ Forall (fun t => Time_Sub t 0
                      <= windowDuration (NewWorkloadRegistry (F := Q) (60 * Second)))
       [1 * Second; 2 * Second]
  /\ 0 < Time_Sub (3 * Second) 0
       <= windowDuration (NewWorkloadRegistry (F := Q) (60 * Second))
  /\ Qeq
       (GetRequestRate
          (run (burst "tenant-a" [0; 1 * Second; 2 * Second])
             (NewWorkloadRegistry (60 * Second))) "tenant-a" (3 * Second))
       (inject_Z (Z.of_nat 3)
        / (inject_Z (Time_Sub (3 * Second)%Z 0%Z) / inject_Z Second))%Q.
Proof.
  assert (Hlen : Z.of_nat 3 < int64_max) by reflexivity.
  assert (Hin : Forall (fun t => Time_Sub t 0
                          <= windowDuration (NewWorkloadRegistry (F := Q) (60 * Second)))
                  [1 * Second; 2 * Second]).
  { repeat (apply Forall_cons; split; [vm_compute; discriminate |]).
    by apply Forall_nil. }
  assert (Hnow : 0 < Time_Sub (3 * Second) 0
                 <= windowDuration (NewWorkloadRegistry (F := Q) (60 * Second))).
  { split; [reflexivity | vm_compute; discriminate]. }
  split; [exact Hlen |]. split; [exact Hin |]. split; [exact Hnow |].
  exact (GetRequestRate_of_burst (60 * Second) "tenant-a" 0
           [1 * Second; 2 * Second] (3 * Second) Hlen Hin Hnow).
Defined.

(** A sweep after six minutes, then one after ten. *)
Lemma cleanup_absorbs_earlier_witness :
  6 * Minute <= ten_minutes
  /\ cleanup (cleanup (run idle_and_busy (NewWorkloadRegistry (F := Q) 0))
                (6 * Minute)) ten_minutes
     = cleanup (run idle_and_busy (NewWorkloadRegistry (F := Q) 0)) ten_minutes.
Proof.
  assert (Hle : 6 * Minute <= ten_minutes) by (vm_compute; discriminate).
  split; [exact Hle |].
  exact (cleanup_absorbs_earlier (F := Q)
           (run idle_and_busy (NewWorkloadRegistry 0)) (6 * Minute) ten_minutes Hle).
Defined.

(** After [flood]: no rate at the instant of the burst, 100 requests per
    second after half a second, 50 after one second, and none after 61
    seconds, when the window of 60 s has expired. *)
Lemma GetRequestRate_decays_witness :
  let wr : WorkloadRegistry Q := run flood (NewWorkloadRegistry (60 * Second)) in
  let early := GetRequestRate wr "workload-flood" 500000000 in
  let late := GetRequestRate wr "workload-flood" Second in
  let expired := GetRequestRate wr "workload-flood" (61 * Second) in
  (early == 100)%Q /\ (late == 50)%Q /\ (late <= early)%Q
  /\ GetRequestRate wr "workload-flood" 0 = 0%Q
  /\ (expired <= early)%Q
  /\ expired = 0%Q.
Proof.
  cbv zeta. split; [vm_compute; reflexivity |]. split; [vm_compute; reflexivity |].
  assert (Hentry : exists m : WorkloadMetrics Q,
    workloads (run flood (NewWorkloadRegistry (60 * Second))) !! "workload-flood"
      = Some m
    /\ SlidingWindowRequests m = 50 /\ WindowStartTime m = 0).
  { eexists. split; [vm_compute; reflexivity |]. by split. }
  destruct Hentry as (m & E & Hs & Hstart).
  destruct (GetRequestRate_decays
              (run flood (NewWorkloadRegistry (60 * Second))) "workload-flood"
              500000000 Second m E) as (_ & Hlate & _);
    [lia | lia | unfold Second; lia |].
  destruct (GetRequestRate_decays
              (run flood (NewWorkloadRegistry (60 * Second))) "workload-flood"
              500000000 (61 * Second) m E) as (Hzero & Hexp & Hexpired);
    [lia | lia | unfold Second; lia |].
  rewrite Hstart in Hzero, Hexpired.
  split; [exact Hlate |]. split; [exact Hzero |]. split; [exact Hexp |].
  apply Hexpired. vm_compute. reflexivity.
Defined.

(** After [reaped_and_back] the entry of ["batch"] is the one created
    when it returned: of the three dispatches reported for ["batch"] the
    two after its return are counted, and the average wait is the blend
    of their two waits, 2.4 s. *)
Lemma average_wait_within_samples_witness :
  exists m : WorkloadMetrics Q,
    workloads (run reaped_and_back (NewWorkloadRegistry (60 * Second))) !! "batch"
    = Some m
    /\ DispatchedCount m = 2
    /\ AverageWaitTime m = 2400000000
    /\ dispatched "batch" reaped_and_back = 3
    /\ 0 <= DispatchedCount m <= dispatched "batch" reaped_and_back
    /\ (DispatchedCount m = 0 -> AverageWaitTime m = 0)
    /\ (0 < DispatchedCount m -> 1 * Second <= AverageWaitTime m <= 4 * Second).
Proof.
  assert (Hm : exists m : WorkloadMetrics Q,
    workloads (run reaped_and_back (NewWorkloadRegistry (60 * Second))) !! "batch"
    = Some m
    /\ AverageWaitTime m = 2400000000).
  { eexists. split; [vm_compute; reflexivity |]. reflexivity. }
  destruct Hm as (m & E & Ha). exists m. split; [exact E |].
  destruct (average_wait_within_samples (60 * Second) reaped_and_back "batch"
              m (1 * Second) (4 * Second))
    as (Hentry & _ & Hbound & Hzero & Hrange).
  - vm_compute; discriminate.
  - vm_compute; discriminate.
  - vm_compute; discriminate.
  - unfold waits_within, reaped_and_back. history_facts.
  - exact E.
  - split; [| split; [exact Ha | split; [reflexivity |
             split; [exact Hbound | split; [exact Hzero | exact Hrange]]]]].
    rewrite (Hentry (firstn 4 reaped_and_back)
               [OpDispatchedRequest "batch" (2 * Second);
                OpNewRequest "batch" (701 * Second);
                OpDispatchedRequest "batch" (4 * Second);
                OpCleanup (702 * Second)]
               (700 * Second)); vm_compute; reflexivity.
Defined.

Lemma score_range_default_witness :
  let p : WorkloadAwarePolicy Q :=
    NewWorkloadAwarePolicyWithDefaults
      (Some (run served (NewWorkloadRegistry 0))) in
  let item := scored_item "tenant-a" 5 0 in
  let tick := 400 * Second in
  (- (12 # 100) <= computeScore p item tick tick
   /\ computeScore p item tick tick <= 8 # 10)%Q.
Proof.
  cbv zeta.
  apply (score_range_default 0 served (4 * Second) (scored_item "tenant-a" 5 0)
           (400 * Second) (400 * Second)).
  - exact served_length.
  - vm_compute; discriminate.
  - exact served_waits.
  - exact served_clock.
Defined.

(** The two items of [TestWorkloadAwarePolicy_Less_WaitTimeBoost]: both
    workloads unknown to the registry, same criticality; the item
    enqueued 30 s earlier goes first. *)
Lemma untracked_ordered_by_criticality_witness :
  let registry : option (WorkloadRegistry float) :=
    Some (NewWorkloadRegistry (60 * Second)) in
  let oldRequest := scored_item "workload-old" 3 (- (30 * Second)) in
  let newRequest := scored_item "workload-new" 3 0 in
  Less_at (NewWorkloadAwarePolicyWithDefaults registry) 0
    (Some oldRequest) (Some newRequest) = true
  /\ Less_at (NewWorkloadAwarePolicyWithDefaults registry) 0
       (Some oldRequest) (Some newRequest)
     = (effective_criticality newRequest <? effective_criticality oldRequest)
       || ((effective_criticality oldRequest =? effective_criticality newRequest)
           && Time_Before (EnqueueTime oldRequest) (EnqueueTime newRequest)).
Proof.
  cbv zeta. split; [vm_compute; reflexivity |].
  apply (untracked_ordered_by_criticality
           (Some (NewWorkloadRegistry (60 * Second))) 0
           (scored_item "workload-old" 3 (- (30 * Second)))
           (scored_item "workload-new" 3 0)).
  intros r [= <-]. split; reflexivity.
Defined.

(** Two items of ["batch"], on the compiled arithmetic. *)
Lemma same_workload_first_come_first_served_witness :
  let p : WorkloadAwarePolicy float := waited_policy 60 in
  let a := scored_item "batch" 1 0 in
  let b := scored_item "batch" 1 Second in
  scoring_identity a = scoring_identity b
  /\ (forall now1 now2 tick : Time,
        computeScore p a now1 tick = computeScore p b now2 tick)
  /\ (feqb (computeScore p a (61 * Second) (61 * Second))
        (computeScore p a (61 * Second) (61 * Second)) = true ->
      Less_at p (61 * Second) (Some a) (Some b)
      = Time_Before (EnqueueTime a) (EnqueueTime b)).
Proof.
  cbv zeta. split; [reflexivity |].
  apply (same_workload_first_come_first_served (F := float)
           (waited_policy 60) (61 * Second)
           (scored_item "batch" 1 0) (scored_item "batch" 1 Second)).
  reflexivity.
Defined.

Lemma flood_policy_entry (t1 : Time) (id : string) :
  0 < t1 ->
  forall r m, workloadRegistry flood_policy = Some r ->
    workloads r !! id = Some m ->
    0 <= SlidingWindowRequests m /\ WindowStartTime m < t1.
Proof.
  intros Ht r m Hr Hm.
  change (Some (run flood (NewWorkloadRegistry (60 * Second))) = Some r) in Hr.
  apply (inj Some) in Hr. subst r.
  assert (Hlen : Z.of_nat (length flood) <= int64_max)
    by (vm_compute; discriminate).
  destruct (reachable_bounded (60 * Second) flood Hlen id m Hm) as (_ & _ & Hs).
  split; [lia |].
  enough (WindowStartTime m <= 0) by lia.
  apply (run_window_start flood (NewWorkloadRegistry (60 * Second)) 0)
    with (id := id) (m := m); [| | exact Hm].
  - apply Forall_forall. intros op Hin t Hop.
    apply list_elem_of_In, repeat_spec in Hin. subst op.
    injection Hop as <-. lia.
  - intros k m0. unfold NewWorkloadRegistry; cbn [workloads].
    by rewrite lookup_empty.
Qed.

(** After [flood] the score of an item of the flooding workload rises
    from half a second to one second after the burst. *)
Lemma score_never_decreases_while_waiting_witness :
  let item := scored_item "workload-flood" 4 0 in
  let early := computeScore flood_policy item 0 500000000 in
  let late := computeScore flood_policy item 0 Second in
  (early <= late)%Q.
Proof.
  cbv zeta.
  apply (score_never_decreases_while_waiting flood_policy
           (scored_item "workload-flood" 4 0) 0 0 500000000 Second).
  - vm_compute; discriminate.
  - vm_compute; reflexivity.
  - apply flood_policy_entry. reflexivity.
  - vm_compute; discriminate.
Defined.




Lemma failed_critical_run_room :
  Z.of_nat (length failed_critical_run) * Z.of_nat (length failed_critical_run)
    <= int64_max.
Proof. vm_compute; discriminate. Qed.

(** In [failed_critical_run] the criticality-3 request completed first
    and the criticality-1 request third. *)
Lemma calculateAvgPosition_range_witness :
  let average crit :=
    Client.calculateAvgPosition (F := Q) failed_critical_run
      (Client.criticalityGroups failed_critical_run crit) in
  let high := average 5 in
  let medium := average 3 in
  let low := average 1 in
  (medium == 1)%Q /\ (low == 3)%Q /\ high = 0%Q
  /\ (1 <= low)%Q
  /\ (low <= inject_Z (Z.of_nat (length failed_critical_run)))%Q.
Proof.
  cbv zeta. split; [vm_compute; reflexivity |]. split; [vm_compute; reflexivity |].
  destruct (calculateAvgPosition_range failed_critical_run 5
              failed_critical_run_room) as [Hempty _].
  split; [apply Hempty; reflexivity |].
  destruct (calculateAvgPosition_range failed_critical_run 1
              failed_critical_run_room) as [_ Hrange].
  apply Hrange. vm_compute; discriminate.
Defined.

(** [failed_critical_run] passes although its critical request failed. *)
Lemma policyWorking_without_critical_results_witness :
  Client.policyWorking (F := Q) failed_critical_run = true
  /\ Client.policyWorking (F := Q) failed_critical_run
     = fltb (Client.calculateAvgPosition (F := Q) failed_critical_run
               (Client.criticalityGroups failed_critical_run 3))
            (Client.calculateAvgPosition (F := Q) failed_critical_run
               (Client.criticalityGroups failed_critical_run 1)).
Proof.
  split; [vm_compute; reflexivity |].
  apply (policyWorking_without_critical_results failed_critical_run).
  - exact failed_critical_run_room.
  - reflexivity.
  - vm_compute; discriminate.
Defined.
